(** * ProjectSync: conflict detection, resolution and sync orchestration

    A shallow embedding of [src/sync_tool.py] (classes [Config],
    [CommitDialog], [ConflictDialog] and the operations of [SyncApp]) and
    the properties of its untracked-file workflow.

    Conventions of the embedding.
    - Python [str] values are [string]s; the text handled here (command
      output, file names, commit messages) is taken to be ASCII, so that
      [str.strip], [str.isdigit] and [int] are the ASCII ones.
    - Everything outside the process (sub-processes, the file system, the
      clock's calendar, the user in front of a dialog) is a [World]: each
      query is answered from the history of what the program did so far,
      so two runs of the same command may answer differently.
    - The program's effects are recorded in a [trace], newest event first;
      a method of [SyncApp] is a function from the trace before the call
      to its return value and the trace after it.
    - The operations of [SyncApp] are embedded on the runs on which
      [datetime.fromtimestamp] returns; module [Raising] has conflict
      detection with the runs on which it raises, and the two agree
      whenever detection returns. *)

From Stdlib Require Import ZArith QArith Qround Lia Ascii String.
From stdpp Require Import base gmap sets list strings pretty.

Open Scope string_scope.
Open Scope list_scope.

#[local] Set Warnings "-clear-no-such-hyp".

(** ** Python string primitives *)

Module PyStr.

Definition newline : ascii := "010"%char.
Definition dquote : ascii := "034"%char.
Definition backslash : ascii := "092"%char.

(** [str.isspace] on one ASCII character: TAB..CR, FS..US and space. *)
Definition isspace (a : ascii) : bool :=
  let n := nat_of_ascii a in
  ((9 <=? n)%nat && (n <=? 13)%nat) || ((28 <=? n)%nat && (n <=? 32)%nat).

Fixpoint lstrip (s : string) : string :=
  match s with
  | EmptyString => EmptyString
  | String a s' => if isspace a then lstrip s' else s
  end.

Fixpoint rstrip (s : string) : string :=
  match s with
  | EmptyString => EmptyString
  | String a s' =>
      match rstrip s' with
      | EmptyString => if isspace a then EmptyString else String a EmptyString
      | r => String a r
      end
  end.

(** [s.strip()] *)
Definition strip (s : string) : string := rstrip (lstrip s).

(** [s.split('\n')]: never the empty list, [''.split('\n') == ['']]. *)
Fixpoint split_lines (s : string) : list string :=
  match s with
  | EmptyString => [EmptyString]
  | String a s' =>
      if Ascii.eqb a newline then EmptyString :: split_lines s'
      else match split_lines s' with
           | [] => [String a EmptyString]
           | x :: xs => String a x :: xs
           end
  end.

(** ['\n'.join(l)] *)
Fixpoint join_lines (l : list string) : string :=
  match l with
  | [] => EmptyString
  | [x] => x
  | x :: rest => x +:+ String newline (join_lines rest)
  end.

Definition is_digit_char (a : ascii) : bool :=
  let n := nat_of_ascii a in (48 <=? n)%nat && (n <=? 57)%nat.

Fixpoint all_digits (s : string) : bool :=
  match s with
  | EmptyString => true
  | String a s' => is_digit_char a && all_digits s'
  end.

(** [s.isdigit()]: at least one character and all of them digits. *)
Definition isdigit (s : string) : bool :=
  match s with
  | EmptyString => false
  | _ => all_digits s
  end.

Fixpoint int_acc (acc : Z) (s : string) : Z :=
  match s with
  | EmptyString => acc
  | String a s' => int_acc (10 * acc + (Z.of_nat (nat_of_ascii a) - 48)) s'
  end.

(** [int(s)] for a string of digits (the only use in the source is
    guarded by [isdigit]). *)
Definition int (s : string) : Z := int_acc 0 s.

(** [s.replace('"', '\\"')] *)
Fixpoint escape_dquotes (s : string) : string :=
  match s with
  | EmptyString => EmptyString
  | String a s' =>
      if Ascii.eqb a dquote
      then String backslash (String dquote (escape_dquotes s'))
      else String a (escape_dquotes s')
  end.

(** Truth value of a string: [bool(s)]. *)
Definition truthy (s : string) : bool :=
  match s with EmptyString => false | _ => true end.

(** The double quote as a one-character string, for f-strings. *)
Definition q : string := String dquote EmptyString.

(** Two decimal digits with a leading zero ([%m], [%d], [%H], ...). *)
Definition digit (n : nat) : ascii := ascii_of_nat (48 + n mod 10).
Definition pad2 (n : nat) : string :=
  String (digit (n / 10)) (String (digit n) EmptyString).
(** Four decimal digits with leading zeros ([%Y]). *)
Definition pad4 (n : nat) : string := pad2 (n / 100) +:+ pad2 n.

End PyStr.

(** ** Data model *)

(** A project record: the dict stored in [Config.projects]. *)
Record Project := {
  name : string;
  local_path : string;
  remote_host : string;
  remote_path : string;
  git_branch : string
}.

(** The decision strings ['local'], ['remote'] and ['skip']. *)
Inductive choice := Local | Remote | Skip.

Global Instance choice_eq_dec : EqDecision choice.
Proof. solve_decision. Defined.

(** The dict built by [_detect_conflicts] for one file. *)
Record Conflict := {
  file : string;
  local_time : string;
  remote_time : string
}.

(** What [datetime.fromtimestamp] returns, as far as [strftime] reads it. *)
Record datetime := {
  year : nat; month : nat; day : nat;
  hour : nat; minute : nat; second : nat
}.

(** [dt.strftime('%Y-%m-%d %H:%M:%S')] *)
Definition strftime (dt : datetime) : string :=
  PyStr.pad4 (year dt) +:+ "-" +:+ PyStr.pad2 (month dt) +:+ "-" +:+
  PyStr.pad2 (day dt) +:+ " " +:+ PyStr.pad2 (hour dt) +:+ ":" +:+
  PyStr.pad2 (minute dt) +:+ ":" +:+ PyStr.pad2 (second dt).

(** How a sub-process started by [subprocess.run] ends. *)
Inductive proc_outcome :=
| Completed (returncode : Z) (stdout stderr : string)
| TimeoutExpired
| OtherException (msg : string).

(** What the user does in front of the conflict dialog: press one of the
    three decision buttons (with the "apply to all remaining" box as it is
    ticked at that moment) or press "Cancel All". *)
Inductive conflict_action :=
| Decide (c : choice) (apply_all : bool)
| CancelAll.

(** What the user does in front of the commit dialog. *)
Inductive commit_action :=
| CommitAndPush (typed : string)
| CommitCancel.

(** Effects of the program, as seen from outside. *)
Inductive event :=
| ERun (cmd : string) (cwd : option string)
| EStatus (msg color : string)
| EShowError (title msg : string)
| EShowInfo (title msg : string)
| EAskYesNo (title msg : string)
| ECommitDialog (summary : string)
| EConflictDialog (conflicts : list Conflict)
| ETempFile (path content : string)
| EUnlink (path : string).

(** Newest event first. *)
Definition trace := list event.

(** The environment.  Every answer may depend on the history. *)
Record World := {
  subprocess_run : trace -> string -> option string -> proc_outcome;
  path_exists : trace -> string -> bool;
  getmtime : trace -> string -> Q;
  fromtimestamp : Q -> datetime;
  askyesno : trace -> string -> string -> bool;
  commit_script : trace -> string -> list commit_action;
  conflict_script : trace -> list Conflict -> list conflict_action;
  mkstemp : trace -> string
}.

(** The part of [SyncApp] the operations read. *)
Record SyncApp := {
  current_project : option Project
}.

(** ** Effects: a state monad over the trace *)

Definition M (A : Type) : Type := trace -> A * trace.

Definition ret {A} (a : A) : M A := fun t => (a, t).

Definition bind {A B} (m : M A) (k : A -> M B) : M B :=
  fun t => let (a, t') := m t in k a t'.

Declare Scope py_scope.
Delimit Scope py_scope with py.
Notation "x <- m ;; k" := (bind m (fun x => k))
  (at level 100, m at next level, right associativity) : py_scope.
Notation "m ;; k" := (bind m (fun _ => k))
  (at level 100, right associativity) : py_scope.
Open Scope py_scope.

(** Record one effect. *)
Definition emit (e : event) : M unit := fun t => (tt, e :: t).

(** Ask the environment, given the history so far. *)
Definition ask {A} (oracle : trace -> A) : M A := fun t => (oracle t, t).

(** The commands run during a trace, newest first. *)
Definition commands (t : trace) : list string :=
  omap (fun e => match e with ERun cmd _ => Some cmd | _ => None end) t.

(** The error dialogs shown during a trace. *)
Definition errors_shown (t : trace) : list event :=
  List.filter (fun e => match e with EShowError _ _ => true | _ => false end) t.

(** ** The command runner and the file-system helpers *)

(** [os.path.join(a, b)] on POSIX. *)
Definition starts_with_sep (s : string) : bool :=
  match s with
  | String a _ => Ascii.eqb a "/"%char
  | EmptyString => false
  end.

Fixpoint ends_with_sep (s : string) : bool :=
  match s with
  | EmptyString => false
  | String a EmptyString => Ascii.eqb a "/"%char
  | String _ s' => ends_with_sep s'
  end.

Definition os_path_join (a b : string) : string :=
  if starts_with_sep b then b
  else if negb (PyStr.truthy a) || ends_with_sep a then a +:+ b
  else a +:+ "/" +:+ b.

Section Operations.

Variable w : World.

(** [SyncApp._set_status] *)
Definition _set_status (msg color : string) : M unit :=
  emit (EStatus msg color).

(** [messagebox.showerror] and [messagebox.showinfo] *)
Definition showerror (title msg : string) : M unit := emit (EShowError title msg).
Definition showinfo (title msg : string) : M unit := emit (EShowInfo title msg).

(** [SyncApp._run_command]: run, combine stdout and stderr, strip; a
    timeout or any other exception is a failure with a message. *)
Definition _run_command (cmd : string) (cwd : option string) : M (bool * string) :=
  result <- ask (fun t => subprocess_run w t cmd cwd) ;;
  emit (ERun cmd cwd) ;;
  match result with
  | Completed returncode stdout stderr =>
      ret ((returncode =? 0)%Z, PyStr.strip (stdout +:+ stderr))
  | TimeoutExpired => ret (false, "Command timed out")
  | OtherException msg => ret (false, msg)
  end.

(** [SyncApp._get_git_status] *)
Definition _get_git_status (p : Project) : M (bool * string) :=
  r <- _run_command "git status --porcelain" (Some (local_path p)) ;;
  let (success, output) := r in
  if negb success then ret (false, "Error checking git status")
  else ret (PyStr.truthy (PyStr.strip output), PyStr.strip output).

Definition ls_files : string := "git ls-files --others --ignored --exclude-standard".

(** [SyncApp._get_gitignored_files] *)
Definition _get_gitignored_files (p : Project) (local : bool) : M (list string) :=
  r <- (if local
        then _run_command ls_files (Some (local_path p))
        else _run_command
               ("ssh " +:+ remote_host p +:+ " " +:+ PyStr.q +:+ "cd " +:+
                remote_path p +:+ " && " +:+ ls_files +:+ PyStr.q)
               None) ;;
  let (success, output) := r in
  if success && PyStr.truthy output
  then ret (PyStr.split_lines (PyStr.strip output))
  else ret [].

Definition stat_cmd (p : Project) (filepath : string) : string :=
  "ssh " +:+ remote_host p +:+ " " +:+ PyStr.q +:+ "stat -f %m " +:+
  remote_path p +:+ "/" +:+ filepath +:+ PyStr.q +:+ " 2>/dev/null || ssh " +:+
  remote_host p +:+ " " +:+ PyStr.q +:+ "stat -c %Y " +:+
  remote_path p +:+ "/" +:+ filepath +:+ PyStr.q +:+ " 2>/dev/null".

(** [SyncApp._get_file_mtime]: the formatted time, or [None], on the
    runs on which [datetime.fromtimestamp] returns ([Raising] below has
    the runs on which it raises). *)
Definition _get_file_mtime (p : Project) (filepath : string) (local : bool)
  : M (option string) :=
  if local then
    let full_path := os_path_join (local_path p) filepath in
    present <- ask (fun t => path_exists w t full_path) ;;
    if present then
      mtime <- ask (fun t => getmtime w t full_path) ;;
      ret (Some (strftime (fromtimestamp w mtime)))
    else ret None
  else
    r <- _run_command (stat_cmd p filepath) None ;;
    let (success, output) := r in
    if success && PyStr.isdigit (PyStr.strip output) then
      let mtime := PyStr.int (PyStr.strip output) in
      ret (Some (strftime (fromtimestamp w (inject_Z mtime))))
    else ret None.

(** Truth value of an optional string ([None] and [''] are false). *)
Definition truthy_opt (o : option string) : bool :=
  match o with
  | Some s => PyStr.truthy s
  | None => false
  end.

(** The loop of [_detect_conflicts] over the common files, with the
    list [conflicts] it appends to. *)
Fixpoint detect_loop (p : Project) (common_files : list string)
    (conflicts : list Conflict) : M (list Conflict) :=
  match common_files with
  | [] => ret conflicts
  | f :: rest =>
      local_time <- _get_file_mtime p f true ;;
      remote_time <- _get_file_mtime p f false ;;
      match local_time, remote_time with
      | Some lt, Some rt =>
          if truthy_opt local_time && truthy_opt remote_time
             && bool_decide (lt <> rt)
          then detect_loop p rest
                 (conflicts ++ [{| file := f; local_time := lt; remote_time := rt |}])
          else detect_loop p rest conflicts
      | _, _ => detect_loop p rest conflicts
      end
  end.

(** [SyncApp._detect_conflicts] (its [direction] argument is unused). *)
Definition _detect_conflicts (p : Project) : M (list Conflict) :=
  l <- _get_gitignored_files p true ;;
  r <- _get_gitignored_files p false ;;
  let local_files : gset string := list_to_set l in
  let remote_files : gset string := list_to_set r in
  let common_files := local_files ∩ remote_files in
  detect_loop p (elements common_files) [].

End Operations.

(** ** The conflict dialog *)

Module ConflictDialog.

(** The fields of the dialog object the program reads or writes;
    [destroyed] is the toolkit's: whether the window is gone. *)
Record t := {
  conflicts : list Conflict;
  results : gmap string choice;
  cancelled : bool;
  current_index : nat;
  destroyed : bool
}.

Definition destroy (d : t) : t :=
  {| conflicts := conflicts d; results := results d;
     cancelled := cancelled d; current_index := current_index d;
     destroyed := true |}.

(** [_show_conflict]: past the last conflict the window closes;
    otherwise only labels change. *)
Definition _show_conflict (index : nat) (d : t) : t :=
  if (length (conflicts d) <=? index)%nat then destroy d else d.

(** The [for] loop of [_resolve]: the same choice for every conflict
    of [remaining]. *)
Definition apply_to (c : choice) (remaining : list Conflict)
    (r : gmap string choice) : gmap string choice :=
  foldl (fun acc cf => <[file cf := c]> acc) r remaining.

(** [_resolve].  Indexing past the end raises inside a toolkit callback,
    which leaves the dialog as it was. *)
Definition _resolve (c : choice) (apply_all_var : bool) (d : t) : t :=
  match conflicts d !! current_index d with
  | None => d
  | Some conflict =>
      let results1 := <[file conflict := c]> (results d) in
      if apply_all_var then
        destroy
          {| conflicts := conflicts d;
             results := apply_to c (drop (S (current_index d)) (conflicts d)) results1;
             cancelled := cancelled d; current_index := current_index d;
             destroyed := destroyed d |}
      else
        _show_conflict (S (current_index d))
          {| conflicts := conflicts d; results := results1;
             cancelled := cancelled d; current_index := S (current_index d);
             destroyed := destroyed d |}
  end.

(** [_cancel] *)
Definition _cancel (d : t) : t :=
  destroy
    {| conflicts := conflicts d; results := results d;
       cancelled := true; current_index := current_index d;
       destroyed := destroyed d |}.

(** [__init__] up to [wait_window]. *)
Definition init (cs : list Conflict) : t :=
  _show_conflict 0
    {| conflicts := cs; results := ∅; cancelled := false;
       current_index := 0; destroyed := false |}.

Definition handle (a : conflict_action) (d : t) : t :=
  match a with
  | Decide c apply_all => _resolve c apply_all d
  | CancelAll => _cancel d
  end.

(** [wait_window]: the user's actions are handled one by one until the
    window is destroyed; a user who stops acting has closed the window
    (the toolkit then destroys it, no handler of the dialog runs). *)
Fixpoint wait_window (d : t) (script : list conflict_action) : t :=
  if destroyed d then d
  else match script with
       | [] => destroy d
       | a :: rest => wait_window (handle a d) rest
       end.

(** The dialog from construction to the return of the constructor. *)
Definition run (cs : list Conflict) (script : list conflict_action) : t :=
  wait_window (init cs) script.

End ConflictDialog.

(** ** The commit dialog *)

Module CommitDialog.

(** [_commit] on the typed text: an empty message shows an error and
    keeps the dialog open; otherwise the stripped message is the result.
    "Cancel" or closing the window leaves the result [None].  Returns
    the error dialogs shown (newest first) and [self.result]. *)
Fixpoint wait_window (script : list commit_action) (shown : list event)
  : list event * option string :=
  match script with
  | [] => (shown, None)
  | CommitCancel :: _ => (shown, None)
  | CommitAndPush typed :: rest =>
      let msg := PyStr.strip typed in
      if negb (PyStr.truthy msg)
      then wait_window rest (EShowError "Error" "Commit message is required" :: shown)
      else (shown, Some msg)
  end.

End CommitDialog.

Section Sync.

Variable w : World.

(** Constructing a [ConflictDialog] blocks until the user is done. *)
Definition show_conflict_dialog (cs : list Conflict) : M ConflictDialog.t :=
  script <- ask (fun t => conflict_script w t cs) ;;
  emit (EConflictDialog cs) ;;
  ret (ConflictDialog.run cs script).

(** Constructing a [CommitDialog]; returns [dialog.result]. *)
Definition show_commit_dialog (summary : string) : M (option string) :=
  script <- ask (fun t => commit_script w t summary) ;;
  emit (ECommitDialog summary) ;;
  let (shown, result) := CommitDialog.wait_window script [] in
  fun t => (result, (shown ++ t)%list).

(** [messagebox.askyesno] *)
Definition ask_yes_no (title msg : string) : M bool :=
  answer <- ask (fun t => askyesno w t title msg) ;;
  emit (EAskYesNo title msg) ;;
  ret answer.

(** The files of a Resolution that a sync must leave alone:
    [[f for f, choice in dialog.results.items() if choice != keep]]. *)
Definition exclude_files (keep : choice) (results : gmap string choice)
  : list string :=
  (filter (fun fc => fc.2 <> keep) (map_to_list results)).*1.

(** [[f for f in files if f not in exclude_files]] *)
Definition keep_files (files exclude : list string) : list string :=
  filter (fun f => f ∉ exclude) files.

(** The transfer command of each direction. *)
Definition rsync_to_remote (p : Project) (temp_file : string) : string :=
  "rsync -avz --files-from=" +:+ PyStr.q +:+ temp_file +:+ PyStr.q +:+ " " +:+
  PyStr.q +:+ local_path p +:+ "/" +:+ PyStr.q +:+ " " +:+
  PyStr.q +:+ remote_host p +:+ ":" +:+ remote_path p +:+ "/" +:+ PyStr.q.

Definition rsync_from_remote (p : Project) (temp_file : string) : string :=
  "rsync -avz --files-from=" +:+ PyStr.q +:+ temp_file +:+ PyStr.q +:+ " " +:+
  PyStr.q +:+ remote_host p +:+ ":" +:+ remote_path p +:+ "/" +:+ PyStr.q +:+ " " +:+
  PyStr.q +:+ local_path p +:+ "/" +:+ PyStr.q.

Definition nl : string := String PyStr.newline EmptyString.

(** The rest of [_sync_to_remote] once [exclude_files] is known: list
    the local files, filter, and hand the exact list to the transfer
    tool through a temporary file that is removed afterwards. *)
Definition push_files (p : Project) (exclude : list string) : M bool :=
  _set_status "Syncing untracked files to remote..." "blue" ;;
  listed <- _get_gitignored_files w p true ;;
  let files := keep_files listed exclude in
  match files with
  | [] => _set_status "No untracked files to sync" "gray" ;; ret true
  | _ :: _ =>
      temp_file <- ask (mkstemp w) ;;
      emit (ETempFile temp_file (PyStr.join_lines files)) ;;
      r <- _run_command w (rsync_to_remote p temp_file) None ;;
      let (success, output) := r in
      b <- (if success
            then _set_status ("Synced " +:+ pretty (length files) +:+ " files to remote")
                   "green" ;; ret true
            else _set_status "Sync failed" "red" ;;
                 showerror "Error" ("Sync failed:" +:+ nl +:+ output) ;; ret false) ;;
      emit (EUnlink temp_file) ;;
      ret b
  end.

(** [SyncApp._sync_to_remote] *)
Definition _sync_to_remote (self : SyncApp) (resolve_conflicts : bool) : M bool :=
  match current_project self with
  | None => ret false
  | Some p =>
      _set_status "Checking for conflicts..." "blue" ;;
      if resolve_conflicts then
        conflicts <- _detect_conflicts w p ;;
        match conflicts with
        | _ :: _ =>
            dialog <- show_conflict_dialog conflicts ;;
            if ConflictDialog.cancelled dialog
            then _set_status "Sync cancelled" "gray" ;; ret false
            else push_files p (exclude_files Local (ConflictDialog.results dialog))
        | [] => push_files p []
        end
      else push_files p []
  end.

(** The rest of [_sync_from_remote] once [exclude_files] is known. *)
Definition pull_files (p : Project) (exclude : list string) : M bool :=
  _set_status "Syncing untracked files from remote..." "blue" ;;
  listed <- _get_gitignored_files w p false ;;
  let files := keep_files listed exclude in
  match files with
  | [] => _set_status "No untracked files to sync" "gray" ;; ret true
  | _ :: _ =>
      temp_file <- ask (mkstemp w) ;;
      emit (ETempFile temp_file (PyStr.join_lines files)) ;;
      r <- _run_command w (rsync_from_remote p temp_file) None ;;
      let (success, output) := r in
      b <- (if success
            then _set_status ("Synced " +:+ pretty (length files) +:+ " files from remote")
                   "green" ;; ret true
            else _set_status "Sync failed" "red" ;;
                 showerror "Error" ("Sync failed:" +:+ nl +:+ output) ;; ret false) ;;
      emit (EUnlink temp_file) ;;
      ret b
  end.

(** [SyncApp._sync_from_remote] *)
Definition _sync_from_remote (self : SyncApp) (resolve_conflicts : bool) : M bool :=
  match current_project self with
  | None => ret false
  | Some p =>
      _set_status "Checking for conflicts..." "blue" ;;
      if resolve_conflicts then
        conflicts <- _detect_conflicts w p ;;
        match conflicts with
        | _ :: _ =>
            dialog <- show_conflict_dialog conflicts ;;
            if ConflictDialog.cancelled dialog
            then _set_status "Sync cancelled" "gray" ;; ret false
            else pull_files p (exclude_files Remote (ConflictDialog.results dialog))
        | [] => pull_files p []
        end
      else pull_files p []
  end.

(** [SyncApp._git_push] (its [skip_commit_check] argument is unused). *)
Definition _git_push (self : SyncApp) : M bool :=
  match current_project self with
  | None => ret false
  | Some p =>
      let cwd := Some (local_path p) in
      _set_status "Checking for uncommitted changes..." "blue" ;;
      st <- _get_git_status w p ;;
      let (is_dirty, summary) := st in
      let push :=
        _set_status "Pushing to remote..." "blue" ;;
        r <- _run_command w ("git push origin " +:+ git_branch p) cwd ;;
        let (success, output) := r in
        if success then _set_status "Push successful" "green" ;; ret true
        else _set_status "Push failed" "red" ;;
             showerror "Error" ("Push failed:" +:+ nl +:+ output) ;; ret false in
      if is_dirty then
        result <- show_commit_dialog summary ;;
        if negb (truthy_opt result)
        then _set_status "Push cancelled" "gray" ;; ret false
        else
          _set_status "Committing changes..." "blue" ;;
          let commit_msg := PyStr.escape_dquotes (default "" result) in
          r <- _run_command w
                 ("git add -A && git commit -m " +:+ PyStr.q +:+ commit_msg +:+ PyStr.q)
                 cwd ;;
          let (success, output) := r in
          if negb success
          then _set_status "Commit failed" "red" ;;
               showerror "Error" ("Commit failed:" +:+ nl +:+ output) ;; ret false
          else push
      else push
  end.

(** [SyncApp._git_pull] *)
Definition _git_pull (self : SyncApp) : M bool :=
  match current_project self with
  | None => ret false
  | Some p =>
      let cwd := Some (local_path p) in
      st <- _get_git_status w p ;;
      let pull :=
        _set_status "Pulling from remote..." "blue" ;;
        r <- _run_command w ("git pull origin " +:+ git_branch p) cwd ;;
        let (success, output) := r in
        if success then _set_status "Pull successful" "green" ;; ret true
        else _set_status "Pull failed" "red" ;;
             showerror "Error" ("Pull failed:" +:+ nl +:+ output) ;; ret false in
      if st.1 then
        go <- ask_yes_no "Warning"
                ("You have uncommitted changes. Pull may fail or create merge conflicts."
                 +:+ nl +:+ nl +:+ "Continue anyway?") ;;
        if negb go then _set_status "Pull cancelled" "gray" ;; ret false
        else pull
      else pull
  end.

(** The [for] loop of [_full_sync] over [(step_name, step_func)]. *)
Fixpoint run_steps (steps : list (string * M bool)) : M unit :=
  match steps with
  | [] =>
      _set_status "Full sync complete!" "green" ;;
      showinfo "Success" "Full sync completed successfully!"
  | (step_name, step_func) :: rest =>
      _set_status (step_name +:+ "...") "blue" ;;
      ok <- step_func ;;
      if negb ok
      then _set_status ("Full sync stopped at: " +:+ step_name) "orange"
      else run_steps rest
  end.

(** [SyncApp._full_sync] *)
Definition _full_sync (self : SyncApp) : M unit :=
  match current_project self with
  | None => ret tt
  | Some _ =>
      let steps :=
        [ ("Syncing untracked to remote", _sync_to_remote self true);
          ("Pushing to git", _git_push self);
          ("Pulling from git", _git_pull self);
          ("Syncing untracked from remote", _sync_from_remote self true) ] in
      run_steps steps
  end.

End Sync.

(** ** The persisted project store *)

Module Config.

(** A decoded JSON document. *)
#[local] Unset Elimination Schemes.
Inductive json :=
| JNull
| JBool (b : bool)
| JNumber (n : Z)
| JString (s : string)
| JArray (items : list json)
| JObject (members : list (string * json)).
#[local] Set Elimination Schemes.

(** [CONFIG_FILE] as [load] finds it: absent; present but failing with
    [IOError] when opened or read; present but making [open] or
    [json.load] raise an exception that is neither [IOError] nor
    [JSONDecodeError] ([UnicodeDecodeError] for bytes that are not
    text, [RecursionError] for text nested too deeply); or present with
    text that [json.load] decodes or rejects with [JSONDecodeError]. *)
Inductive store_file :=
| Missing
| Unreadable
| Breaking (exc : string)
| Text (content : string).

(** What a call of [load] ends with: [self.projects] assigned, or an
    exception that no handler of [load] catches. *)
Inductive outcome :=
| Loaded (projects : json)
| Raised (exc : string).

(** [dict.get(key, default)]; of two members with one key the later
    one is the dict's. *)
Fixpoint dict_get (members : list (string * json)) (key : string)
    (default : json) : json :=
  match members with
  | [] => default
  | (k, v) :: rest =>
      if decide (k = key) then dict_get rest key v
      else dict_get rest key default
  end.

Section Load.

(** [json.load] on the text of the file: [None] is [JSONDecodeError]. *)
Variable json_load : string -> option json.

(** [Config.load]: the [except] clause catches [JSONDecodeError] and
    [IOError] and nothing else. *)
Definition load (f : store_file) : outcome :=
  match f with
  | Missing => Loaded (JArray [])
  | Unreadable => Loaded (JArray [])
  | Breaking exc => Raised exc
  | Text content =>
      match json_load content with
      | None => Loaded (JArray [])
      | Some (JObject members) =>
          Loaded (dict_get members "projects" (JArray []))
      | Some _ => Raised "AttributeError"
      end
  end.

End Load.

End Config.

(** ** Conflict detection with its exceptions *)

(** [_get_file_mtime] and [_detect_conflicts] above describe the runs on
    which [datetime.fromtimestamp] returns.  It raises for a time it
    cannot represent ([ValueError] for a year past 9999, [OverflowError],
    [OSError]); nothing in [_get_file_mtime], [_detect_conflicts] or the
    sync operations catches that, so it ends the operation.  Here are
    the same two functions with these runs. *)
Module Raising.

Section Detect.

Variable w : World.

(** [raises ts]: the exception [datetime.fromtimestamp ts] raises, if
    any. *)
Variable raises : Q -> option string.

(** [datetime.fromtimestamp(mtime).strftime('%Y-%m-%d %H:%M:%S')]:
    the exception raised, or the formatted time. *)
Definition format_time (mtime : Q) : string + option string :=
  match raises mtime with
  | Some exc => inl exc
  | None => inr (Some (strftime (fromtimestamp w mtime)))
  end.

(** [SyncApp._get_file_mtime]: the exception it raises, or what it
    returns. *)
Definition _get_file_mtime (p : Project) (filepath : string) (local : bool)
  : M (string + option string) :=
  if local then
    let full_path := os_path_join (local_path p) filepath in
    present <- ask (fun t => path_exists w t full_path) ;;
    if present then
      mtime <- ask (fun t => getmtime w t full_path) ;;
      ret (format_time mtime)
    else ret (inr None)
  else
    r <- _run_command w (stat_cmd p filepath) None ;;
    let (success, output) := r in
    if success && PyStr.isdigit (PyStr.strip output) then
      let mtime := PyStr.int (PyStr.strip output) in
      ret (format_time (inject_Z mtime))
    else ret (inr None).

(** The loop of [_detect_conflicts]: an exception of either call ends
    it at once. *)
Fixpoint detect_loop (p : Project) (common_files : list string)
    (conflicts : list Conflict) : M (string + list Conflict) :=
  match common_files with
  | [] => ret (inr conflicts)
  | f :: rest =>
      local_time <- _get_file_mtime p f true ;;
      match local_time with
      | inl exc => ret (inl exc)
      | inr local_time =>
          remote_time <- _get_file_mtime p f false ;;
          match remote_time with
          | inl exc => ret (inl exc)
          | inr remote_time =>
              match local_time, remote_time with
              | Some lt, Some rt =>
                  if truthy_opt local_time && truthy_opt remote_time
                     && bool_decide (lt <> rt)
                  then detect_loop p rest
                         (conflicts ++
                          [{| file := f; local_time := lt; remote_time := rt |}])
                  else detect_loop p rest conflicts
              | _, _ => detect_loop p rest conflicts
              end
          end
      end
  end.

(** [SyncApp._detect_conflicts]: the exception it raises, or the list
    it returns. *)
Definition _detect_conflicts (p : Project) : M (string + list Conflict) :=
  l <- _get_gitignored_files w p true ;;
  r <- _get_gitignored_files w p false ;;
  let local_files : gset string := list_to_set l in
  let remote_files : gset string := list_to_set r in
  let common_files := local_files ∩ remote_files in
  detect_loop p (elements common_files) [].

End Detect.

End Raising.

(** * Vocabulary of the properties *)

(** ** Conflict detection *)

Section Probing.

Variable w : World.
Variable p : Project.

(** Both timestamps of one file, as one iteration of the loop of
    [_detect_conflicts] resolves them. *)
Definition probe (f : string) : M (option string * option string) :=
  local_time <- _get_file_mtime w p f true ;;
  remote_time <- _get_file_mtime w p f false ;;
  ret (local_time, remote_time).

(** [examined fs t f t_f]: when the loop runs over [fs] from the
    history [t], it reaches the file [f] with the history [t_f], which
    is [t] and one remote [stat] command for each earlier file. *)
Inductive examined : list string -> trace -> string -> trace -> Prop :=
| examined_here f rest t : examined (f :: rest) t f t
| examined_later g rest t f t_f :
    examined rest (ERun (stat_cmd p g) None :: t) f t_f ->
    examined (g :: rest) t f t_f.

(** The conflict the loop body appends for [f], if any. *)
Definition verdict (f : string) (times : option string * option string)
  : list Conflict :=
  match times with
  | (Some lt, Some rt) =>
      if bool_decide (lt <> rt)
      then [{| file := f; local_time := lt; remote_time := rt |}]
      else []
  | _ => []
  end.

(** The command of the lister for each side, with its working directory. *)
Definition ls_cmd (local : bool) : string * option string :=
  if local then (ls_files, Some (local_path p))
  else ("ssh " +:+ remote_host p +:+ " " +:+ PyStr.q +:+ "cd " +:+
        remote_path p +:+ " && " +:+ ls_files +:+ PyStr.q, None).

End Probing.

(** ** The resolution flow *)

(** The dialog while it presents conflict [index], with the decisions
    [r] recorded so far. *)
Definition presenting (cs : list Conflict) (index : nat)
    (r : gmap string choice) : ConflictDialog.t :=
  {| ConflictDialog.conflicts := cs; ConflictDialog.results := r;
     ConflictDialog.cancelled := false; ConflictDialog.current_index := index;
     ConflictDialog.destroyed := false |}.

(** The decisions recorded by answering conflicts one by one. *)
Definition record_each (decided : list (Conflict * choice))
    (r : gmap string choice) : gmap string choice :=
  foldl (fun acc dc => <[file dc.1 := dc.2]> acc) r decided.

Definition one_by_one (individual : list choice) : list conflict_action :=
  (fun c => Decide c false) <$> individual.

(** ** The transfer stage of a sync *)

(** The file lists written for the transfer tool during a trace, newest
    first: the path and the content of each temporary file. *)
Definition temp_files (t : trace) : list (string * string) :=
  omap (fun e => match e with
                 | ETempFile path content => Some (path, content)
                 | _ => None
                 end) t.

(** [transfer_done rsync files listing after]: between the history
    [listing] (right after the authoritative side was listed) and the
    history [after], the transfer tool ran once on exactly [files],
    written to a fresh temporary file, or, for no files, did not run and
    no file list was written. *)
Definition transfer_done (rsync : string -> string) (files : list string)
    (listing after : trace) : Prop :=
  match files with
  | [] => temp_files after = temp_files listing /\
          commands after = commands listing
  | _ :: _ =>
      exists tmp,
        temp_files after = (tmp, PyStr.join_lines files) :: temp_files listing /\
        commands after = rsync tmp :: commands listing
  end.

(** ** Git operations *)

Definition status_cmd : string := "git status --porcelain".

Definition commit_cmd (msg : string) : string :=
  "git add -A && git commit -m " +:+ PyStr.q +:+ PyStr.escape_dquotes msg +:+ PyStr.q.

Definition push_cmd (p : Project) : string := "git push origin " +:+ git_branch p.

Definition pull_cmd (p : Project) : string := "git pull origin " +:+ git_branch p.

Section Pushing.

Variable w : World.
Variable p : Project.

(** The push proper: the last part of [_git_push]. *)
Definition push_branch (t : trace) : bool * trace :=
  let t1 := EStatus "Pushing to remote..." "blue" :: t in
  let r := (_run_command w (push_cmd p) (Some (local_path p)) t1).1 in
  let t2 := ERun (push_cmd p) (Some (local_path p)) :: t1 in
  if r.1 then (true, EStatus "Push successful" "green" :: t2)
  else (false, EShowError "Error" ("Push failed:" +:+ nl +:+ r.2) ::
               EStatus "Push failed" "red" :: t2).

End Pushing.

(** ** The full-sync pipeline *)

Definition mark (step_name : string) (t : trace) : trace :=
  EStatus (step_name +:+ "...") "blue" :: t.

Definition stopped_at (step_name : string) (t : trace) : trace :=
  EStatus ("Full sync stopped at: " +:+ step_name) "orange" :: t.

Definition completed (t : trace) : trace :=
  EShowInfo "Success" "Full sync completed successfully!" ::
  EStatus "Full sync complete!" "green" :: t.

(** [all_succeed steps t t']: run in order from the history [t], every
    step of [steps] reports success, and they leave the history [t']. *)
Inductive all_succeed : list (string * M bool) -> trace -> trace -> Prop :=
| all_succeed_nil t : all_succeed [] t t
| all_succeed_cons step_name step_func rest t t' :
    (step_func (mark step_name t)).1 = true ->
    all_succeed rest (step_func (mark step_name t)).2 t' ->
    all_succeed ((step_name, step_func) :: rest) t t'.

(** ** A sample installation *)

Module Demo.

Definition project : Project :=
  {| name := "site"; local_path := "/home/ann/site"; remote_host := "mini";
     remote_path := "/Users/ann/site"; git_branch := "main" |}.

Definition app : SyncApp := {| current_project := Some project |}.

(** A clock set to UTC: the civil date of a POSIX timestamp. *)
Definition utc (ts : Q) : datetime :=
  let s := Qfloor ts in
  let z := (s / 86400 + 719468)%Z in
  let secs := (s mod 86400)%Z in
  let era := (z / 146097)%Z in
  let doe := (z - era * 146097)%Z in
  let yoe := ((doe - doe / 1460 + doe / 36524 - doe / 146096) / 365)%Z in
  let doy := (doe - (365 * yoe + yoe / 4 - yoe / 100))%Z in
  let mp := ((5 * doy + 2) / 153)%Z in
  let d := (doy - (153 * mp + 2) / 5 + 1)%Z in
  let m := (if mp <? 10 then mp + 3 else mp - 9)%Z in
  let y := (yoe + era * 400 + (if m <=? 2 then 1 else 0))%Z in
  {| year := Z.to_nat y; month := Z.to_nat m; day := Z.to_nat d;
     hour := Z.to_nat (secs / 3600); minute := Z.to_nat (secs / 60 mod 60);
     second := Z.to_nat (secs mod 60) |}.

(** The answer of a command, from a table; unknown commands succeed
    silently. *)
Fixpoint answer (table : list (string * proc_outcome)) (cmd : string)
  : proc_outcome :=
  match table with
  | [] => Completed 0 "" ""
  | (c, o) :: rest => if decide (c = cmd) then o else answer rest cmd
  end.

Fixpoint mtime_of (table : list (string * Q)) (path : string) : Q :=
  match table with
  | [] => 0%Q
  | (k, v) :: rest => if decide (k = path) then v else mtime_of rest path
  end.

(** A world whose answers do not change over time. *)
Definition world (table : list (string * proc_outcome))
    (local_mtimes : list (string * Q))
    (on_conflicts : list conflict_action)
    (on_commit : list commit_action) (yes : bool) : World :=
  {| subprocess_run := fun _ cmd _ => answer table cmd;
     path_exists := fun _ path => bool_decide (path ∈ local_mtimes.*1);
     getmtime := fun _ path => mtime_of local_mtimes path;
     fromtimestamp := utc;
     askyesno := fun _ _ _ => yes;
     commit_script := fun _ _ => on_commit;
     conflict_script := fun _ _ => on_conflicts;
     mkstemp := fun _ => "/tmp/tmpq1w2e3.txt" |}.

Definition lines (l : list string) : string := PyStr.join_lines l.

(** Both sides list [notes.txt] and [.env]; the remote [stat] fails for
    [.env] and the two copies of [notes.txt] are five seconds apart. *)
Definition listings : list (string * proc_outcome) :=
  [ (ls_files, Completed 0 (lines ["build.log"; "notes.txt"; ".env"]) "");
    ((ls_cmd project false).1,
     Completed 0 (lines [".env"; "notes.txt"; "cache.db"]) "");
    (stat_cmd project "notes.txt", Completed 0 ("1700000000" +:+ nl) "");
    (stat_cmd project ".env", Completed 1 "" "") ].

Definition mtimes : list (string * Q) :=
  [ ("/home/ann/site/notes.txt", 3400000011 # 2);
    ("/home/ann/site/.env", 1690000000 # 1) ].

(** The local side lists [A], [B] and [C], the remote side [A] and [B],
    and both copies of [A] and of [B] differ in time. *)
Definition abc_listings : list (string * proc_outcome) :=
  [ (ls_files, Completed 0 (lines ["A"; "B"; "C"]) "");
    ((ls_cmd project false).1, Completed 0 (lines ["A"; "B"]) "");
    (stat_cmd project "A", Completed 0 ("1700000000" +:+ nl) "");
    (stat_cmd project "B", Completed 0 ("1700000000" +:+ nl) "") ].

Definition abc_mtimes : list (string * Q) :=
  [ ("/home/ann/site/A", 1700000060 # 1);
    ("/home/ann/site/B", 1700000120 # 1) ].

(** [datetime.fromtimestamp] of this clock: [ValueError] for a year
    outside 1..9999. *)
Definition out_of_range (ts : Q) : option string :=
  let y := Z.of_nat (year (utc ts)) in
  if ((1 <=? y) && (y <=? 9999))%Z then None else Some "ValueError".

(** Both sides list [old.dat]; it is gone from the local directory and
    the remote [stat] prints a time in the year 10000. *)
Definition far_listings : list (string * proc_outcome) :=
  [ (ls_files, Completed 0 (lines ["old.dat"]) "");
    ((ls_cmd project false).1, Completed 0 (lines ["old.dat"]) "");
    (stat_cmd project "old.dat", Completed 0 ("253402300800" +:+ nl) "") ].

End Demo.

(** * Further vocabulary *)

(** The temporary files removed during a trace, newest first. *)
Definition unlinked (t : trace) : list string :=
  omap (fun e => match e with EUnlink path => Some path | _ => None end) t.

(** The continuation of [_git_pull] after the dirtiness check: the pull
    proper. *)
Definition pull_branch (w : World) (p : Project) (t : trace) : bool * trace :=
  let t1 := EStatus "Pulling from remote..." "blue" :: t in
  let r := (_run_command w (pull_cmd p) (Some (local_path p)) t1).1 in
  let t2 := ERun (pull_cmd p) (Some (local_path p)) :: t1 in
  if r.1 then (true, EStatus "Pull successful" "green" :: t2)
  else (false, EShowError "Error" ("Pull failed:" +:+ nl +:+ r.2) ::
               EStatus "Pull failed" "red" :: t2).

(** The question [_git_pull] asks over a dirty tree. *)
Definition pull_warning : string :=
  "You have uncommitted changes. Pull may fail or create merge conflicts."
  +:+ nl +:+ nl +:+ "Continue anyway?".

(** The dialogs that asked the user something during a trace (commit
    message, yes/no question, conflict resolution), newest first. *)
Definition prompts (t : trace) : list event :=
  List.filter (fun e => match e with
                        | ECommitDialog _ | EAskYesNo _ _ | EConflictDialog _ => true
                        | _ => false
                        end) t.

(** * Project management and connection test *)

(** [needle in s] *)
Fixpoint str_contains (needle s : string) : bool :=
  String.prefix needle s ||
  match s with
  | EmptyString => false
  | String _ s' => str_contains needle s'
  end.

(** The command of [_test_connection]. *)
Definition test_cmd (p : Project) : string :=
  "ssh -o ConnectTimeout=10 -o BatchMode=yes " +:+ remote_host p +:+ " " +:+
  PyStr.q +:+ "echo connected" +:+ PyStr.q.

Definition connection_failed_msg (host output : string) : string :=
  "Could not connect to " +:+ host +:+ nl +:+ nl +:+ "Make sure:" +:+ nl +:+
  "1. SSH keys are set up for passwordless login" +:+ nl +:+
  "2. The host is reachable" +:+ nl +:+
  "3. The host alias exists in ~/.ssh/config" +:+ nl +:+ nl +:+
  "Error: " +:+ output.

(** [SyncApp._test_connection] *)
Definition _test_connection (w : World) (self : SyncApp) : M unit :=
  match current_project self with
  | None => showerror "Error" "No project selected"
  | Some p =>
      _set_status "Testing SSH connection..." "blue" ;;
      r <- _run_command w (test_cmd p) None ;;
      let (success, output) := r in
      if success && str_contains "connected" output
      then _set_status "Connection successful!" "green" ;;
           showinfo "Success" ("Successfully connected to " +:+ remote_host p)
      else _set_status "Connection failed" "red" ;;
           showerror "Connection Failed"
             (connection_failed_msg (remote_host p) output)
  end.

(** ** The project dialog *)

Module ProjectDialog.

(** The five entries of the dialog, as the user left them. *)
Record fields := {
  name_var : string;
  local_var : string;
  host_var : string;
  remote_var : string;
  branch_var : string
}.

(** What the user does: press "Save" with the entries as they are, or
    "Cancel". *)
Inductive action :=
| Save (typed : fields)
| Cancel.

(** [_save]: the error it shows, or [self.result]. [isdir] is
    [os.path.isdir]. *)
Definition _save (isdir : string -> bool) (typed : fields) : string + Project :=
  let name_ := PyStr.strip (name_var typed) in
  let local := PyStr.strip (local_var typed) in
  let host := PyStr.strip (host_var typed) in
  let remote := PyStr.strip (remote_var typed) in
  let branch := if PyStr.truthy (PyStr.strip (branch_var typed))
                then PyStr.strip (branch_var typed) else "main" in
  if negb (PyStr.truthy name_ && PyStr.truthy local && PyStr.truthy host
           && PyStr.truthy remote)
  then inl "All fields except branch are required"
  else if negb (isdir local)
  then inl ("Local path does not exist: " +:+ local)
  else inr {| name := name_; local_path := local; remote_host := host;
              remote_path := remote; git_branch := branch |}.

(** [wait_window]: a rejected "Save" shows its error and leaves the
    dialog open; "Cancel", or closing the window, leaves the result
    [None]. *)
Fixpoint wait_window (isdir : trace -> string -> bool) (script : list action)
  : M (option Project) :=
  match script with
  | [] => ret None
  | Cancel :: _ => ret None
  | Save typed :: rest =>
      r <- ask (fun t => _save (isdir t) typed) ;;
      match r with
      | inl msg => showerror "Error" msg ;; wait_window isdir rest
      | inr project => ret (Some project)
      end
  end.

End ProjectDialog.

(** What project management needs from outside, beside the [World]. *)
Record Desk := {
  isdir : trace -> string -> bool;
  project_script : trace -> string -> option Project -> list ProjectDialog.action;
  store_writable : trace -> bool;
  json_dump : Config.json -> string
}.

(** ** The application's project list *)

Module Gui.

(** The state project management reads and writes: [self.config.projects],
    the store file, [self.current_project], the combo box (its variable
    and its values) and whether the five operation buttons are enabled. *)
Record t := {
  projects : list Project;
  store : Config.store_file;
  current_project : option Project;
  project_var : string;
  combo_values : list string;
  buttons_enabled : bool
}.

Definition set_projects (ps : list Project) (a : t) : t :=
  {| projects := ps; store := store a; current_project := current_project a;
     project_var := project_var a; combo_values := combo_values a;
     buttons_enabled := buttons_enabled a |}.

Definition set_store (f : Config.store_file) (a : t) : t :=
  {| projects := projects a; store := f; current_project := current_project a;
     project_var := project_var a; combo_values := combo_values a;
     buttons_enabled := buttons_enabled a |}.

Definition set_current (c : option Project) (a : t) : t :=
  {| projects := projects a; store := store a; current_project := c;
     project_var := project_var a; combo_values := combo_values a;
     buttons_enabled := buttons_enabled a |}.

Definition set_var (v : string) (a : t) : t :=
  {| projects := projects a; store := store a; current_project := current_project a;
     project_var := v; combo_values := combo_values a;
     buttons_enabled := buttons_enabled a |}.

Definition set_values (names : list string) (a : t) : t :=
  {| projects := projects a; store := store a; current_project := current_project a;
     project_var := project_var a; combo_values := names;
     buttons_enabled := buttons_enabled a |}.

(** [SyncApp._set_buttons_state] *)
Definition _set_buttons_state (enabled : bool) (a : t) : t :=
  {| projects := projects a; store := store a; current_project := current_project a;
     project_var := project_var a; combo_values := combo_values a;
     buttons_enabled := enabled |}.

(** The dict [_save] of the project dialog builds, as JSON. *)
Definition project_json (p : Project) : Config.json :=
  Config.JObject
    [ ("name", Config.JString (name p));
      ("local_path", Config.JString (local_path p));
      ("remote_host", Config.JString (remote_host p));
      ("remote_path", Config.JString (remote_path p));
      ("git_branch", Config.JString (git_branch p)) ].

(** [{'projects': self.projects}] *)
Definition document (ps : list Project) : Config.json :=
  Config.JObject [("projects", Config.JArray (project_json <$> ps))].

(** The sync operations' view of the application. *)
Definition sync_app (a : t) : SyncApp :=
  Build_SyncApp (current_project a).

Section Manage.

Variable w : World.
Variable desk : Desk.

(** [Config.save]: [open] may raise; the flag tells whether the method
    returned. *)
Definition save (a : t) : M (t * bool) :=
  ok <- ask (store_writable desk) ;;
  if ok
  then ret (set_store (Config.Text (json_dump desk (document (projects a)))) a, true)
  else ret (a, false).

(** [Config.add_project] *)
Definition add_project (project : Project) (a : t) : M (t * bool) :=
  save (set_projects (projects a ++ [project]) a).

(** [Config.update_project]; an index past the end raises [IndexError]
    before anything changes. *)
Definition update_project (index : nat) (project : Project) (a : t)
  : M (t * bool) :=
  if decide (index < length (projects a))
  then save (set_projects (<[index := project]> (projects a)) a)
  else ret (a, false).

(** [Config.remove_project] *)
Definition remove_project (index : nat) (a : t) : M (t * bool) :=
  if decide (index < length (projects a))
  then save (set_projects (delete index (projects a)) a)
  else ret (a, false).

(** [Config.get_project_names] *)
Definition get_project_names (a : t) : list string := name <$> projects a.

(** The first project with a given name, with its index: the [for]
    loops of [_on_project_selected], [_edit_project] and
    [_remove_project]. *)
Definition first_named (n : string) (ps : list Project) : option (nat * Project) :=
  list_find (fun q => name q = n) ps.

(** [SyncApp._on_project_selected] *)
Definition _on_project_selected (a : t) : t :=
  match first_named (project_var a) (projects a) with
  | Some (_, q) => _set_buttons_state true (set_current (Some q) a)
  | None => _set_buttons_state false (set_current None a)
  end.

(** [SyncApp._update_project_list]; [project_combo.current(0)] puts the
    first name into the combo box's variable. *)
Definition _update_project_list (a : t) : t :=
  let names := get_project_names a in
  let a1 := set_values names a in
  match names with
  | first :: _ =>
      if negb (PyStr.truthy (project_var a1))
      then _on_project_selected (set_var first a1)
      else a1
  | [] => a1
  end.

(** The user picks a name in the combo box. *)
Definition select (n : string) (a : t) : t :=
  _on_project_selected (set_var n a).

(** Constructing a [ProjectDialog]; returns [dialog.result]. *)
Definition show_project_dialog (title : string) (project : option Project)
  : M (option Project) :=
  script <- ask (fun t => project_script desk t title project) ;;
  ProjectDialog.wait_window (isdir desk) script.

(** [SyncApp._add_project] *)
Definition _add_project (a : t) : M t :=
  result <- show_project_dialog "Add Project" None ;;
  match result with
  | None => ret a
  | Some project =>
      r <- add_project project a ;;
      let (a1, returned) := r in
      if negb returned then ret a1
      else
        let a2 := _update_project_list a1 in
        let a3 := _on_project_selected (set_var (name project) a2) in
        _set_status "Project added" "green" ;; ret a3
  end.

(** [SyncApp._edit_project] *)
Definition _edit_project (a : t) : M t :=
  match current_project a with
  | None => showerror "Error" "No project selected" ;; ret a
  | Some cur =>
      match first_named (name cur) (projects a) with
      | None => ret a
      | Some (index, _) =>
          result <- show_project_dialog "Edit Project" (Some cur) ;;
          match result with
          | None => ret a
          | Some project =>
              r <- update_project index project a ;;
              let (a1, returned) := r in
              if negb returned then ret a1
              else
                let a2 := _update_project_list a1 in
                let a3 := _on_project_selected (set_var (name project) a2) in
                _set_status "Project updated" "green" ;; ret a3
          end
      end
  end.

(** [SyncApp._remove_project] *)
Definition _remove_project (a : t) : M t :=
  match current_project a with
  | None => showerror "Error" "No project selected" ;; ret a
  | Some cur =>
      go <- ask_yes_no w "Confirm"
              ("Remove project '" +:+ name cur +:+ "'?") ;;
      if negb go then ret a
      else
        r <- match first_named (name cur) (projects a) with
             | Some (index, _) => remove_project index a
             | None => ret (a, true)
             end ;;
        let (a1, returned) := r in
        if negb returned then ret a1
        else
          let a2 := set_current None (set_var "" a1) in
          let a3 := _update_project_list a2 in
          let a4 := _on_project_selected a3 in
          _set_status "Project removed" "green" ;; ret a4
  end.

End Manage.

(** [SyncApp.__init__] once [Config()] has loaded the projects [ps] from
    the store [f]: no selection, an empty combo box, the buttons
    disabled by [_create_widgets], then [_update_project_list]. *)
Definition init (ps : list Project) (f : Config.store_file) : t :=
  _update_project_list
    {| projects := ps; store := f; current_project := None;
       project_var := EmptyString; combo_values := [];
       buttons_enabled := false |}.

(** The question of [_remove_project]. *)
Definition remove_question (cur : Project) : string :=
  "Remove project '" +:+ name cur +:+ "'?".

(** The combo box, the selection and the buttons agree with the list. *)
Definition consistent (a : t) : Prop :=
  combo_values a = name <$> projects a /\
  current_project a = snd <$> first_named (project_var a) (projects a) /\
  buttons_enabled a = bool_decide (is_Some (current_project a)).

(** The store file holds the list. *)
Definition saved (desk : Desk) (a : t) : Prop :=
  store a = Config.Text (json_dump desk (document (projects a))).

End Gui.

(** ** The SSH set-up dialog *)

Module SSHSetup.

(** A public key file as [_load_ssh_info] finds it: absent, present but
    failing when read, or present with some text. *)
Inductive key_file :=
| Absent
| Unreadable
| Readable (content : string).

(** How [subprocess.run] on an argument list ends: the process exited,
    or the call raised. *)
Inductive spawn_outcome :=
| Exited (returncode : Z) (stderr : string)
| SpawnFailed (msg : string).

(** What the dialog needs from outside: the key files of [~/.ssh] by
    name, whether [~/.ssh/id_ed25519] exists, the text of that path,
    and the processes it starts. *)
Record Keyring := {
  public_key : trace -> string -> key_file;
  private_key_exists : trace -> bool;
  private_key_path : string;
  spawn : trace -> list string -> spawn_outcome
}.

(** The dialog's widgets, the clipboard and the argument lists handed to
    [subprocess.run], newest first. *)
Record t := {
  key_status : string * string;
  key_text : string;
  remote_host_var : string;
  clipboard : option string;
  launched : list (list string)
}.

Definition set_status (s : string * string) (d : t) : t :=
  {| key_status := s; key_text := key_text d;
     remote_host_var := remote_host_var d; clipboard := clipboard d;
     launched := launched d |}.

Definition set_text (s : string) (d : t) : t :=
  {| key_status := key_status d; key_text := s;
     remote_host_var := remote_host_var d; clipboard := clipboard d;
     launched := launched d |}.

Definition set_clipboard (s : string) (d : t) : t :=
  {| key_status := key_status d; key_text := key_text d;
     remote_host_var := remote_host_var d; clipboard := Some s;
     launched := launched d |}.

Definition launch (argv : list string) (d : t) : t :=
  {| key_status := key_status d; key_text := key_text d;
     remote_host_var := remote_host_var d; clipboard := clipboard d;
     launched := argv :: launched d |}.

Definition placeholder : string := "(No key found)".

Definition no_key_status : string * string :=
  ("No SSH key found. Click 'Generate New Key' to create one.", "orange").

Definition key_names : list string := ["id_ed25519.pub"; "id_rsa.pub"].

(** The [for] loop of [_load_ssh_info]: the first key file that exists
    and can be read, with its text stripped. *)
Fixpoint find_key (read : string -> key_file) (names : list string)
  : option (string * string) :=
  match names with
  | [] => None
  | n :: rest =>
      match read n with
      | Readable content => Some (n, PyStr.strip content)
      | _ => find_key read rest
      end
  end.

(** [self.key_text.get("1.0", tk.END).strip()]: the widget's text ends
    with a newline of its own. *)
Definition shown_key (d : t) : string := PyStr.strip (key_text d +:+ nl).

(** [SSHSetupDialog._load_ssh_info] *)
Definition _load_ssh_info (k : Keyring) (d : t) : M t :=
  found <- ask (fun t => find_key (public_key k t) key_names) ;;
  match found with
  | Some (n, pub_key) =>
      if PyStr.truthy pub_key
      then ret (set_text pub_key (set_status ("Found: " +:+ n, "green") d))
      else ret (set_text placeholder (set_status no_key_status d))
  | None => ret (set_text placeholder (set_status no_key_status d))
  end.

(** [SSHSetupDialog._copy_key] *)
Definition _copy_key (d : t) : M t :=
  let key := shown_key d in
  if PyStr.truthy key && bool_decide (key <> placeholder)
  then showinfo "Copied" "Public key copied to clipboard!" ;;
       ret (set_clipboard key d)
  else showerror "Error" "No key to copy. Generate one first." ;; ret d.

Definition generate_question : string :=
  "This will generate a new ed25519 SSH key pair." +:+ nl +:+ nl +:+
  "If you already have a key, this will NOT overwrite it." +:+ nl +:+ nl +:+
  "Continue?".

Definition keygen_argv (k : Keyring) : list string :=
  ["ssh-keygen"; "-t"; "ed25519"; "-f"; private_key_path k; "-N"; EmptyString].

(** [SSHSetupDialog._generate_key] *)
Definition _generate_key (w : World) (k : Keyring) (d : t) : M t :=
  go <- ask_yes_no w "Generate Key" generate_question ;;
  if negb go then ret d
  else
    present <- ask (private_key_exists k) ;;
    if present
    then showinfo "Key Exists"
           ("SSH key already exists at " +:+ private_key_path k +:+ nl +:+ nl +:+
            "Reload to view it.") ;;
         _load_ssh_info k d
    else
      r <- ask (fun t => spawn k t (keygen_argv k)) ;;
      let d1 := launch (keygen_argv k) d in
      match r with
      | Exited returncode stderr =>
          if (returncode =? 0)%Z
          then showinfo "Success" "SSH key generated successfully!" ;;
               _load_ssh_info k d1
          else showerror "Error" ("Failed to generate key:" +:+ nl +:+ stderr) ;;
               ret d1
      | SpawnFailed msg =>
          showerror "Error" ("Failed to generate key:" +:+ nl +:+ msg) ;; ret d1
      end.

(** The AppleScript of [_auto_copy_key]. *)
Definition applescript (remote : string) : string :=
  nl +:+
  "            tell application " +:+ PyStr.q +:+ "Terminal" +:+ PyStr.q +:+ nl +:+
  "                activate" +:+ nl +:+
  "                do script " +:+ PyStr.q +:+ "ssh-copy-id " +:+ remote +:+
  " && echo '' && echo '✓ SSH key copied successfully!'" +:+
  " && echo 'You can close this window.'" +:+ PyStr.q +:+ nl +:+
  "            end tell" +:+ nl +:+
  "            ".

(** [SSHSetupDialog._auto_copy_key] *)
Definition _auto_copy_key (k : Keyring) (d : t) : M t :=
  let remote := PyStr.strip (remote_host_var d) in
  if negb (PyStr.truthy remote)
  then showerror "Error" "Please enter the remote host (e.g., user@192.168.1.100)" ;;
       ret d
  else
    let key := shown_key d in
    if negb (PyStr.truthy key) || bool_decide (key = placeholder)
    then showerror "Error" "No SSH key found. Generate one first." ;; ret d
    else
      let argv := ["osascript"; "-e"; applescript remote] in
      r <- ask (fun t => spawn k t argv) ;;
      let d1 := launch argv d in
      match r with
      | Exited _ _ =>
          showinfo "Terminal Opened"
            ("A Terminal window has opened to copy your key to " +:+ remote +:+
             "." +:+ nl +:+ nl +:+ "Enter your password when prompted." +:+
             nl +:+ nl +:+
             "After it succeeds, you can close the Terminal window.") ;;
          ret d1
      | SpawnFailed msg =>
          showerror "Error" ("Failed to open Terminal:" +:+ nl +:+ msg) ;; ret d1
      end.

End SSHSetup.

(** ** A sample desk *)

Module Office.

(** A JSON printer without white space or escapes. *)
Fixpoint dump (j : Config.json) : string :=
  match j with
  | Config.JNull => "null"
  | Config.JBool b => if b then "true" else "false"
  | Config.JNumber n => pretty n
  | Config.JString s => PyStr.q +:+ s +:+ PyStr.q
  | Config.JArray items =>
      "[" +:+
      (fix go (l : list Config.json) : string :=
         match l with
         | [] => EmptyString
         | [x] => dump x
         | x :: r => dump x +:+ "," +:+ go r
         end) items +:+ "]"
  | Config.JObject members =>
      "{" +:+
      (fix go (l : list (string * Config.json)) : string :=
         match l with
         | [] => EmptyString
         | [(k, v)] => PyStr.q +:+ k +:+ PyStr.q +:+ ":" +:+ dump v
         | (k, v) :: r => PyStr.q +:+ k +:+ PyStr.q +:+ ":" +:+ dump v +:+ "," +:+ go r
         end) members +:+ "}"
  end.

(** A desk where the directories are those of [dirs], the user follows
    [script] in every project dialog and the store can be written iff
    [writable]. *)
Definition desk (dirs : list string) (script : list ProjectDialog.action)
    (writable : bool) : Desk :=
  {| isdir := fun _ path => bool_decide (path ∈ dirs);
     project_script := fun _ _ _ => script;
     store_writable := fun _ => writable;
     json_dump := dump |}.

(** A reader that knows the documents of [known]. *)
Definition reader (known : list Config.json) (text : string) : option Config.json :=
  snd <$> list_find (fun d => dump d = text) known.

Definition typed (n l h r b : string) : ProjectDialog.fields :=
  {| ProjectDialog.name_var := n; ProjectDialog.local_var := l;
     ProjectDialog.host_var := h; ProjectDialog.remote_var := r;
     ProjectDialog.branch_var := b |}.

Definition blog : Project :=
  {| name := "blog"; local_path := "/home/ann/blog"; remote_host := "mini";
     remote_path := "/Users/ann/blog"; git_branch := "main" |}.

End Office.

(** Dates whose fields [strftime] prints with the widths of the format:
    a four-digit year and at most two digits for month, day, hour,
    minute and second. *)
Definition valid_datetime (d : datetime) : Prop :=
  1000 <= year d < 100 * 100 /\ month d < 100 /\ day d < 100 /\
  hour d < 100 /\ minute d < 100 /\ second d < 100.

(** * Properties *)

(** ** Timestamps *)

(** A formatted timestamp is never the empty string, so the truth test
    of [_detect_conflicts] separates exactly [None] from a timestamp. *)
Lemma strftime_truthy dt : PyStr.truthy (strftime dt) = true.
Proof. reflexivity. Qed.

Section DetectFacts.

Variable w : World.
Variable p : Project.

(** The local branch of the resolver only reads the file system. *)
Lemma get_file_mtime_local f t :
  _get_file_mtime w p f true t =
    (if path_exists w t (os_path_join (local_path p) f)
     then Some (strftime (fromtimestamp w
                  (getmtime w t (os_path_join (local_path p) f))))
     else None, t).
Proof.
  unfold _get_file_mtime, bind, ask, ret.
  destruct (path_exists w t _); reflexivity.
Qed.

(** The remote branch runs one command and reads its output. *)
Lemma get_file_mtime_remote f t :
  _get_file_mtime w p f false t =
    (let r := (_run_command w (stat_cmd p f) None t).1 in
     if r.1 && PyStr.isdigit (PyStr.strip r.2)
     then Some (strftime (fromtimestamp w (inject_Z (PyStr.int (PyStr.strip r.2)))))
     else None,
     ERun (stat_cmd p f) None :: t).
Proof.
  unfold _get_file_mtime, _run_command, bind, ask, ret, emit.
  destruct (subprocess_run w t _ None); cbn;
    try destruct (_ && _); reflexivity.
Qed.

Lemma get_file_mtime_truthy f local t s :
  (_get_file_mtime w p f local t).1 = Some s -> PyStr.truthy s = true.
Proof.
  destruct local.
  - rewrite get_file_mtime_local. cbn.
    destruct (path_exists _ _ _); [|discriminate].
    intros [= <-]. apply strftime_truthy.
  - rewrite get_file_mtime_remote. cbn.
    destruct (_ && _); [|discriminate].
    intros [= <-]. apply strftime_truthy.
Qed.

Lemma probe_eq f t :
  probe w p f t =
    (((_get_file_mtime w p f true t).1, (_get_file_mtime w p f false t).1),
     ERun (stat_cmd p f) None :: t).
Proof.
  unfold probe, bind, ret. rewrite get_file_mtime_local.
  rewrite get_file_mtime_remote. reflexivity.
Qed.

Lemma detect_loop_cons f rest acc t :
  detect_loop w p (f :: rest) acc t =
    detect_loop w p rest (acc ++ verdict f (probe w p f t).1) (probe w p f t).2.
Proof.
  cbn [detect_loop]. unfold bind at 1 2, probe, bind, ret.
  pose proof (get_file_mtime_truthy f true t) as Hl.
  destruct (_get_file_mtime w p f true t) as [lt t1] eqn:E1.
  pose proof (get_file_mtime_truthy f false t1) as Hr.
  destruct (_get_file_mtime w p f false t1) as [rt t2] eqn:E2.
  cbn in *. destruct lt as [lt|], rt as [rt|]; cbn;
    rewrite ?app_nil_r; try reflexivity.
  rewrite (Hl lt eq_refl), (Hr rt eq_refl). cbn.
  destruct (bool_decide (lt <> rt)); rewrite ?app_nil_r; reflexivity.
Qed.

Lemma elem_of_verdict c f times :
  c ∈ verdict f times <->
    file c = f /\ times = (Some (local_time c), Some (remote_time c)) /\
    local_time c <> remote_time c.
Proof.
  destruct times as [[lt|] [rt|]]; cbn;
    try (rewrite elem_of_nil; split; [tauto | intros (_ & [=] & _)]).
  destruct (bool_decide_reflect (lt <> rt)) as [Hne|Heq].
  - rewrite list_elem_of_singleton. split.
    + intros ->; cbn. auto.
    + intros (<- & [= -> ->] & _). by destruct c.
  - rewrite elem_of_nil. split; [tauto|].
    intros (_ & [= -> ->] & Hne). contradiction.
Qed.

(** What the loop returns: the conflicts it started with, and one for
    each file whose two timestamps both resolved and differ. *)
Lemma elem_of_detect_loop fs : forall acc t c,
  c ∈ (detect_loop w p fs acc t).1 <->
    c ∈ acc \/
    exists t_f, examined p fs t (file c) t_f /\
      (probe w p (file c) t_f).1 = (Some (local_time c), Some (remote_time c)) /\
      local_time c <> remote_time c.
Proof.
  induction fs as [|f rest IH]; intros acc t c.
  - cbn. split; [auto|]. intros [H|(t_f & H & _)]; [done | inversion H].
  - rewrite detect_loop_cons, IH, elem_of_app, elem_of_verdict.
    replace (probe w p f t).2 with (ERun (stat_cmd p f) None :: t)
      by (by rewrite probe_eq).
    split.
    + intros [[H|(<- & H1 & H2)]|(t_f & H & H')]; eauto.
      * right. exists t. split; [constructor | auto].
      * right. exists t_f. split; [by constructor | auto].
    + intros [H|(t_f & H & H1 & H2)]; [auto|].
      inversion H; subst; [left; right; auto | right; eauto].
Qed.

Lemma examined_elem_of fs t f t_f : examined p fs t f t_f -> f ∈ fs.
Proof. induction 1; [left | by right]. Qed.

(** The loop looks at every file of its list. *)
Lemma elem_of_examined fs : forall t f, f ∈ fs -> exists t_f, examined p fs t f t_f.
Proof.
  induction fs as [|g rest IH]; intros t f Hin; [by apply elem_of_nil in Hin|].
  destruct (decide (f = g)) as [->|Hne]; [eexists; constructor|].
  apply elem_of_cons in Hin as [?|Hin]; [done|].
  destruct (IH (ERun (stat_cmd p g) None :: t) f Hin) as [t_f H].
  eexists. by constructor.
Qed.

(** With no file listed twice, a file is reached with one history. *)
Lemma examined_unique fs : forall t f t1 t2,
  NoDup fs -> examined p fs t f t1 -> examined p fs t f t2 -> t1 = t2.
Proof.
  induction fs as [|g rest IH]; intros t f t1 t2 Hnd H1 H2; [inversion H1|].
  apply NoDup_cons in Hnd as [Hg Hnd].
  inversion H1; subst; inversion H2; subst; eauto.
  - exfalso. eauto using examined_elem_of.
  - exfalso. eauto using examined_elem_of.
Qed.

End DetectFacts.

Section DetectTheorems.

Variable w : World.
Variable p : Project.

(** The loop only runs commands: no status, no dialog. *)
Lemma detect_loop_trace fs : forall acc t,
  exists runs, (detect_loop w p fs acc t).2 = (runs ++ t)%list /\
    Forall (fun e => exists cmd cwd, e = ERun cmd cwd) runs.
Proof.
  induction fs as [|f rest IH]; intros acc t.
  - exists []. split; [reflexivity | constructor].
  - rewrite detect_loop_cons.
    replace (probe w p f t).2 with (ERun (stat_cmd p f) None :: t)
      by (by rewrite probe_eq).
    destruct (IH (acc ++ verdict f (probe w p f t).1)
                 (ERun (stat_cmd p f) None :: t)) as (runs & -> & Hruns).
    exists (runs ++ [ERun (stat_cmd p f) None])%list. split.
    + by rewrite <- app_assoc.
    + apply Forall_app. split; [done|]. repeat constructor. eauto.
Qed.

Lemma run_command_trace cmd cwd t :
  (_run_command w cmd cwd t).2 = ERun cmd cwd :: t.
Proof.
  unfold _run_command, bind, ask, emit, ret.
  by destruct (subprocess_run w t cmd cwd).
Qed.

(** The lister runs its one command and reads the answer. *)
Lemma get_gitignored_files_eq local t :
  _get_gitignored_files w p local t =
    (let r := (_run_command w (ls_cmd p local).1 (ls_cmd p local).2 t).1 in
     if r.1 && PyStr.truthy r.2
     then PyStr.split_lines (PyStr.strip r.2) else [],
     ERun (ls_cmd p local).1 (ls_cmd p local).2 :: t).
Proof.
  unfold _get_gitignored_files, ls_cmd, bind.
  destruct local; cbn [fst snd];
    (destruct (_run_command w _ _ t) as [[success output] t'] eqn:E;
     apply (f_equal snd) in E as E'; rewrite run_command_trace in E';
     cbn in E'; subst t'; cbn; by destruct (_ && _)).
Qed.

Lemma detect_conflicts_eq t :
  _detect_conflicts w p t =
    let l := _get_gitignored_files w p true t in
    let r := _get_gitignored_files w p false l.2 in
    detect_loop w p
      (elements ((list_to_set l.1 : gset string) ∩ list_to_set r.1)) [] r.2.
Proof.
  unfold _detect_conflicts, bind.
  destruct (_get_gitignored_files w p true t) as [l t1]. cbn [fst snd].
  by destruct (_get_gitignored_files w p false t1) as [r t2].
Qed.

End DetectTheorems.

Section DetectResult.

Variable w : World.
Variable p : Project.

(** The files of the conflicts found are files of the list, in order. *)
Lemma detect_loop_files fs : forall acc t,
  exists sub, sub `sublist_of` fs /\
    file <$> (detect_loop w p fs acc t).1 = (file <$> acc) ++ sub.
Proof.
  induction fs as [|f rest IH]; intros acc t.
  - exists []. split; [constructor | by rewrite app_nil_r].
  - rewrite detect_loop_cons.
    destruct (IH (acc ++ verdict f (probe w p f t).1) (probe w p f t).2)
      as (sub & Hsub & ->).
    rewrite fmap_app, <- app_assoc.
    destruct (probe w p f t).1 as [[lt|] [rt|]]; cbn;
      try (exists sub; split; [by apply sublist_cons | done]).
    destruct (bool_decide (lt <> rt)); cbn.
    + exists (f :: sub). split; [by apply sublist_skip | done].
    + exists sub. split; [by apply sublist_cons | done].
Qed.

(** No file is reported twice. *)
Lemma detect_conflicts_NoDup t : NoDup (file <$> (_detect_conflicts w p t).1).
Proof.
  rewrite detect_conflicts_eq. cbn zeta.
  match goal with |- context [detect_loop w p ?fs [] ?t'] =>
    destruct (detect_loop_files fs [] t') as (sub & Hsub & ->) end.
  cbn. eapply sublist_NoDup; [|exact Hsub]. apply NoDup_elements.
Qed.

(** Detection shows no error dialog. *)
Lemma detect_conflicts_quiet t :
  errors_shown (_detect_conflicts w p t).2 = errors_shown t.
Proof.
  rewrite detect_conflicts_eq. cbn zeta.
  match goal with |- context [detect_loop w p ?fs [] ?t'] =>
    destruct (detect_loop_trace w p fs [] t') as (runs & -> & Hruns) end.
  rewrite !get_gitignored_files_eq. cbn [fst snd].
  unfold errors_shown. rewrite List.filter_app. cbn.
  replace (List.filter _ runs) with (@nil event); [done|].
  induction Hruns as [|e runs (cmd & cwd & ->) _ IH]; [done|]. by cbn.
Qed.

(** Membership in the detector's result. *)
Lemma elem_of_detect_conflicts t (c : Conflict) :
  let l := _get_gitignored_files w p true t in
  let r := _get_gitignored_files w p false l.2 in
  let common := elements ((list_to_set l.1 : gset string) ∩ list_to_set r.1) in
  c ∈ (_detect_conflicts w p t).1 <->
    file c ∈ l.1 /\ file c ∈ r.1 /\
    exists t_f, examined p common r.2 (file c) t_f /\
      (_get_file_mtime w p (file c) true t_f).1 = Some (local_time c) /\
      (_get_file_mtime w p (file c) false t_f).1 = Some (remote_time c) /\
      local_time c <> remote_time c.
Proof.
  intros l r common. rewrite detect_conflicts_eq. cbn zeta.
  fold l r common. rewrite elem_of_detect_loop, elem_of_nil.
  split.
  - intros [[]|(t_f & Hex & Hpr & Hne)].
    pose proof (examined_elem_of _ _ _ _ _ Hex) as Hin.
    subst common. rewrite elem_of_elements, elem_of_intersection in Hin.
    rewrite !elem_of_list_to_set in Hin. destruct Hin as [Hl Hr].
    rewrite probe_eq in Hpr. cbn [fst] in Hpr. injection Hpr as H1 H2. eauto 10.
  - intros (_ & _ & t_f & Hex & H1 & H2 & Hne). right. exists t_f.
    rewrite probe_eq. cbn [fst]. rewrite H1, H2. auto.
Qed.

End DetectResult.

(** C1. The conflict detector reports a conflict for a file exactly when
    the file is in both untracked-file sets, both of its modification
    times resolve, and the two formatted times (whole seconds) differ;
    the report carries those two times, no file is reported twice, and
    when every common file has the same time on both sides the list of
    conflicts is empty. *)
Theorem detect_conflicts_iff (w : World) (p : Project) (t : trace) :
  let l := _get_gitignored_files w p true t in
  let r := _get_gitignored_files w p false l.2 in
  let common := elements ((list_to_set l.1 : gset string) ∩ list_to_set r.1) in
  let found := (_detect_conflicts w p t).1 in
  (forall c : Conflict,
     c ∈ found <->
       file c ∈ l.1 /\ file c ∈ r.1 /\
       exists t_f, examined p common r.2 (file c) t_f /\
         (_get_file_mtime w p (file c) true t_f).1 = Some (local_time c) /\
         (_get_file_mtime w p (file c) false t_f).1 = Some (remote_time c) /\
         local_time c <> remote_time c) /\
  NoDup (file <$> found) /\
  ((forall f t_f lt rt,
      examined p common r.2 f t_f ->
      (_get_file_mtime w p f true t_f).1 = Some lt ->
      (_get_file_mtime w p f false t_f).1 = Some rt -> lt = rt) ->
   found = []).
Proof.
  intros l r common found.
  pose proof (elem_of_detect_conflicts w p t) as Hiff. cbn zeta in Hiff.
  fold l r common found in Hiff.
  split; [exact Hiff|]. split; [apply detect_conflicts_NoDup|].
  intros Hsame. destruct found as [|c rest] eqn:E; [done|]. exfalso.
  destruct (proj1 (Hiff c)) as (_ & _ & t_f & Hex & H1 & H2 & Hne);
    [left | eauto].
Qed.

(** On the runs the detector without exceptions describes, a common
    file whose modification time cannot be resolved on one side is in no
    reported conflict, and detection shows no error dialog. *)
Lemma unresolved_not_reported (w : World) (p : Project) (t : trace)
    (f : string) (t_f : trace) :
  let l := _get_gitignored_files w p true t in
  let r := _get_gitignored_files w p false l.2 in
  let common := elements ((list_to_set l.1 : gset string) ∩ list_to_set r.1) in
  examined p common r.2 f t_f ->
  path_exists w t_f (os_path_join (local_path p) f) = false \/
  (_run_command w (stat_cmd p f) None t_f).1.1 = false \/
  PyStr.isdigit (PyStr.strip (_run_command w (stat_cmd p f) None t_f).1.2) = false ->
  (forall c, c ∈ (_detect_conflicts w p t).1 -> file c <> f) /\
  errors_shown (_detect_conflicts w p t).2 = errors_shown t.
Proof.
  intros l r common Hex Hcause. split; [|apply detect_conflicts_quiet].
  intros c Hc <-.
  apply elem_of_detect_conflicts in Hc as (_ & _ & t' & Hex' & Hl & Hr & _).
  fold l r common in Hex'.
  assert (t' = t_f) as ->.
  { eapply examined_unique; [|exact Hex'|exact Hex]. apply NoDup_elements. }
  rewrite get_file_mtime_local in Hl. rewrite get_file_mtime_remote in Hr.
  cbn [fst] in Hl, Hr. destruct Hcause as [H|[H|H]].
  - by rewrite H in Hl.
  - by rewrite H in Hr.
  - rewrite H, andb_false_r in Hr. done.
Qed.

(** ** Detection with the exceptions of the time stamp conversion *)

Lemma bind_run {A B} (m : M A) (k : A -> M B) t : bind m k t = k (m t).1 (m t).2.
Proof. unfold bind. by destruct (m t). Qed.

Section RaisingFacts.

Variable w : World.
Variable raises : Q -> option string.
Variable p : Project.

(** A call of the faithful [_get_file_mtime] raises, or returns what
    the one without exceptions returns, with the same history. *)
Lemma raising_get_file_mtime_cases f local t :
  (exists exc, Raising._get_file_mtime w raises p f local t =
                 (inl exc, (_get_file_mtime w p f local t).2)) \/
  Raising._get_file_mtime w raises p f local t =
    (inr (_get_file_mtime w p f local t).1, (_get_file_mtime w p f local t).2).
Proof.
  unfold Raising._get_file_mtime, _get_file_mtime, Raising.format_time.
  destruct local.
  - unfold bind, ask, ret. destruct (path_exists w t _); cbn; [|by right].
    destruct (raises _); cbn; [left; by eexists | by right].
  - unfold bind. destruct (_run_command w (stat_cmd p f) None t) as [[success output] t1].
    destruct (success && PyStr.isdigit (PyStr.strip output)); cbn; [|by right].
    destruct (raises _); cbn; [left; by eexists | by right].
Qed.

Lemma raising_detect_loop_returns fs : forall acc t cs,
  (Raising.detect_loop w raises p fs acc t).1 = inr cs ->
  Raising.detect_loop w raises p fs acc t = (inr cs, (detect_loop w p fs acc t).2) /\
  (detect_loop w p fs acc t).1 = cs.
Proof.
  induction fs as [|f fs IH]; intros acc t cs.
  - cbn. by intros [= <-].
  - cbn [Raising.detect_loop detect_loop]. rewrite !bind_run.
    destruct (raising_get_file_mtime_cases f true t) as [[exc ->] | ->]; [done|].
    cbn [fst snd]. rewrite !bind_run.
    set (r1 := _get_file_mtime w p f true t).
    destruct (raising_get_file_mtime_cases f false r1.2) as [[exc ->] | ->]; [done|].
    cbn [fst snd].
    set (r2 := _get_file_mtime w p f false r1.2).
    destruct r1.1 as [lt|], r2.1 as [rt|]; try apply IH.
    destruct (_ && _); apply IH.
Qed.

(** When the faithful [_detect_conflicts] returns a list, it is the
    list, and the history, of the detector without exceptions. *)
Lemma raising_detect_conflicts_returns t cs :
  (Raising._detect_conflicts w raises p t).1 = inr cs ->
  Raising._detect_conflicts w raises p t = (inr cs, (_detect_conflicts w p t).2) /\
  (_detect_conflicts w p t).1 = cs.
Proof.
  unfold Raising._detect_conflicts, _detect_conflicts, bind.
  destruct (_get_gitignored_files w p true t) as [l t1].
  destruct (_get_gitignored_files w p false t1) as [r t2].
  apply raising_detect_loop_returns.
Qed.

(** The faithful detector returns whenever no time stamp is refused. *)
Lemma raising_detect_conflicts_total t :
  (forall ts, raises ts = None) ->
  Raising._detect_conflicts w raises p t =
    (inr (_detect_conflicts w p t).1, (_detect_conflicts w p t).2).
Proof.
  intros Hok.
  assert (Hg : forall f local t',
    Raising._get_file_mtime w raises p f local t' =
      (inr (_get_file_mtime w p f local t').1, (_get_file_mtime w p f local t').2)).
  { intros f local t'. unfold Raising._get_file_mtime, _get_file_mtime, Raising.format_time.
    destruct local.
    - unfold bind, ask, ret. destruct (path_exists w t' _); cbn; [|done]. by rewrite Hok.
    - unfold bind. destruct (_run_command w (stat_cmd p f) None t') as [[success output] t1].
      destruct (success && PyStr.isdigit (PyStr.strip output)); cbn; [|done].
      by rewrite Hok. }
  assert (Hl : forall fs acc t',
    Raising.detect_loop w raises p fs acc t' =
      (inr (detect_loop w p fs acc t').1, (detect_loop w p fs acc t').2)).
  { induction fs as [|f fs IH]; intros acc t'; [done|].
    cbn [Raising.detect_loop detect_loop]. rewrite !bind_run, Hg. cbn [fst snd].
    rewrite !bind_run, Hg. cbn [fst snd].
    destruct (_get_file_mtime w p f true t').1 as [lt|],
      (_get_file_mtime w p f false (_get_file_mtime w p f true t').2).1 as [rt|];
      try apply IH.
    destruct (_ && _); apply IH. }
  unfold Raising._detect_conflicts, _detect_conflicts, bind.
  destruct (_get_gitignored_files w p true t) as [l t1].
  destruct (_get_gitignored_files w p false t1) as [r t2].
  apply Hl.
Qed.

End RaisingFacts.

(** C6. A common file whose local copy is gone, so that its local time
    cannot be resolved, still has its remote time resolved; when the
    remote [stat] prints a number of seconds that is no date of the
    calendar (here the first second of the year 10000), converting it
    raises [ValueError], which [_get_file_mtime] and [_detect_conflicts]
    pass on to their caller: detection returns no list at all. *)
Theorem out_of_range_time_raises :
  let W := Demo.world Demo.far_listings [] [] [] true in
  let stat := (_run_command W (stat_cmd Demo.project "old.dat") None []).1 in
  path_exists W [] (os_path_join (local_path Demo.project) "old.dat") = false /\
  stat = (true, "253402300800") /\
  PyStr.isdigit stat.2 = true /\
  Demo.out_of_range (inject_Z (PyStr.int stat.2)) = Some "ValueError" /\
  (Raising._get_file_mtime W Demo.out_of_range Demo.project "old.dat" true []).1 =
    inr None /\
  (Raising._get_file_mtime W Demo.out_of_range Demo.project "old.dat" false []).1 =
    inl "ValueError" /\
  (Raising._detect_conflicts W Demo.out_of_range Demo.project []).1 = inl "ValueError".
Proof. vm_compute. repeat split. Qed.

(** X29. Whenever conflict detection returns a list, that is whenever
    no time stamp conversion raises, a common file whose modification
    time cannot be resolved on one side (the local path does not exist,
    or the remote [stat] command fails, times out or prints something
    that is not a number) is in no reported conflict, and detection has
    shown no error dialog. *)
Theorem soft_failure_when_detection_returns (w : World) (raises : Q -> option string)
    (p : Project) (t : trace) (f : string) (t_f : trace) (cs : list Conflict) :
  let l := _get_gitignored_files w p true t in
  let r := _get_gitignored_files w p false l.2 in
  let common := elements ((list_to_set l.1 : gset string) ∩ list_to_set r.1) in
  examined p common r.2 f t_f ->
  path_exists w t_f (os_path_join (local_path p) f) = false \/
  (_run_command w (stat_cmd p f) None t_f).1.1 = false \/
  PyStr.isdigit (PyStr.strip (_run_command w (stat_cmd p f) None t_f).1.2) = false ->
  (Raising._detect_conflicts w raises p t).1 = inr cs ->
  (forall c, c ∈ cs -> file c <> f) /\
  errors_shown (Raising._detect_conflicts w raises p t).2 = errors_shown t.
Proof.
  intros l r common Hex Hcause Hret.
  destruct (raising_detect_conflicts_returns w raises p t cs Hret) as [Heq <-].
  rewrite Heq. cbn [snd].
  exact (unresolved_not_reported w p t f t_f Hex Hcause).
Qed.

(** ** The resolution flow *)

Module ConflictDialogFacts.
Import ConflictDialog.

Lemma wait_window_destroyed d script :
  destroyed d = true -> wait_window d script = d.
Proof. destruct script; cbn; by intros ->. Qed.

Lemma init_presenting cs : cs <> [] -> init cs = presenting cs 0 ∅.
Proof. by destruct cs. Qed.

(** One individual decision moves to the next conflict, or closes the
    window after the last one. *)
Lemma resolve_one cs index r cf c :
  cs !! index = Some cf ->
  _resolve c false (presenting cs index r) =
    if decide (S index < length cs)
    then presenting cs (S index) (<[file cf := c]> r)
    else destroy (presenting cs (S index) (<[file cf := c]> r)).
Proof.
  intros Hcf. unfold _resolve. cbn. rewrite Hcf.
  unfold _show_conflict. cbn.
  destruct (Nat.leb_spec (length cs) (S index)); case_decide; try lia; done.
Qed.

(** A decision with "apply to all remaining" closes the window. *)
Lemma resolve_all cs index r cf c :
  cs !! index = Some cf ->
  _resolve c true (presenting cs index r) =
    destroy (presenting cs index
               (apply_to c (drop (S index) cs) (<[file cf := c]> r))).
Proof. intros Hcf. unfold _resolve. cbn. by rewrite Hcf. Qed.

(** Answering [individual] one by one from conflict [index], while
    conflicts remain after them. *)
Lemma wait_window_one_by_one cs individual : forall index r rest,
  index + length individual < length cs ->
  wait_window (presenting cs index r) (one_by_one individual ++ rest) =
    wait_window
      (presenting cs (index + length individual)
         (record_each (zip (drop index cs) individual) r))
      rest.
Proof.
  induction individual as [|c individual IH]; intros index r rest Hlen.
  - cbn. rewrite Nat.add_0_r. by destruct (drop index cs).
  - cbn [length] in Hlen.
    destruct (lookup_lt_is_Some_2 cs index) as [cf Hcf]; [lia|].
    cbn. rewrite (resolve_one _ _ _ cf) by done. rewrite decide_True by lia.
    fold (one_by_one individual).
    rewrite IH by (cbn; lia).
    rewrite (drop_S _ _ _ Hcf). cbn.
    by rewrite Nat.add_succ_r.
Qed.

Lemma apply_to_lookup c remaining : forall r f,
  apply_to c remaining r !! f =
    if decide (f ∈ file <$> remaining) then Some c else r !! f.
Proof.
  unfold apply_to.
  induction remaining as [|cf remaining IH]; intros r f; cbn.
  - rewrite decide_False; [done | apply not_elem_of_nil].
  - rewrite IH. destruct (decide (f = file cf)) as [->|Hne].
    + rewrite lookup_insert_eq.
      rewrite (decide_True (P := file cf ∈ file cf :: _)) by left.
      by case_decide.
    + rewrite lookup_insert_ne by done.
      repeat case_decide; try done.
      * exfalso. set_solver.
      * exfalso. set_solver.
Qed.

Lemma record_each_lookup_notin decided : forall r f,
  f ∉ (file <$> decided.*1) -> record_each decided r !! f = r !! f.
Proof.
  unfold record_each.
  induction decided as [|[cf c] decided IH]; intros r f Hf; cbn; [done|].
  cbn in Hf. apply not_elem_of_cons in Hf as [Hne Hf].
  rewrite IH by done. by rewrite lookup_insert_ne.
Qed.

(** With distinct files, each recorded decision is the one given for
    that file. *)
Lemma record_each_lookup decided : forall r i cf c,
  NoDup (file <$> decided.*1) ->
  decided !! i = Some (cf, c) ->
  record_each decided r !! file cf = Some c.
Proof.
  induction decided as [|[cf0 c0] decided IH]; intros r i cf c Hnd Hi;
    [done|].
  cbn in Hnd. apply NoDup_cons in Hnd as [Hnotin Hnd].
  destruct i as [|i]; cbn in Hi.
  - injection Hi as -> ->. unfold record_each. cbn.
    fold (record_each decided (<[file cf := c]> r)).
    rewrite record_each_lookup_notin by done. apply lookup_insert_eq.
  - unfold record_each. cbn.
    fold (record_each decided (<[file cf0 := c0]> r)). eauto.
Qed.

Lemma apply_to_dom c remaining : forall r,
  dom (apply_to c remaining r) = dom r ∪ list_to_set (file <$> remaining).
Proof.
  unfold apply_to.
  induction remaining as [|cf remaining IH]; intros r; cbn.
  - set_solver.
  - rewrite IH, dom_insert_L. set_solver.
Qed.

Lemma record_each_dom decided : forall r,
  dom (record_each decided r) = dom r ∪ list_to_set (file <$> decided.*1).
Proof.
  unfold record_each.
  induction decided as [|[cf c] decided IH]; intros r; cbn.
  - set_solver.
  - rewrite IH, dom_insert_L. set_solver.
Qed.

End ConflictDialogFacts.

Lemma zip_fst_sublist {A B} (l : list A) : forall k : list B,
  (zip l k).*1 `sublist_of` l.
Proof.
  induction l as [|x l IH]; intros [|y k]; cbn; try constructor; auto.
  apply sublist_nil_l.
Qed.

Lemma zip_fst_take {A B} (l : list A) : forall k : list B,
  (zip l k).*1 = take (length k) l.
Proof.
  induction l as [|x l IH]; intros [|y k]; cbn; try done. by rewrite IH.
Qed.

Lemma files_distinct (cs : list Conflict) i j cf cf' :
  NoDup (file <$> cs) -> cs !! i = Some cf -> cs !! j = Some cf' ->
  file cf = file cf' -> i = j.
Proof.
  intros Hnd Hi Hj Heq.
  apply (NoDup_lookup (file <$> cs) i j (file cf) Hnd).
  - by rewrite list_lookup_fmap, Hi.
  - by rewrite list_lookup_fmap, Hj, Heq.
Qed.

(** C2. When the first [k] conflicts of [n] are decided one by one and
    the decision for conflict [k] is taken with "apply to all remaining"
    set, the dialog closes without cancellation and its results have
    exactly [n] entries: conflicts [k] to [n-1] carry the decision taken
    at [k], conflicts [0] to [k-1] the decision taken for each.  The
    files of the conflicts are distinct, as in every list the detector
    returns. *)
Theorem apply_all_resolution (cs : list Conflict) (individual : list choice)
    (c : choice) (rest : list conflict_action) :
  NoDup (file <$> cs) ->
  length individual < length cs ->
  let k := length individual in
  let d := ConflictDialog.run cs
             (((fun x => Decide x false) <$> individual) ++ Decide c true :: rest) in
  ConflictDialog.destroyed d = true /\
  ConflictDialog.cancelled d = false /\
  size (ConflictDialog.results d) = length cs /\
  (forall i cf, k <= i -> cs !! i = Some cf ->
     ConflictDialog.results d !! file cf = Some c) /\
  (forall i cf, i < k -> cs !! i = Some cf ->
     ConflictDialog.results d !! file cf = individual !! i).
Proof.
  intros Hnd Hlen k d.
  destruct (lookup_lt_is_Some_2 cs k) as [cfk Hk]; [done|].
  assert (Hd : d = ConflictDialog.destroy
            (presenting cs k
               (ConflictDialog.apply_to c (drop (S k) cs)
                  (<[file cfk := c]>
                     (record_each (zip cs individual) ∅))))).
  { subst d. unfold ConflictDialog.run.
    rewrite ConflictDialogFacts.init_presenting by (by destruct cs).
    fold (one_by_one individual).
    rewrite ConflictDialogFacts.wait_window_one_by_one by done.
    cbn [Nat.add drop]. fold k. cbn [ConflictDialog.wait_window
      presenting ConflictDialog.destroyed
      ConflictDialog.handle].
    rewrite (ConflictDialogFacts.resolve_all _ _ _ cfk) by done.
    by rewrite ConflictDialogFacts.wait_window_destroyed. }
  rewrite Hd. cbn [ConflictDialog.destroy ConflictDialog.destroyed
    ConflictDialog.cancelled ConflictDialog.results
    presenting].
  split; [done|]. split; [done|]. split; [|split].
  - rewrite <- (size_dom (D := gset string)).
    rewrite ConflictDialogFacts.apply_to_dom, dom_insert_L,
      ConflictDialogFacts.record_each_dom, dom_empty_L.
    rewrite <- (length_fmap file cs).
    rewrite <- (size_list_to_set (C := gset string) (file <$> cs)) by done.
    f_equal. apply set_eq. intros f.
    rewrite <- (take_drop_middle cs k cfk Hk) at 3.
    rewrite fmap_app, fmap_cons.
    rewrite zip_fst_take. fold k. rewrite list_to_set_app_L, list_to_set_cons.
    set_solver.
  - intros i cf Hi Hcf. rewrite ConflictDialogFacts.apply_to_lookup.
    case_decide as Hin; [done|].
    destruct (decide (i = k)) as [->|Hne].
    + rewrite Hk in Hcf. injection Hcf as ->. apply lookup_insert_eq.
    + exfalso. apply Hin. apply list_elem_of_fmap. exists cf. split; [done|].
      apply list_elem_of_lookup. exists (i - S k).
      rewrite lookup_drop. by replace (S k + (i - S k)) with i by lia.
  - intros i cf Hi Hcf. rewrite ConflictDialogFacts.apply_to_lookup.
    rewrite decide_False.
    2:{ intros (cf' & Hf & Hin)%list_elem_of_fmap.
        apply list_elem_of_lookup in Hin as [j Hj]. rewrite lookup_drop in Hj.
        pose proof (files_distinct cs _ _ _ _ Hnd Hcf Hj Hf). lia. }
    rewrite lookup_insert_ne.
    2:{ intros Hf. pose proof (files_distinct cs _ _ _ _ Hnd Hk Hcf Hf). lia. }
    destruct (lookup_lt_is_Some_2 individual i) as [ci Hci]; [done|].
    rewrite Hci.
    apply (ConflictDialogFacts.record_each_lookup _ _ i).
    + eapply sublist_NoDup; [exact Hnd|].
      apply fmap_sublist, zip_fst_sublist.
    + by apply lookup_zip_Some.
Qed.

(** ** The transfer stage of a sync *)

Section TransferFacts.

Variable w : World.
Variable p : Project.

Lemma run_command_eq cmd cwd t :
  _run_command w cmd cwd t = ((_run_command w cmd cwd t).1, ERun cmd cwd :: t).
Proof.
  rewrite <- (run_command_trace w cmd cwd t).
  by destruct (_run_command w cmd cwd t).
Qed.

Lemma get_gitignored_files_trace local t :
  (_get_gitignored_files w p local t).2 = ERun (ls_cmd p local).1 (ls_cmd p local).2 :: t.
Proof. by rewrite get_gitignored_files_eq. Qed.

(** The transfer to the remote side, branch by branch. *)
Lemma push_files_eq exclude t :
  let t0 := EStatus "Syncing untracked files to remote..." "blue" :: t in
  let listed := (_get_gitignored_files w p true t0).1 in
  let t1 := ERun ls_files (Some (local_path p)) :: t0 in
  let files := keep_files listed exclude in
  let tmp := mkstemp w t1 in
  let t2 := ETempFile tmp (PyStr.join_lines files) :: t1 in
  let r := (_run_command w (rsync_to_remote p tmp) None t2).1 in
  let t3 := ERun (rsync_to_remote p tmp) None :: t2 in
  push_files w p exclude t =
    match files with
    | [] => (true, EStatus "No untracked files to sync" "gray" :: t1)
    | _ :: _ =>
        if r.1
        then (true,
              EUnlink tmp ::
              EStatus ("Synced " +:+ pretty (length files) +:+ " files to remote")
                "green" :: t3)
        else (false,
              EUnlink tmp :: EShowError "Error" ("Sync failed:" +:+ nl +:+ r.2) ::
              EStatus "Sync failed" "red" :: t3)
    end.
Proof.
  cbv zeta. unfold push_files, bind at 1 2, _set_status, emit.
  rewrite (get_gitignored_files_eq w p true). cbn [fst snd ls_cmd].
  destruct (keep_files _ exclude) as [|f0 files0]; [reflexivity|].
  unfold bind, ask, emit. rewrite run_command_eq. cbn [fst snd].
  match goal with |- context [(_run_command w ?c None ?t').1] =>
    destruct (_run_command w c None t').1 as [[|] output] end; reflexivity.
Qed.

(** The transfer from the remote side, branch by branch. *)
Lemma pull_files_eq exclude t :
  let t0 := EStatus "Syncing untracked files from remote..." "blue" :: t in
  let listed := (_get_gitignored_files w p false t0).1 in
  let t1 := ERun (ls_cmd p false).1 None :: t0 in
  let files := keep_files listed exclude in
  let tmp := mkstemp w t1 in
  let t2 := ETempFile tmp (PyStr.join_lines files) :: t1 in
  let r := (_run_command w (rsync_from_remote p tmp) None t2).1 in
  let t3 := ERun (rsync_from_remote p tmp) None :: t2 in
  pull_files w p exclude t =
    match files with
    | [] => (true, EStatus "No untracked files to sync" "gray" :: t1)
    | _ :: _ =>
        if r.1
        then (true,
              EUnlink tmp ::
              EStatus ("Synced " +:+ pretty (length files) +:+ " files from remote")
                "green" :: t3)
        else (false,
              EUnlink tmp :: EShowError "Error" ("Sync failed:" +:+ nl +:+ r.2) ::
              EStatus "Sync failed" "red" :: t3)
    end.
Proof.
  cbv zeta. unfold pull_files, bind at 1 2, _set_status, emit.
  rewrite (get_gitignored_files_eq w p false). cbn [fst snd ls_cmd].
  destruct (keep_files _ exclude) as [|f0 files0]; [reflexivity|].
  unfold bind, ask, emit. rewrite run_command_eq. cbn [fst snd].
  match goal with |- context [(_run_command w ?c None ?t').1] =>
    destruct (_run_command w c None t').1 as [[|] output] end; reflexivity.
Qed.

(** A file is excluded when the Resolution decides it otherwise than
    [keep]. *)
Lemma elem_of_exclude_files keep (results : gmap string choice) f :
  f ∈ exclude_files keep results <->
    exists c, results !! f = Some c /\ c <> keep.
Proof.
  unfold exclude_files. rewrite list_elem_of_fmap. split.
  - intros ([f' c] & -> & [Hc Hin]%list_elem_of_filter).
    apply elem_of_map_to_list in Hin. eauto.
  - intros (c & Hf & Hc). exists (f, c). split; [done|].
    apply list_elem_of_filter. split; [done|]. by apply elem_of_map_to_list.
Qed.

(** A file stays in the transfer when it is listed and its decision
    is [keep] or absent. *)
Lemma elem_of_keep_files keep (results : gmap string choice) listed f :
  f ∈ keep_files listed (exclude_files keep results) <->
    f ∈ listed /\ (results !! f = Some keep \/ results !! f = None).
Proof.
  unfold keep_files. rewrite list_elem_of_filter, elem_of_exclude_files.
  split.
  - intros [Hex Hin]. split; [done|].
    destruct (results !! f) as [c|] eqn:E; [|by right].
    left. destruct (decide (c = keep)) as [->|Hne]; [done|].
    exfalso. eauto.
  - intros [Hin Hdec]. split; [|done].
    intros (c & Hf & Hc). destruct Hdec as [H|H]; congruence.
Qed.

End TransferFacts.





(** C8. In either direction, when no file is left after the excluded
    ones are removed from the authoritative list, the sync returns
    success at once with the status "No untracked files to sync": no file
    list is written and the transfer tool is not run. *)
Theorem empty_list_nothing_to_do (w : World) (p : Project)
    (exclude : list string) (t : trace) :
  let listing_l := _get_gitignored_files w p true
                     (EStatus "Syncing untracked files to remote..." "blue" :: t) in
  let listing_r := _get_gitignored_files w p false
                     (EStatus "Syncing untracked files from remote..." "blue" :: t) in
  (keep_files listing_l.1 exclude = [] ->
     push_files w p exclude t =
       (true, EStatus "No untracked files to sync" "gray" :: listing_l.2) /\
     transfer_done (rsync_to_remote p) [] listing_l.2 (push_files w p exclude t).2) /\
  (keep_files listing_r.1 exclude = [] ->
     pull_files w p exclude t =
       (true, EStatus "No untracked files to sync" "gray" :: listing_r.2) /\
     transfer_done (rsync_from_remote p) [] listing_r.2 (pull_files w p exclude t).2).
Proof.
  intros listing_l listing_r. split; intros Hempty.
  - rewrite push_files_eq. cbv zeta. fold listing_l. rewrite Hempty.
    subst listing_l. rewrite get_gitignored_files_trace. by cbn.
  - rewrite pull_files_eq. cbv zeta. fold listing_r. rewrite Hempty.
    subst listing_r. rewrite get_gitignored_files_trace. by cbn.
Qed.

(** ** The sync operations *)

Section SyncFacts.

Variable w : World.
Variable self : SyncApp.
Variable p : Project.
Hypothesis selected : current_project self = Some p.

(** Detection only adds commands to the history. *)
Lemma detect_conflicts_trace t :
  exists runs, (_detect_conflicts w p t).2 = runs ++ t /\
    Forall (fun e => exists cmd cwd, e = ERun cmd cwd) runs.
Proof.
  rewrite detect_conflicts_eq. cbn zeta.
  match goal with |- context [detect_loop w p ?fs [] ?t'] =>
    destruct (detect_loop_trace w p fs [] t') as (runs & -> & Hruns) end.
  rewrite !get_gitignored_files_eq. cbn [fst snd].
  eexists (runs ++ [_; _]). split; [by rewrite <- app_assoc|].
  apply Forall_app. split; [done|]. repeat constructor; eauto.
Qed.

Lemma temp_files_runs runs t :
  Forall (fun e => exists cmd cwd, e = ERun cmd cwd) runs ->
  temp_files (runs ++ t) = temp_files t.
Proof. induction 1 as [|e runs (cmd & cwd & ->) _ IH]; [done | by cbn]. Qed.

Lemma detect_conflicts_no_temp t :
  temp_files (_detect_conflicts w p t).2 = temp_files t.
Proof.
  destruct (detect_conflicts_trace t) as (runs & -> & Hruns).
  by apply temp_files_runs.
Qed.

(** [_sync_to_remote], branch by branch. *)
Lemma sync_to_remote_eq resolve_conflicts t :
  let t0 := EStatus "Checking for conflicts..." "blue" :: t in
  let cs := (_detect_conflicts w p t0).1 in
  let t1 := (_detect_conflicts w p t0).2 in
  let dialog := ConflictDialog.run cs (conflict_script w t1 cs) in
  _sync_to_remote w self resolve_conflicts t =
    if resolve_conflicts then
      match cs with
      | [] => push_files w p [] t1
      | _ :: _ =>
          if ConflictDialog.cancelled dialog
          then (false, EStatus "Sync cancelled" "gray" :: EConflictDialog cs :: t1)
          else push_files w p
                 (exclude_files Local (ConflictDialog.results dialog))
                 (EConflictDialog cs :: t1)
      end
    else push_files w p [] t0.
Proof.
  cbv zeta. unfold _sync_to_remote. rewrite selected.
  unfold bind at 1, _set_status, emit.
  destruct resolve_conflicts; [|reflexivity].
  unfold bind at 1.
  destruct (_detect_conflicts w p _) as [cs t1]. cbn [fst snd].
  destruct cs as [|c0 cs]; [reflexivity|].
  unfold bind at 1, show_conflict_dialog, bind, ask, emit, ret.
  by destruct (ConflictDialog.cancelled _).
Qed.

(** [_sync_from_remote], branch by branch. *)
Lemma sync_from_remote_eq resolve_conflicts t :
  let t0 := EStatus "Checking for conflicts..." "blue" :: t in
  let cs := (_detect_conflicts w p t0).1 in
  let t1 := (_detect_conflicts w p t0).2 in
  let dialog := ConflictDialog.run cs (conflict_script w t1 cs) in
  _sync_from_remote w self resolve_conflicts t =
    if resolve_conflicts then
      match cs with
      | [] => pull_files w p [] t1
      | _ :: _ =>
          if ConflictDialog.cancelled dialog
          then (false, EStatus "Sync cancelled" "gray" :: EConflictDialog cs :: t1)
          else pull_files w p
                 (exclude_files Remote (ConflictDialog.results dialog))
                 (EConflictDialog cs :: t1)
      end
    else pull_files w p [] t0.
Proof.
  cbv zeta. unfold _sync_from_remote. rewrite selected.
  unfold bind at 1, _set_status, emit.
  destruct resolve_conflicts; [|reflexivity].
  unfold bind at 1.
  destruct (_detect_conflicts w p _) as [cs t1]. cbn [fst snd].
  destruct cs as [|c0 cs]; [reflexivity|].
  unfold bind at 1, show_conflict_dialog, bind, ask, emit, ret.
  by destruct (ConflictDialog.cancelled _).
Qed.

End SyncFacts.

(** Pressing "Cancel All" after some individual decisions closes the
    dialog as cancelled. *)
Lemma cancel_after_decisions (cs : list Conflict) (individual : list choice)
    (rest : list conflict_action) :
  length individual < length cs ->
  ConflictDialog.cancelled
    (ConflictDialog.run cs
       (((fun x => Decide x false) <$> individual) ++ CancelAll :: rest)) = true.
Proof.
  intros Hlen. unfold ConflictDialog.run.
  rewrite ConflictDialogFacts.init_presenting
    by (destruct cs; [cbn in Hlen; lia | done]).
  fold (one_by_one individual).
  rewrite ConflictDialogFacts.wait_window_one_by_one by done.
  cbn [ConflictDialog.wait_window presenting
       ConflictDialog.destroyed ConflictDialog.handle].
  by rewrite ConflictDialogFacts.wait_window_destroyed.
Qed.


(** X28. When the user presses "Cancel All" while a conflict is presented
    (after deciding any number of earlier conflicts one by one), the sync
    in progress, in either direction, returns non-success with the status
    "Sync cancelled": whatever was decided before has no effect, nothing
    is written for the transfer tool, no command runs after detection and
    no error dialog is shown. *)
Theorem cancel_aborts_sync (w : World) (self : SyncApp) (p : Project)
    (t : trace) (individual : list choice) (rest : list conflict_action) :
  current_project self = Some p ->
  let t0 := EStatus "Checking for conflicts..." "blue" :: t in
  let cs := (_detect_conflicts w p t0).1 in
  let t1 := (_detect_conflicts w p t0).2 in
  length individual < length cs ->
  conflict_script w t1 cs =
    ((fun x => Decide x false) <$> individual) ++ CancelAll :: rest ->
  let aborted := (false, EStatus "Sync cancelled" "gray" :: EConflictDialog cs :: t1) in
  ConflictDialog.cancelled (ConflictDialog.run cs (conflict_script w t1 cs)) = true /\
  _sync_to_remote w self true t = aborted /\
  _sync_from_remote w self true t = aborted /\
  temp_files aborted.2 = temp_files t /\
  commands aborted.2 = commands t1 /\
  errors_shown aborted.2 = errors_shown t.
Proof.
  intros Hsel t0 cs t1 Hlen Hscript aborted.
  assert (Hc : ConflictDialog.cancelled
                 (ConflictDialog.run cs (conflict_script w t1 cs)) = true).
  { rewrite Hscript. by apply cancel_after_decisions. }
  split; [done|].
  rewrite (sync_to_remote_eq w self p Hsel), (sync_from_remote_eq w self p Hsel).
  cbv zeta. fold t0 cs t1. rewrite Hc.
  destruct cs as [|c0 cs'] eqn:Ecs; [cbn in Hlen; lia|].
  repeat split.
  - subst aborted t1. cbn. by rewrite detect_conflicts_no_temp.
  - subst aborted t1. cbn. by rewrite detect_conflicts_quiet.
Qed.

(** C5. Closing the conflict window is not a cancellation.  The dialog
    has no handler for the window manager's close button: the window is
    destroyed with [cancelled] still [False] and the decisions taken so
    far in [results].  After "skip" for A and the window closed at B,
    the sync to the remote side goes on, reports success and sends B,
    the conflict left undecided, with C; the sync from the remote side
    likewise sends B.  (The commit dialog and the project dialog return
    nothing, their cancel, when closed.) *)
Theorem closed_window_is_not_cancel :
  let W := Demo.world Demo.abc_listings Demo.abc_mtimes [Decide Skip false] [] true in
  let cs := (_detect_conflicts W Demo.project
               [EStatus "Checking for conflicts..." "blue"]).1 in
  let dialog := ConflictDialog.run cs [Decide Skip false] in
  file <$> cs = ["A"; "B"] /\
  ConflictDialog.destroyed dialog = true /\
  ConflictDialog.cancelled dialog = false /\
  ConflictDialog.results dialog !! "A" = Some Skip /\
  ConflictDialog.results dialog !! "B" = None /\
  (_sync_to_remote W Demo.app true []).1 = true /\
  temp_files (_sync_to_remote W Demo.app true []).2 =
    [("/tmp/tmpq1w2e3.txt", Demo.lines ["B"; "C"])] /\
  take 2 (_sync_to_remote W Demo.app true []).2 =
    [EUnlink "/tmp/tmpq1w2e3.txt"; EStatus "Synced 2 files to remote" "green"] /\
  (_sync_from_remote W Demo.app true []).1 = true /\
  temp_files (_sync_from_remote W Demo.app true []).2 =
    [("/tmp/tmpq1w2e3.txt", Demo.lines ["B"])].
Proof.
  intros W cs dialog.
  do 9 (split; [vm_compute; reflexivity|]). vm_compute. reflexivity.
Qed.

Section ListingFacts.

Variable w : World.
Variable p : Project.

(** A failed or silent listing command lists nothing. *)
Lemma get_gitignored_files_nil local t :
  (_run_command w (ls_cmd p local).1 (ls_cmd p local).2 t).1.1 = false \/
  (_run_command w (ls_cmd p local).1 (ls_cmd p local).2 t).1.2 = "" ->
  (_get_gitignored_files w p local t).1 = [].
Proof.
  rewrite get_gitignored_files_eq. cbn [fst snd].
  intros [-> | ->]; [done | by rewrite andb_false_r].
Qed.

(** With nothing listed on one side there is no common file. *)
Lemma detect_conflicts_nil t :
  (_get_gitignored_files w p true t).1 = [] \/
  (_get_gitignored_files w p false (_get_gitignored_files w p true t).2).1 = [] ->
  _detect_conflicts w p t =
    ([], ERun (ls_cmd p false).1 None :: ERun ls_files (Some (local_path p)) :: t).
Proof.
  intros H. rewrite detect_conflicts_eq. cbn zeta.
  replace (elements _) with (@nil string).
  - cbn [detect_loop]. by rewrite !get_gitignored_files_trace.
  - symmetry. apply elements_empty_iff.
    destruct H as [-> | ->]; cbn; set_solver.
Qed.

End ListingFacts.

(** C10. When the command that lists untracked files fails or prints
    nothing, the lister returns the empty list; a sync whose listing of
    the authoritative side fails therefore returns success with the
    status "No untracked files to sync", without running the transfer
    tool and without showing an error. *)
Theorem listing_failure_nothing_to_do (w : World) (self : SyncApp)
    (p : Project) (exclude : list string) (t : trace) :
  current_project self = Some p ->
  let ls_local t' := (_run_command w ls_files (Some (local_path p)) t').1 in
  let ls_remote t' := (_run_command w (ls_cmd p false).1 None t').1 in
  let t_push := EStatus "Syncing untracked files to remote..." "blue" :: t in
  let t_pull := EStatus "Syncing untracked files from remote..." "blue" :: t in
  let nothing t' := EStatus "No untracked files to sync" "gray" :: t' in
  (forall t', (ls_local t').1 = false \/ (ls_local t').2 = "" ->
     (_get_gitignored_files w p true t').1 = []) /\
  (forall t', (ls_remote t').1 = false \/ (ls_remote t').2 = "" ->
     (_get_gitignored_files w p false t').1 = []) /\
  ((ls_local t_push).1 = false ->
   push_files w p exclude t =
     (true, nothing (ERun ls_files (Some (local_path p)) :: t_push))) /\
  ((ls_remote t_pull).1 = false ->
   pull_files w p exclude t =
     (true, nothing (ERun (ls_cmd p false).1 None :: t_pull))) /\
  ((forall t', (ls_local t').1 = false) ->
   forall resolve_conflicts,
     let r := _sync_to_remote w self resolve_conflicts t in
     r.1 = true /\ head r.2 = Some (EStatus "No untracked files to sync" "gray") /\
     errors_shown r.2 = errors_shown t /\ temp_files r.2 = temp_files t) /\
  ((forall t', (ls_remote t').1 = false) ->
   forall resolve_conflicts,
     let r := _sync_from_remote w self resolve_conflicts t in
     r.1 = true /\ head r.2 = Some (EStatus "No untracked files to sync" "gray") /\
     errors_shown r.2 = errors_shown t /\ temp_files r.2 = temp_files t).
Proof.
  intros Hsel ls_local ls_remote t_push t_pull nothing.
  assert (Hpush : forall ex t',
    (ls_local (EStatus "Syncing untracked files to remote..." "blue" :: t')).1 = false ->
    push_files w p ex t' =
      (true, nothing (ERun ls_files (Some (local_path p)) ::
                      EStatus "Syncing untracked files to remote..." "blue" :: t'))).
  { intros ex t' Hfail. rewrite push_files_eq. cbv zeta.
    rewrite (get_gitignored_files_nil w p true) by (by left). done. }
  assert (Hpull : forall ex t',
    (ls_remote (EStatus "Syncing untracked files from remote..." "blue" :: t')).1 = false ->
    pull_files w p ex t' =
      (true, nothing (ERun (ls_cmd p false).1 None ::
                      EStatus "Syncing untracked files from remote..." "blue" :: t'))).
  { intros ex t' Hfail. rewrite pull_files_eq. cbv zeta.
    rewrite (get_gitignored_files_nil w p false) by (by left). done. }
  split; [intros t'; apply (get_gitignored_files_nil w p true)|].
  split; [intros t'; apply (get_gitignored_files_nil w p false)|].
  split; [apply Hpush|]. split; [apply Hpull|]. split.
  - intros Hfail rc r. subst r. rewrite (sync_to_remote_eq w self p Hsel).
    cbv zeta. destruct rc.
    + rewrite detect_conflicts_nil
        by (left; apply get_gitignored_files_nil; left; apply Hfail).
      cbn [fst snd]. rewrite Hpush by apply Hfail. by cbn.
    + rewrite Hpush by apply Hfail. by cbn.
  - intros Hfail rc r. subst r. rewrite (sync_from_remote_eq w self p Hsel).
    cbv zeta. destruct rc.
    + rewrite detect_conflicts_nil
        by (right; apply get_gitignored_files_nil; left; apply Hfail).
      cbn [fst snd]. rewrite Hpull by apply Hfail. by cbn.
    + rewrite Hpull by apply Hfail. by cbn.
Qed.

(** ** Git operations *)

(** The commit dialog shows nothing but error dialogs, and a message it
    returns is not empty. *)
Lemma commit_dialog_result script : forall shown,
  commands (CommitDialog.wait_window script shown).1 = commands shown /\
  truthy_opt (CommitDialog.wait_window script shown).2 =
    bool_decide (is_Some (CommitDialog.wait_window script shown).2).
Proof.
  induction script as [|[typed|] script IH]; intros shown; cbn; try done.
  destruct (PyStr.strip typed) as [|a s] eqn:E; cbn; [|done].
  destruct (IH (EShowError "Error" "Commit message is required" :: shown))
    as [-> ->]. done.
Qed.

Section GitFacts.

Variable w : World.
Variable self : SyncApp.
Variable p : Project.
Hypothesis selected : current_project self = Some p.

Lemma get_git_status_eq t :
  _get_git_status w p t =
    (let r := (_run_command w status_cmd (Some (local_path p)) t).1 in
     if r.1 then (PyStr.truthy (PyStr.strip r.2), PyStr.strip r.2)
     else (false, "Error checking git status"),
     ERun status_cmd (Some (local_path p)) :: t).
Proof.
  unfold _get_git_status, bind. fold status_cmd. rewrite run_command_eq.
  destruct (_run_command w status_cmd _ t).1 as [[|] output]; reflexivity.
Qed.

(** [_git_push], branch by branch. *)
Lemma git_push_eq t :
  let cwd := Some (local_path p) in
  let t0 := EStatus "Checking for uncommitted changes..." "blue" :: t in
  let st := (_get_git_status w p t0).1 in
  let t1 := ERun status_cmd cwd :: t0 in
  let answer := CommitDialog.wait_window (commit_script w t1 st.2) [] in
  let t2 := answer.1 ++ ECommitDialog st.2 :: t1 in
  let t3 := EStatus "Committing changes..." "blue" :: t2 in
  let cmd := commit_cmd (default "" answer.2) in
  let commit := (_run_command w cmd cwd t3).1 in
  _git_push w self t =
    if st.1 then
      if negb (truthy_opt answer.2)
      then (false, EStatus "Push cancelled" "gray" :: t2)
      else if negb commit.1
           then (false, EShowError "Error" ("Commit failed:" +:+ nl +:+ commit.2) ::
                        EStatus "Commit failed" "red" :: ERun cmd cwd :: t3)
           else push_branch w p (ERun cmd cwd :: t3)
    else push_branch w p t1.
Proof.
  cbv zeta. unfold _git_push. rewrite selected.
  unfold bind at 1, _set_status, emit. unfold bind at 1.
  rewrite get_git_status_eq. cbn [fst snd].
  match goal with |- context [if ?b then (?x, ?y) else ?z] =>
    destruct (if b then (x, y) else z) as [is_dirty summary] end.
  cbn [fst snd]. destruct is_dirty.
  - unfold bind at 1, show_commit_dialog, bind at 1 2, ask, emit.
    destruct (CommitDialog.wait_window _ []) as [shown result]. cbn [fst snd].
    destruct (negb (truthy_opt result)); [reflexivity|].
    unfold bind at 1, emit. unfold bind at 1. fold (commit_cmd (default "" result)).
    rewrite run_command_eq.
    destruct (_run_command w _ _ _).1 as [[|] output]; cbn [negb fst snd];
      [|reflexivity].
    unfold push_branch, bind, emit. fold (push_cmd p). rewrite run_command_eq.
    cbn [fst snd]. by destruct (_run_command w _ _ _).1 as [[|] output'].
  - unfold push_branch, bind, emit. fold (push_cmd p). rewrite run_command_eq.
    cbn [fst snd]. by destruct (_run_command w _ _ _).1 as [[|] output'].
Qed.

End GitFacts.

(** C7. A push first asks for the working-tree status; the tree is dirty
    when that query succeeds with non-empty output.  Dirty and no commit
    message (the dialog was cancelled): the push returns non-success and
    runs neither the commit nor the push command.  Dirty and a message:
    one command stages and commits everything; when it fails the push
    returns non-success and the push command is not run.  Otherwise
    (clean, or committed) the configured branch is pushed and the result
    is that of the push command. *)
Theorem git_push_commit_gate (w : World) (self : SyncApp) (p : Project)
    (t : trace) :
  current_project self = Some p ->
  let cwd := Some (local_path p) in
  let t0 := EStatus "Checking for uncommitted changes..." "blue" :: t in
  let status := (_run_command w status_cmd cwd t0).1 in
  let dirty := status.1 && PyStr.truthy (PyStr.strip status.2) in
  let t1 := ERun status_cmd cwd :: t0 in
  let answer :=
    CommitDialog.wait_window (commit_script w t1 (PyStr.strip status.2)) [] in
  let t3 := EStatus "Committing changes..." "blue" ::
            answer.1 ++ ECommitDialog (PyStr.strip status.2) :: t1 in
  let pushed_from t' :=
    (_run_command w (push_cmd p) cwd (EStatus "Pushing to remote..." "blue" :: t')).1.1 in
  let r := _git_push w self t in
  (_get_git_status w p t0).1.1 = dirty /\
  (dirty = true -> answer.2 = None ->
     r.1 = false /\ head r.2 = Some (EStatus "Push cancelled" "gray") /\
     commands r.2 = status_cmd :: commands t) /\
  (forall msg, dirty = true -> answer.2 = Some msg ->
     let commit := (_run_command w (commit_cmd msg) cwd t3).1 in
     (commit.1 = false ->
        r.1 = false /\
        commands r.2 = commit_cmd msg :: status_cmd :: commands t) /\
     (commit.1 = true ->
        r.1 = pushed_from (ERun (commit_cmd msg) cwd :: t3) /\
        commands r.2 = push_cmd p :: commit_cmd msg :: status_cmd :: commands t)) /\
  (dirty = false ->
     r.1 = pushed_from t1 /\
     commands r.2 = push_cmd p :: status_cmd :: commands t).
Proof.
  intros Hsel cwd t0 status dirty t1 answer t3 pushed_from r.
  assert (Hst : (_get_git_status w p t0).1 =
                (dirty, if status.1 then PyStr.strip status.2
                        else "Error checking git status")).
  { rewrite get_git_status_eq. cbn [fst]. fold cwd status. subst dirty.
    by destruct status as [[|] output]. }
  assert (Hpush : forall t',
    (push_branch w p t').1 = pushed_from t' /\
    commands (push_branch w p t').2 = push_cmd p :: commands t').
  { intros t'. unfold push_branch. cbv zeta. fold cwd. subst pushed_from.
    cbn beta. by destruct (_run_command w (push_cmd p) cwd _).1 as [[|] output]. }
  assert (Hr : r = _git_push w self t) by done. clearbody r.
  rewrite (git_push_eq w self p Hsel) in Hr. cbv zeta in Hr.
  fold cwd t0 in Hr. rewrite Hst in Hr. cbn [fst snd] in Hr. fold t1 in Hr.
  split; [by rewrite Hst|]. split; [|split].
  - intros Hd Hans. rewrite Hd in Hr.
    assert (status.1 = true) as Hs by (subst dirty; by destruct (status.1)).
    rewrite Hs in Hr. fold answer in Hr. rewrite Hans in Hr. cbn in Hr.
    subst r. cbn. split; [done|]. split; [done|].
    unfold commands. rewrite omap_app. fold (commands answer.1).
    subst answer. by rewrite (proj1 (commit_dialog_result _ _)).
  - intros msg Hd Hans commit.
    assert (status.1 = true) as Hs by (subst dirty; by destruct (status.1)).
    rewrite Hd, Hs in Hr. fold answer in Hr.
    pose proof (proj2 (commit_dialog_result
      (commit_script w t1 (PyStr.strip status.2)) [])) as Htr.
    fold answer in Htr. rewrite Hans in Htr, Hr. rewrite Htr in Hr.
    cbn [bool_decide negb default] in Hr.
    rewrite bool_decide_true in Hr by eauto. cbn [negb] in Hr.
    unfold id in Hr. fold t3 in Hr. fold commit in Hr.
    assert (Hc3 : commands t3 = status_cmd :: commands t).
    { subst t3. cbn. unfold commands. rewrite omap_app. fold (commands answer.1).
      subst answer. by rewrite (proj1 (commit_dialog_result _ _)). }
    clearbody t3.
    split; intros Hcommit; rewrite Hcommit in Hr; cbn [negb] in Hr; subst r.
    + cbn. fold (commands t3). by rewrite Hc3.
    + destruct (Hpush (ERun (commit_cmd msg) cwd :: t3)) as [-> ->].
      cbn. fold (commands t3). by rewrite Hc3.
  - intros Hd. rewrite Hd in Hr. subst r.
    destruct (Hpush t1) as [-> ->]. done.
Qed.

(** ** The full-sync pipeline *)

Lemma run_steps_cons step_name step_func rest t :
  run_steps ((step_name, step_func) :: rest) t =
    if (step_func (mark step_name t)).1
    then run_steps rest (step_func (mark step_name t)).2
    else (tt, stopped_at step_name (step_func (mark step_name t)).2).
Proof.
  cbn [run_steps]. unfold bind at 1, _set_status, emit. unfold bind at 1.
  fold (mark step_name t).
  by destruct (step_func (mark step_name t)) as [[|] t'].
Qed.

(** The loop stops at the first step that does not report success: the
    steps after it have no part in the outcome. *)
Lemma run_steps_halt before step_name step_func after : forall t t',
  all_succeed before t t' ->
  (step_func (mark step_name t')).1 = false ->
  run_steps (before ++ (step_name, step_func) :: after) t =
    (tt, stopped_at step_name (step_func (mark step_name t')).2).
Proof.
  induction before as [|[n f] before IH]; intros t t' Hok Hfail.
  - inversion Hok; subst. cbn [app]. by rewrite run_steps_cons, Hfail.
  - inversion Hok; subst. cbn [app]. rewrite run_steps_cons.
    match goal with H : (f _).1 = true |- _ => rewrite H end. eauto.
Qed.

(** When every step reports success the loop reports completion. *)
Lemma run_steps_complete steps : forall t t',
  all_succeed steps t t' -> run_steps steps t = (tt, completed t').
Proof.
  induction steps as [|[n f] steps IH]; intros t t' Hok; inversion Hok; subst.
  - reflexivity.
  - rewrite run_steps_cons.
    match goal with H : (f _).1 = true |- _ => rewrite H end. eauto.
Qed.

(** C4. The full sync runs sync-to-remote, git-push, git-pull and
    sync-from-remote in this order, each from the history the previous
    one left.  The first step that does not report success ends the run:
    the only thing that follows it is the status "Full sync stopped at",
    whatever the later steps are, so that none of them is invoked.
    Success is reported exactly when all four steps reported success. *)
Theorem full_sync_pipeline (w : World) (self : SyncApp) (p : Project)
    (t : trace) :
  current_project self = Some p ->
  let r1 := _sync_to_remote w self true (mark "Syncing untracked to remote" t) in
  let r2 := _git_push w self (mark "Pushing to git" r1.2) in
  let r3 := _git_pull w self (mark "Pulling from git" r2.2) in
  let r4 := _sync_from_remote w self true
              (mark "Syncing untracked from remote" r3.2) in
  let final := (_full_sync w self t).2 in
  (r1.1 = false -> final = stopped_at "Syncing untracked to remote" r1.2) /\
  (r1.1 = true -> r2.1 = false -> final = stopped_at "Pushing to git" r2.2) /\
  (r1.1 = true -> r2.1 = true -> r3.1 = false ->
     final = stopped_at "Pulling from git" r3.2) /\
  (r1.1 = true -> r2.1 = true -> r3.1 = true -> r4.1 = false ->
     final = stopped_at "Syncing untracked from remote" r4.2) /\
  (r1.1 = true -> r2.1 = true -> r3.1 = true -> r4.1 = true ->
     final = completed r4.2) /\
  (head final = Some (EShowInfo "Success" "Full sync completed successfully!") <->
     r1.1 = true /\ r2.1 = true /\ r3.1 = true /\ r4.1 = true) /\
  (forall later : list (string * M bool),
     r1.1 = true -> r2.1 = false ->
     run_steps
       ([("Syncing untracked to remote", _sync_to_remote w self true);
         ("Pushing to git", _git_push w self)] ++ later) t =
       (tt, stopped_at "Pushing to git" r2.2)).
Proof.
  intros Hsel r1 r2 r3 r4 final.
  assert (Hfinal : final =
    if r1.1 then if r2.1 then if r3.1 then if r4.1 then completed r4.2
      else stopped_at "Syncing untracked from remote" r4.2
      else stopped_at "Pulling from git" r3.2
      else stopped_at "Pushing to git" r2.2
      else stopped_at "Syncing untracked to remote" r1.2).
  { subst final. unfold _full_sync. rewrite Hsel. cbv zeta.
    rewrite run_steps_cons. fold r1. destruct (r1.1); [|done].
    rewrite run_steps_cons. fold r2. destruct (r2.1); [|done].
    rewrite run_steps_cons. fold r3. destruct (r3.1); [|done].
    rewrite run_steps_cons. fold r4. destruct (r4.1); done. }
  clearbody final. subst final.
  repeat split.
  - by intros ->.
  - by intros -> ->.
  - by intros -> -> ->.
  - by intros -> -> -> ->.
  - by intros -> -> -> ->.
  - destruct (r1.1); [|done]. destruct (r2.1); [|done].
    destruct (r3.1); [|done]. destruct (r4.1); done.
  - destruct (r1.1); [|done]. destruct (r2.1); [|done].
    destruct (r3.1); [|done]. destruct (r4.1); done.
  - destruct (r1.1); [|done]. destruct (r2.1); [|done].
    destruct (r3.1); [|done]. destruct (r4.1); done.
  - destruct (r1.1); [|done]. destruct (r2.1); [|done].
    destruct (r3.1); [|done]. destruct (r4.1); done.
  - by intros (-> & -> & -> & ->).
  - intros later H1 H2.
    apply (run_steps_halt [("Syncing untracked to remote", _sync_to_remote w self true)]
             "Pushing to git" (_git_push w self) later t r1.2); [|exact H2].
    econstructor; [exact H1 | constructor].
Qed.

(** ** The project store *)

(** C9. A store file that is present and corrupt does not always load
    as the empty list.  A file whose whole text is [[]] or [null] is
    decoded by [json.load], and [load] then raises [AttributeError]
    where it calls [get] on what is not a dict; a file on which
    [json.load] raises [UnicodeDecodeError] makes [load] raise it too.
    The [except] clause, which turns [JSONDecodeError] and [IOError]
    into the empty list, catches neither. *)
Theorem corrupt_store_raises :
  let json_load := Office.reader [Config.JArray []; Config.JNull] in
  json_load "[]" = Some (Config.JArray []) /\
  json_load "null" = Some Config.JNull /\
  Config.load json_load (Config.Text "[]") = Config.Raised "AttributeError" /\
  Config.load json_load (Config.Text "null") = Config.Raised "AttributeError" /\
  Config.load json_load (Config.Breaking "UnicodeDecodeError") =
    Config.Raised "UnicodeDecodeError" /\
  Config.load json_load (Config.Text "{projects: [") =
    Config.Loaded (Config.JArray []).
Proof. intros json_load. repeat split. Qed.

(** ** The properties on the sample installation *)

Lemma detect_conflicts_iff_witness :
  let W := Demo.world Demo.listings Demo.mtimes [] [] true in
  let found := (_detect_conflicts W Demo.project []).1 in
  {| file := "notes.txt"; local_time := "2023-11-14 22:13:25";
     remote_time := "2023-11-14 22:13:20" |} ∈ found /\
  NoDup (file <$> found).
Proof.
  intros W found.
  destruct (detect_conflicts_iff W Demo.project []) as (Hiff & Hnd & _).
  split; [|exact Hnd]. apply Hiff. vm_compute.
  split; [apply list_elem_of_further, list_elem_of_here|].
  split; [apply list_elem_of_further, list_elem_of_here|].
  eexists. split; [apply examined_here|].
  split; [reflexivity|]. split; [reflexivity | discriminate].
Defined.

Lemma apply_all_resolution_witness :
  let cs := [ {| file := "a.bin"; local_time := "1"; remote_time := "2" |};
              {| file := "b.bin"; local_time := "3"; remote_time := "4" |};
              {| file := "c.bin"; local_time := "5"; remote_time := "6" |} ] in
  let d := ConflictDialog.run cs [Decide Skip false; Decide Local true; CancelAll] in
  NoDup (file <$> cs) /\ length [Skip] < length cs /\
  size (ConflictDialog.results d) = 3 /\
  ConflictDialog.results d !! "a.bin" = Some Skip /\
  ConflictDialog.results d !! "b.bin" = Some Local /\
  ConflictDialog.results d !! "c.bin" = Some Local.
Proof.
  intros cs d.
  assert (Hnd : NoDup (file <$> cs)).
  { apply (bool_decide_unpack _). vm_compute. exact I. }
  assert (Hlen : length [Skip] < length cs) by (cbn; lia).
  destruct (apply_all_resolution cs [Skip] Local [CancelAll] Hnd Hlen)
    as (_ & _ & Hsize & Hrest & Hfirst).
  split; [exact Hnd|]. split; [exact Hlen|]. split; [exact Hsize|].
  split; [exact (Hfirst 0 _ (le_n 1) eq_refl)|].
  split; [exact (Hrest 1 _ (le_n 1) eq_refl)|].
  exact (Hrest 2 _ (le_S _ _ (le_n 1)) eq_refl).
Defined.


Lemma cancel_aborts_sync_witness :
  let W := Demo.world Demo.listings Demo.mtimes [CancelAll] [] true in
  current_project Demo.app = Some Demo.project /\
  (_sync_to_remote W Demo.app true []).1 = false /\
  (_sync_from_remote W Demo.app true []).1 = false /\
  temp_files (_sync_to_remote W Demo.app true []).2 = [].
Proof.
  intros W.
  destruct (cancel_aborts_sync W Demo.app Demo.project [] [] [] eq_refl)
    as (_ & Hto & Hfrom & Htemp & _).
  - vm_compute. lia.
  - reflexivity.
  - split; [reflexivity|]. rewrite Hto, Hfrom. split; [reflexivity|].
    split; [reflexivity | exact Htemp].
Defined.

Lemma full_sync_pipeline_witness :
  let W := Demo.world (("git push origin main", Completed 1 "" "rejected") :: Demo.listings)
             Demo.mtimes [Decide Local true] [] true in
  let final := (_full_sync W Demo.app []).2 in
  current_project Demo.app = Some Demo.project /\
  head final = Some (EStatus "Full sync stopped at: Pushing to git" "orange") /\
  pull_cmd Demo.project ∉ commands final.
Proof.
  intros W final.
  destruct (full_sync_pipeline W Demo.app Demo.project [] eq_refl)
    as (_ & Hpush & _).
  split; [reflexivity|]. subst final. rewrite Hpush by reflexivity.
  split; [reflexivity|].
  apply (bool_decide_unpack _). vm_compute. exact I.
Defined.

Lemma git_push_commit_gate_witness :
  let W := Demo.world [(status_cmd, Completed 0 (" M a.py" +:+ nl) "")] []
             [] [CommitAndPush "  "; CommitCancel] true in
  current_project Demo.app = Some Demo.project /\
  (_git_push W Demo.app []).1 = false /\
  commands (_git_push W Demo.app []).2 = [status_cmd].
Proof.
  intros W.
  destruct (git_push_commit_gate W Demo.app Demo.project [] eq_refl)
    as (_ & Hcancel & _).
  destruct (Hcancel eq_refl eq_refl) as (Hr & _ & Hcmds).
  split; [reflexivity|]. split; [exact Hr | exact Hcmds].
Defined.

Lemma empty_list_nothing_to_do_witness :
  let W := Demo.world Demo.listings Demo.mtimes [] [] true in
  let exclude := ["build.log"; "notes.txt"; ".env"] in
  keep_files
    (_get_gitignored_files W Demo.project true
       [EStatus "Syncing untracked files to remote..." "blue"]).1 exclude = [] /\
  (push_files W Demo.project exclude []).1 = true /\
  commands (push_files W Demo.project exclude []).2 = [ls_files].
Proof.
  intros W exclude.
  assert (Hempty : keep_files
    (_get_gitignored_files W Demo.project true
       [EStatus "Syncing untracked files to remote..." "blue"]).1 exclude = [])
    by (vm_compute; reflexivity).
  destruct (proj1 (empty_list_nothing_to_do W Demo.project exclude []) Hempty)
    as [Heq _].
  split; [exact Hempty|]. rewrite Heq. split; reflexivity.
Defined.

Lemma listing_failure_nothing_to_do_witness :
  let W := Demo.world [(ls_files, Completed 128 "" "fatal: not a git repository")]
             [] [] [] true in
  current_project Demo.app = Some Demo.project /\
  (forall t', (_run_command W ls_files (Some (local_path Demo.project)) t').1.1 = false) /\
  (_sync_to_remote W Demo.app true []).1 = true /\
  head (_sync_to_remote W Demo.app true []).2 =
    Some (EStatus "No untracked files to sync" "gray").
Proof.
  intros W.
  assert (Hfail : forall t',
    (_run_command W ls_files (Some (local_path Demo.project)) t').1.1 = false)
    by (intros t'; reflexivity).
  destruct (listing_failure_nothing_to_do W Demo.app Demo.project [] [] eq_refl)
    as (_ & _ & _ & _ & Hsync & _).
  destruct (Hsync Hfail true) as (Hok & Hhead & _).
  split; [reflexivity|]. split; [exact Hfail|]. split; [exact Hok | exact Hhead].
Defined.


(** * Further properties *)

(** ** Strings *)

Lemma lstrip_head s :
  PyStr.lstrip s = EmptyString \/
  exists a s', PyStr.lstrip s = String a s' /\ PyStr.isspace a = false.
Proof.
  induction s as [|a s IH]; [by left|]. cbn.
  destruct (PyStr.isspace a) eqn:E; [exact IH | right; eauto].
Qed.

Lemma rstrip_cons a s :
  PyStr.rstrip (String a s) =
    match PyStr.rstrip s with
    | EmptyString => if PyStr.isspace a then EmptyString else String a EmptyString
    | r => String a r
    end.
Proof. reflexivity. Qed.

Lemma rstrip_idempotent s : PyStr.rstrip (PyStr.rstrip s) = PyStr.rstrip s.
Proof.
  induction s as [|a s IH]; [done|]. rewrite rstrip_cons.
  destruct (PyStr.rstrip s) as [|b r] eqn:E.
  - destruct (PyStr.isspace a) eqn:Ea; [done|]. by rewrite rstrip_cons, Ea.
  - by rewrite rstrip_cons, IH.
Qed.

Lemma rstrip_keeps_head a s :
  PyStr.isspace a = false ->
  exists r, PyStr.rstrip (String a s) = String a r.
Proof.
  intros Ha. rewrite rstrip_cons. destruct (PyStr.rstrip s); rewrite ?Ha; eauto.
Qed.

(** Stripping twice is stripping once: what [_run_command] returns is
    not changed by the second [strip] of its callers. *)
Lemma strip_idempotent s : PyStr.strip (PyStr.strip s) = PyStr.strip s.
Proof.
  unfold PyStr.strip.
  destruct (lstrip_head s) as [-> | (a & s' & -> & Ha)]; [done|].
  destruct (rstrip_keeps_head a s' Ha) as [r Hr]. rewrite Hr.
  cbn [PyStr.lstrip]. rewrite Ha, <- Hr. apply rstrip_idempotent.
Qed.

Lemma split_lines_nonempty s : PyStr.split_lines s <> [].
Proof.
  destruct s as [|a s]; [done|]. cbn.
  destruct (Ascii.eqb a PyStr.newline); [done|].
  by destruct (PyStr.split_lines s).
Qed.

(** Splitting a text into lines and joining the lines gives the text. *)
Lemma join_split_lines s : PyStr.join_lines (PyStr.split_lines s) = s.
Proof.
  induction s as [|a s IH]; [done|]. cbn [PyStr.split_lines].
  pose proof (split_lines_nonempty s) as Hne.
  destruct (Ascii.eqb_spec a PyStr.newline) as [->|Hna].
  - destruct (PyStr.split_lines s) as [|x xs]; [done|].
    cbn [PyStr.join_lines]. cbn. by rewrite <- IH.
  - destruct (PyStr.split_lines s) as [|x xs]; [done|].
    rewrite <- IH. by destruct xs.
Qed.

(** ** More on listing, detection and transfer *)

Section MoreSyncFacts.

Variable w : World.
Variable p : Project.

(** A successful command's output is already stripped. *)
Lemma run_command_stripped cmd cwd t :
  (_run_command w cmd cwd t).1.1 = true ->
  PyStr.strip (_run_command w cmd cwd t).1.2 = (_run_command w cmd cwd t).1.2.
Proof.
  unfold _run_command, bind, ask, emit, ret.
  destruct (subprocess_run w t cmd cwd); cbn; [|done..].
  intros _. apply strip_idempotent.
Qed.

Lemma keep_files_nil files : keep_files files [] = files.
Proof.
  unfold keep_files. induction files as [|f files IH]; [done|].
  rewrite filter_cons_True by apply not_elem_of_nil. by rewrite IH.
Qed.

(** The lines the lister returns, joined, are the command's output. *)
Lemma get_gitignored_files_join local t :
  let r := (_run_command w (ls_cmd p local).1 (ls_cmd p local).2 t).1 in
  r.1 = true -> r.2 <> EmptyString ->
  PyStr.join_lines (_get_gitignored_files w p local t).1 = r.2 /\
  (_get_gitignored_files w p local t).1 <> [].
Proof.
  intros r Hok Hout. rewrite get_gitignored_files_eq. cbn [fst].
  fold r. rewrite Hok. destruct (r.2) as [|a s] eqn:E; [done|]. cbn [andb PyStr.truthy].
  rewrite <- E. subst r. rewrite run_command_stripped by done.
  split; [apply join_split_lines | apply split_lines_nonempty].
Qed.

Lemma detect_loop_commands fs : forall acc t,
  (detect_loop w p fs acc t).2 =
    ((fun f => ERun (stat_cmd p f) None) <$> reverse fs) ++ t.
Proof.
  induction fs as [|f fs IH]; intros acc t; [done|].
  rewrite detect_loop_cons, IH, probe_eq. cbn [snd].
  rewrite reverse_cons, fmap_app, <- app_assoc. done.
Qed.

Lemma commands_app t1 t2 : commands (t1 ++ t2) = commands t1 ++ commands t2.
Proof. unfold commands. apply omap_app. Qed.

Lemma commands_runs (cmds : list string) :
  commands ((fun c => ERun c None) <$> cmds) = cmds.
Proof. induction cmds as [|c cmds IH]; [done|]. cbn. by rewrite <- IH at 2. Qed.

Lemma unlinked_runs runs t :
  Forall (fun e => exists cmd cwd, e = ERun cmd cwd) runs ->
  unlinked (runs ++ t) = unlinked t.
Proof. induction 1 as [|e runs (cmd & cwd & ->) _ IH]; [done | by cbn]. Qed.

(** The transfer stage removes the temporary file it writes. *)
Lemma push_files_temp exclude t :
  exists paths,
    (temp_files (push_files w p exclude t).2).*1 = paths ++ (temp_files t).*1 /\
    unlinked (push_files w p exclude t).2 = paths ++ unlinked t.
Proof.
  rewrite push_files_eq. cbv zeta.
  destruct (keep_files _ exclude) as [|f0 fs]; [by exists []|].
  eexists [_]. match goal with |- context [if ?b then _ else _] => destruct b end;
    cbn; split; reflexivity.
Qed.

Lemma pull_files_temp exclude t :
  exists paths,
    (temp_files (pull_files w p exclude t).2).*1 = paths ++ (temp_files t).*1 /\
    unlinked (pull_files w p exclude t).2 = paths ++ unlinked t.
Proof.
  rewrite pull_files_eq. cbv zeta.
  destruct (keep_files _ exclude) as [|f0 fs]; [by exists []|].
  eexists [_]. match goal with |- context [if ?b then _ else _] => destruct b end;
    cbn; split; reflexivity.
Qed.

Lemma detect_conflicts_no_unlink t :
  unlinked (_detect_conflicts w p t).2 = unlinked t.
Proof.
  destruct (detect_conflicts_trace w p t) as (runs & -> & Hruns).
  by apply unlinked_runs.
Qed.

End MoreSyncFacts.

(** X1. When the listing command of the authoritative side succeeds with
    some output and no file is excluded, the file list written for the
    transfer tool is that output, character for character. *)
Theorem listing_passed_verbatim (w : World) (p : Project) (t : trace) :
  let t_push := EStatus "Syncing untracked files to remote..." "blue" :: t in
  let t_pull := EStatus "Syncing untracked files from remote..." "blue" :: t in
  let ls_l := (_run_command w ls_files (Some (local_path p)) t_push).1 in
  let ls_r := (_run_command w (ls_cmd p false).1 None t_pull).1 in
  (ls_l.1 = true -> ls_l.2 <> EmptyString ->
   temp_files (push_files w p [] t).2 =
     (mkstemp w (ERun ls_files (Some (local_path p)) :: t_push), ls_l.2) ::
     temp_files t) /\
  (ls_r.1 = true -> ls_r.2 <> EmptyString ->
   temp_files (pull_files w p [] t).2 =
     (mkstemp w (ERun (ls_cmd p false).1 None :: t_pull), ls_r.2) ::
     temp_files t).
Proof.
  intros t_push t_pull ls_l ls_r. split; intros Hok Hout.
  - destruct (get_gitignored_files_join w p true t_push Hok Hout) as [Hjoin Hne].
    rewrite push_files_eq. cbv zeta. fold t_push. rewrite keep_files_nil.
    destruct (_get_gitignored_files w p true t_push).1 as [|f0 fs] eqn:E; [done|].
    rewrite Hjoin.
    match goal with |- context [if ?b then _ else _] => destruct b end; reflexivity.
  - destruct (get_gitignored_files_join w p false t_pull Hok Hout) as [Hjoin Hne].
    rewrite pull_files_eq. cbv zeta. fold t_pull. rewrite keep_files_nil.
    destruct (_get_gitignored_files w p false t_pull).1 as [|f0 fs] eqn:E; [done|].
    rewrite Hjoin.
    match goal with |- context [if ?b then _ else _] => destruct b end; reflexivity.
Qed.

(** X2. A sync in either direction removes every temporary file it
    writes, whether the transfer succeeds or fails, and removes no
    other: the paths written and the paths removed during the call are
    the same. *)
Theorem temp_file_always_removed (w : World) (self : SyncApp)
    (resolve_conflicts : bool) (t : trace) :
  (exists paths,
     (temp_files (_sync_to_remote w self resolve_conflicts t).2).*1 =
       paths ++ (temp_files t).*1 /\
     unlinked (_sync_to_remote w self resolve_conflicts t).2 = paths ++ unlinked t) /\
  (exists paths,
     (temp_files (_sync_from_remote w self resolve_conflicts t).2).*1 =
       paths ++ (temp_files t).*1 /\
     unlinked (_sync_from_remote w self resolve_conflicts t).2 = paths ++ unlinked t).
Proof.
  destruct (current_project self) as [p|] eqn:Hsel.
  2:{ unfold _sync_to_remote, _sync_from_remote. rewrite Hsel.
      split; by exists []. }
  set (t0 := EStatus "Checking for conflicts..." "blue" :: t).
  assert (Hdet : (temp_files (_detect_conflicts w p t0).2).*1 = (temp_files t).*1 /\
                 unlinked (_detect_conflicts w p t0).2 = unlinked t).
  { by rewrite detect_conflicts_no_temp, detect_conflicts_no_unlink. }
  destruct Hdet as [Hd1 Hd2].
  rewrite (sync_to_remote_eq w self p Hsel), (sync_from_remote_eq w self p Hsel).
  cbv zeta. fold t0. split.
  - destruct resolve_conflicts; [|apply (push_files_temp w p [] t0)].
    destruct (_detect_conflicts w p t0).1 as [|c0 cs].
    + destruct (push_files_temp w p [] (_detect_conflicts w p t0).2)
        as (paths & H1 & H2). exists paths. rewrite H1, H2. by split; f_equal.
    + destruct (ConflictDialog.cancelled _).
      * exists []. cbn. by split.
      * match goal with |- context [push_files w p ?ex ?t'] =>
          destruct (push_files_temp w p ex t') as (paths & H1 & H2) end.
        exists paths. rewrite H1, H2. cbn. by split; f_equal.
  - destruct resolve_conflicts; [|apply (pull_files_temp w p [] t0)].
    destruct (_detect_conflicts w p t0).1 as [|c0 cs].
    + destruct (pull_files_temp w p [] (_detect_conflicts w p t0).2)
        as (paths & H1 & H2). exists paths. rewrite H1, H2. by split; f_equal.
    + destruct (ConflictDialog.cancelled _).
      * exists []. cbn. by split.
      * match goal with |- context [pull_files w p ?ex ?t'] =>
          destruct (pull_files_temp w p ex t') as (paths & H1 & H2) end.
        exists paths. rewrite H1, H2. cbn. by split; f_equal.
Qed.

(** X3. When there are files to send, the result of the transfer stage
    is the result of the transfer tool: success gives success and no
    error dialog; a failure (non-zero exit, timeout, exception) gives
    non-success and exactly one error dialog, which carries the tool's
    output as [_run_command] returned it.  No retry is made: the tool
    runs once. *)
Theorem transfer_result_surfaced (w : World) (p : Project)
    (exclude : list string) (t : trace) :
  let listing_l := _get_gitignored_files w p true
                     (EStatus "Syncing untracked files to remote..." "blue" :: t) in
  let listing_r := _get_gitignored_files w p false
                     (EStatus "Syncing untracked files from remote..." "blue" :: t) in
  let job (listing : list string * trace) rsync :=
    (_run_command w (rsync (mkstemp w listing.2)) None
       (ETempFile (mkstemp w listing.2)
          (PyStr.join_lines (keep_files listing.1 exclude)) :: listing.2)).1 in
  let report (r : bool * string) :=
    if r.1 then [] else [EShowError "Error" ("Sync failed:" +:+ nl +:+ r.2)] in
  (keep_files listing_l.1 exclude <> [] ->
   (push_files w p exclude t).1 = (job listing_l (rsync_to_remote p)).1 /\
   errors_shown (push_files w p exclude t).2 =
     report (job listing_l (rsync_to_remote p)) ++ errors_shown t /\
   commands (push_files w p exclude t).2 =
     rsync_to_remote p (mkstemp w listing_l.2) :: commands listing_l.2) /\
  (keep_files listing_r.1 exclude <> [] ->
   (pull_files w p exclude t).1 = (job listing_r (rsync_from_remote p)).1 /\
   errors_shown (pull_files w p exclude t).2 =
     report (job listing_r (rsync_from_remote p)) ++ errors_shown t /\
   commands (pull_files w p exclude t).2 =
     rsync_from_remote p (mkstemp w listing_r.2) :: commands listing_r.2).
Proof.
  intros listing_l listing_r job report. split; intros Hne.
  - rewrite push_files_eq. cbv zeta. fold listing_l.
    subst job report listing_l. cbn beta.
    rewrite !get_gitignored_files_trace. cbn [ls_cmd fst snd].
    destruct (keep_files _ exclude) as [|f0 fs]; [done|].
    match goal with |- context [if ?b then _ else _] => destruct b end; by cbn.
  - rewrite pull_files_eq. cbv zeta. fold listing_r.
    subst job report listing_r. cbn beta.
    rewrite !get_gitignored_files_trace. cbn [ls_cmd fst snd].
    destruct (keep_files _ exclude) as [|f0 fs]; [done|].
    match goal with |- context [if ?b then _ else _] => destruct b end; by cbn.
Qed.

(** X4. Conflict detection runs one listing command on each side and
    then exactly one remote [stat] command for each file listed on both
    sides, in the order it visits them; a file listed on one side only
    costs no command. *)
Theorem detection_commands (w : World) (p : Project) (t : trace) :
  let l := _get_gitignored_files w p true t in
  let r := _get_gitignored_files w p false l.2 in
  let common := elements ((list_to_set l.1 : gset string) ∩ list_to_set r.1) in
  commands (_detect_conflicts w p t).2 =
    (stat_cmd p <$> reverse common) ++
    (ls_cmd p false).1 :: ls_files :: commands t.
Proof.
  intros l r common. rewrite detect_conflicts_eq. cbv zeta. fold l r common.
  rewrite detect_loop_commands, commands_app. subst r l.
  rewrite !get_gitignored_files_trace. cbn [ls_cmd fst snd]. f_equal.
  induction (reverse common) as [|f fs IH]; [done|]. cbn. by rewrite <- IH.
Qed.


(** ** More on the git operations *)

Section MoreGitFacts.

Variable w : World.
Variable self : SyncApp.
Variable p : Project.
Hypothesis selected : current_project self = Some p.

(** [_git_pull], branch by branch. *)
Lemma git_pull_eq t :
  let cwd := Some (local_path p) in
  let st := (_get_git_status w p t).1 in
  let t1 := ERun status_cmd cwd :: t in
  let go := askyesno w t1 "Warning" pull_warning in
  let t2 := EAskYesNo "Warning" pull_warning :: t1 in
  _git_pull w self t =
    if st.1 then
      if negb go then (false, EStatus "Pull cancelled" "gray" :: t2)
      else pull_branch w p t2
    else pull_branch w p t1.
Proof.
  cbv zeta. unfold _git_pull. rewrite selected. unfold bind at 1.
  rewrite get_git_status_eq. cbn [fst snd].
  match goal with |- context [if ?b then (?x, ?y) else ?z] =>
    destruct (if b then (x, y) else z) as [is_dirty summary] end.
  cbn [fst snd]. destruct is_dirty.
  - unfold bind at 1, ask_yes_no, bind at 1 2, ask, emit, ret.
    fold pull_warning. destruct (askyesno w _ _ _); cbn [negb]; [|reflexivity].
    unfold pull_branch, bind, _set_status, emit. fold (pull_cmd p).
    rewrite run_command_eq. cbn [fst snd].
    by destruct (_run_command w _ _ _).1 as [[|] output'].
  - unfold pull_branch, bind, _set_status, emit. fold (pull_cmd p).
    rewrite run_command_eq. cbn [fst snd].
    by destruct (_run_command w _ _ _).1 as [[|] output'].
Qed.

Lemma pull_branch_facts t :
  (pull_branch w p t).1 =
    (_run_command w (pull_cmd p) (Some (local_path p))
       (EStatus "Pulling from remote..." "blue" :: t)).1.1 /\
  commands (pull_branch w p t).2 = pull_cmd p :: commands t /\
  prompts (pull_branch w p t).2 = prompts t.
Proof.
  unfold pull_branch. cbv zeta.
  by destruct (_run_command w (pull_cmd p) _ _).1 as [[|] output].
Qed.

Lemma push_branch_facts t :
  (push_branch w p t).1 =
    (_run_command w (push_cmd p) (Some (local_path p))
       (EStatus "Pushing to remote..." "blue" :: t)).1.1 /\
  commands (push_branch w p t).2 = push_cmd p :: commands t /\
  prompts (push_branch w p t).2 = prompts t.
Proof.
  unfold push_branch. cbv zeta.
  by destruct (_run_command w (push_cmd p) _ _).1 as [[|] output].
Qed.

End MoreGitFacts.

(** X5. A pull first asks for the working-tree status.  Over a dirty tree
    it asks the user whether to go on: a "no" makes it return
    non-success with the status "Pull cancelled", without running the
    pull command and without an error dialog.  Over a clean tree no
    question is asked.  Whenever the pull command runs, it is the pull of
    the configured branch and its result is the result of the pull. *)
Theorem git_pull_gate (w : World) (self : SyncApp) (p : Project) (t : trace) :
  current_project self = Some p ->
  let cwd := Some (local_path p) in
  let status := (_run_command w status_cmd cwd t).1 in
  let dirty := status.1 && PyStr.truthy (PyStr.strip status.2) in
  let t1 := ERun status_cmd cwd :: t in
  let go := askyesno w t1 "Warning" pull_warning in
  let pulled_from t' :=
    (_run_command w (pull_cmd p) cwd (EStatus "Pulling from remote..." "blue" :: t')).1.1 in
  let r := _git_pull w self t in
  (dirty = true -> go = false ->
     r.1 = false /\ head r.2 = Some (EStatus "Pull cancelled" "gray") /\
     commands r.2 = status_cmd :: commands t /\
     errors_shown r.2 = errors_shown t) /\
  (dirty = true -> go = true ->
     r.1 = pulled_from (EAskYesNo "Warning" pull_warning :: t1) /\
     commands r.2 = pull_cmd p :: status_cmd :: commands t) /\
  (dirty = false ->
     r.1 = pulled_from t1 /\
     commands r.2 = pull_cmd p :: status_cmd :: commands t /\
     prompts r.2 = prompts t).
Proof.
  intros Hsel cwd status dirty t1 go pulled_from r.
  assert (Hst : (_get_git_status w p t).1.1 = dirty).
  { rewrite get_git_status_eq. cbn [fst]. fold cwd status. subst dirty.
    by destruct status as [[|] output]. }
  assert (Hr : r = _git_pull w self t) by done. clearbody r.
  rewrite (git_pull_eq w self p Hsel) in Hr. cbv zeta in Hr.
  rewrite Hst in Hr. fold cwd t1 in Hr. fold go in Hr.
  split; [|split].
  - intros Hd Hgo. rewrite Hd, Hgo in Hr. by subst r.
  - intros Hd Hgo. rewrite Hd, Hgo in Hr. subst r. cbn [negb].
    destruct (pull_branch_facts w p (EAskYesNo "Warning" pull_warning :: t1))
      as (-> & -> & _). done.
  - intros Hd. rewrite Hd in Hr. subst r.
    destruct (pull_branch_facts w p t1) as (-> & -> & ->). done.
Qed.

(** X6. When the status query itself fails (no repository, timeout, ...),
    [_get_git_status] reports a clean tree: a push then asks for no
    commit message and runs no commit, a pull asks no question, and both
    go straight to their push or pull command, whose result they
    return. *)
Theorem failed_status_is_clean (w : World) (self : SyncApp) (p : Project)
    (t : trace) :
  current_project self = Some p ->
  let cwd := Some (local_path p) in
  let t_push := EStatus "Checking for uncommitted changes..." "blue" :: t in
  ((_run_command w status_cmd cwd t_push).1.1 = false ->
   (_get_git_status w p t_push).1 = (false, "Error checking git status") /\
   _git_push w self t = push_branch w p (ERun status_cmd cwd :: t_push) /\
   commands (_git_push w self t).2 = push_cmd p :: status_cmd :: commands t /\
   prompts (_git_push w self t).2 = prompts t) /\
  ((_run_command w status_cmd cwd t).1.1 = false ->
   (_get_git_status w p t).1 = (false, "Error checking git status") /\
   _git_pull w self t = pull_branch w p (ERun status_cmd cwd :: t) /\
   commands (_git_pull w self t).2 = pull_cmd p :: status_cmd :: commands t /\
   prompts (_git_pull w self t).2 = prompts t).
Proof.
  intros Hsel cwd t_push. split; intros Hfail.
  - assert (Hst : (_get_git_status w p t_push).1 = (false, "Error checking git status")).
    { rewrite get_git_status_eq. cbn [fst]. fold cwd. by rewrite Hfail. }
    split; [done|]. rewrite (git_push_eq w self p Hsel). cbv zeta.
    fold t_push. rewrite Hst. cbn [fst]. fold cwd. split; [done|].
    destruct (push_branch_facts w p (ERun status_cmd cwd :: t_push)) as (_ & -> & ->).
    done.
  - assert (Hst : (_get_git_status w p t).1 = (false, "Error checking git status")).
    { rewrite get_git_status_eq. cbn [fst]. fold cwd. by rewrite Hfail. }
    split; [done|]. rewrite (git_pull_eq w self p Hsel). cbv zeta.
    rewrite Hst. cbn [fst]. fold cwd. split; [done|].
    destruct (pull_branch_facts w p (ERun status_cmd cwd :: t)) as (_ & -> & ->).
    done.
Qed.

(** ** The commit dialog *)

Lemma replicate_snoc_app {A} (x : A) k l :
  replicate k x ++ x :: l = x :: replicate k x ++ l.
Proof. induction k as [|k IH]; [done|]. cbn. by rewrite IH. Qed.

Lemma commit_dialog_cases script : forall shown0,
  exists blanks,
    Forall (fun b => PyStr.strip b = EmptyString) blanks /\
    (CommitDialog.wait_window script shown0).1 =
      replicate (length blanks) (EShowError "Error" "Commit message is required")
      ++ shown0 /\
    ((exists typed rest,
        script = (CommitAndPush <$> blanks) ++ CommitAndPush typed :: rest /\
        PyStr.strip typed <> EmptyString /\
        (CommitDialog.wait_window script shown0).2 = Some (PyStr.strip typed)) \/
     ((CommitDialog.wait_window script shown0).2 = None /\
      (script = CommitAndPush <$> blanks \/
       exists rest, script = (CommitAndPush <$> blanks) ++ CommitCancel :: rest))).
Proof.
  induction script as [|[typed|] script IH]; intros shown0.
  - exists []. cbn. split; [constructor|]. split; [done|]. right. auto.
  - cbn. destruct (PyStr.strip typed) as [|a s] eqn:E; cbn.
    + destruct (IH (EShowError "Error" "Commit message is required" :: shown0))
        as (blanks & Hb & Hshown & Hres).
      exists (typed :: blanks). split; [by constructor|].
      split; [rewrite Hshown; cbn; apply replicate_snoc_app|].
      destruct Hres as [(ty & rest & -> & Hne & Hr)|(Hr & Hs)].
      * left. exists ty, rest. auto.
      * right. split; [done|]. destruct Hs as [->|(rest & ->)]; [by left|].
        right. by exists rest.
    + exists []. split; [constructor|]. split; [done|]. left.
      exists typed, script. rewrite E. auto.
  - exists []. cbn. split; [constructor|]. split; [done|]. right.
    split; [done|]. right. by exists script.
Qed.

(** X7. The commit dialog answers an empty or blank message with one
    error dialog and stays open.  It returns the first message that is
    not blank, stripped, so a returned message is never empty and
    carries no surrounding white space; it returns nothing when the user
    cancels or closes the dialog first. *)
Theorem commit_dialog_outcome (script : list commit_action) :
  let shown := (CommitDialog.wait_window script []).1 in
  let result := (CommitDialog.wait_window script []).2 in
  exists blanks,
    Forall (fun b => PyStr.strip b = EmptyString) blanks /\
    shown = replicate (length blanks)
              (EShowError "Error" "Commit message is required") /\
    ((exists typed rest,
        script = (CommitAndPush <$> blanks) ++ CommitAndPush typed :: rest /\
        result = Some (PyStr.strip typed) /\
        PyStr.strip typed <> EmptyString /\
        PyStr.strip (PyStr.strip typed) = PyStr.strip typed) \/
     (result = None /\
      (script = CommitAndPush <$> blanks \/
       exists rest, script = (CommitAndPush <$> blanks) ++ CommitCancel :: rest))).
Proof.
  intros shown result.
  destruct (commit_dialog_cases script []) as (blanks & Hb & Hshown & Hres).
  exists blanks. split; [done|]. split; [by rewrite app_nil_r in Hshown|].
  destruct Hres as [(typed & rest & Hs & Hne & Hr)|Hnone]; [|by right].
  left. exists typed, rest. auto using strip_idempotent.
Qed.

(** X8. A push runs at most three commands, in this order: the status
    query, one commit, one push of the configured branch.  A commit it
    runs carries a message that is not empty and has no surrounding
    white space; nothing else is ever run. *)
Theorem git_push_commands (w : World) (self : SyncApp) (p : Project)
    (t : trace) :
  current_project self = Some p ->
  exists cmds,
    commands (_git_push w self t).2 = cmds ++ commands t /\
    (cmds = [status_cmd] \/
     cmds = [push_cmd p; status_cmd] \/
     exists msg,
       msg <> EmptyString /\ PyStr.strip msg = msg /\
       (cmds = [commit_cmd msg; status_cmd] \/
        cmds = [push_cmd p; commit_cmd msg; status_cmd])).
Proof.
  intros Hsel. rewrite (git_push_eq w self p Hsel). cbv zeta.
  set (t0 := EStatus "Checking for uncommitted changes..." "blue" :: t).
  set (t1 := ERun status_cmd (Some (local_path p)) :: t0).
  set (st := (_get_git_status w p t0).1).
  set (answer := CommitDialog.wait_window (commit_script w t1 st.2) []).
  assert (Hshown : commands (answer.1 ++ ECommitDialog st.2 :: t1) =
                   status_cmd :: commands t).
  { rewrite commands_app. subst answer.
    by rewrite (proj1 (commit_dialog_result _ _)). }
  destruct (st.1).
  2:{ exists [push_cmd p; status_cmd].
      destruct (push_branch_facts w p t1) as (_ & -> & _). auto. }
  destruct (commit_dialog_cases (commit_script w t1 st.2) [])
    as (blanks & _ & _ & [(typed & rest & _ & Hne & Hres)|[Hres _]]);
    fold answer in Hres; rewrite Hres.
  - destruct (PyStr.strip typed) as [|a s] eqn:E; [done|]. cbn [truthy_opt PyStr.truthy negb default].
    unfold id. rewrite <- E.
    assert (Hmsg : PyStr.strip typed <> EmptyString /\
                   PyStr.strip (PyStr.strip typed) = PyStr.strip typed)
      by (split; [by rewrite E | apply strip_idempotent]).
    set (t3 := EStatus "Committing changes..." "blue" ::
               answer.1 ++ ECommitDialog st.2 :: t1).
    assert (Hc3 : commands t3 = status_cmd :: commands t) by exact Hshown.
    clearbody t3.
    destruct (_run_command w (commit_cmd (PyStr.strip typed)) _ t3).1.1; cbn [negb].
    + exists [push_cmd p; commit_cmd (PyStr.strip typed); status_cmd].
      destruct (push_branch_facts w p
                  (ERun (commit_cmd (PyStr.strip typed)) (Some (local_path p)) :: t3))
        as (_ & -> & _).
      split; [cbn; fold (commands t3); by rewrite Hc3|].
      right. right. exists (PyStr.strip typed). destruct Hmsg. auto.
    + exists [commit_cmd (PyStr.strip typed); status_cmd].
      split; [cbn; fold (commands t3); by rewrite Hc3|].
      right. right. exists (PyStr.strip typed). destruct Hmsg. auto.
  - cbn [truthy_opt negb]. exists [status_cmd]. split; [|by left].
    cbn [snd]. change (commands (EStatus "Push cancelled" "gray" :: ?x))
      with (commands x). exact Hshown.
Qed.

(** ** More on the conflict dialog *)

Module MoreDialogFacts.
Import ConflictDialog ConflictDialogFacts.

(** Deciding every remaining conflict one by one closes the window
    after the last of them. *)
Lemma wait_window_decide_all cs individual : forall index r rest,
  individual <> [] ->
  index + length individual = length cs ->
  wait_window (presenting cs index r) (one_by_one individual ++ rest) =
    destroy (presenting cs (length cs)
               (record_each (zip (drop index cs) individual) r)).
Proof.
  induction individual as [|c individual IH]; intros index r rest Hne Hlen;
    [done|].
  cbn [length] in Hlen.
  destruct (lookup_lt_is_Some_2 cs index) as [cf Hcf]; [lia|].
  cbn. rewrite (resolve_one _ _ _ cf) by done.
  rewrite (drop_S _ _ _ Hcf). cbn.
  case_decide as Hlt.
  - fold (one_by_one individual). rewrite IH; [done| |lia].
    destruct individual; [cbn in Hlen; lia | done].
  - assert (individual = []) as -> by (destruct individual; [done | cbn in Hlen; lia]).
    rewrite wait_window_destroyed by done.
    assert (S index = length cs) as -> by (cbn in Hlen; lia).
    by destruct (drop (length cs) cs).
Qed.

Lemma elem_of_files_lookup (cs : list Conflict) i cf :
  cs !! i = Some cf -> file cf ∈ (list_to_set (file <$> cs) : gset string).
Proof.
  intros H. apply elem_of_list_to_set, list_elem_of_fmap. exists cf.
  split; [done|]. by eapply list_elem_of_lookup_2.
Qed.

Lemma files_drop_subseteq (cs : list Conflict) n :
  (list_to_set (file <$> drop n cs) : gset string) ⊆ list_to_set (file <$> cs).
Proof.
  intros f. rewrite !elem_of_list_to_set, !list_elem_of_fmap.
  intros (cf & -> & Hin). exists cf. split; [done|].
  apply list_elem_of_lookup in Hin as [i Hi]. rewrite lookup_drop in Hi.
  by eapply list_elem_of_lookup_2.
Qed.

(** What one user action can do to the dialog. *)
Lemma handle_keeps a d :
  dom (results d) ⊆ list_to_set (file <$> conflicts d) ->
  conflicts (handle a d) = conflicts d /\
  dom (results (handle a d)) ⊆ list_to_set (file <$> conflicts d) /\
  (cancelled (handle a d) = true -> cancelled d = true \/ a = CancelAll).
Proof.
  intros Hdom. destruct a as [c apply_all|]; cbn; [|auto].
  unfold _resolve. destruct (conflicts d !! current_index d) as [cf|] eqn:E;
    [|auto].
  pose proof (elem_of_files_lookup _ _ _ E) as Hcf.
  destruct apply_all; cbn.
  - split; [done|]. split; [|auto].
    rewrite apply_to_dom, dom_insert_L.
    pose proof (files_drop_subseteq (conflicts d) (S (current_index d))).
    set_solver.
  - unfold _show_conflict. cbn. destruct (_ <=? _)%nat; cbn;
      (split; [done|]; split; [rewrite dom_insert_L; set_solver | auto]).
Qed.

Lemma wait_window_keeps script : forall d,
  dom (results d) ⊆ list_to_set (file <$> conflicts d) ->
  destroyed (wait_window d script) = true /\
  conflicts (wait_window d script) = conflicts d /\
  dom (results (wait_window d script)) ⊆ list_to_set (file <$> conflicts d) /\
  (cancelled (wait_window d script) = true ->
   cancelled d = true \/ CancelAll ∈ script).
Proof.
  induction script as [|a script IH]; intros d Hdom.
  - cbn. destruct (destroyed d) eqn:E; cbn; auto.
  - cbn. destruct (destroyed d) eqn:E; [auto|].
    destruct (handle_keeps a d Hdom) as (Hc & Hd & Hcan).
    destruct (IH (handle a d)) as (H1 & H2 & H3 & H4); [by rewrite Hc|].
    rewrite Hc in H2, H3. repeat split; [done..|].
    intros H. destruct (H4 H) as [H'|H']; [|right; by right].
    destruct (Hcan H') as [?| ->]; [by left | right; left].
Qed.

End MoreDialogFacts.

(** X9. When the user decides every conflict one by one, the window
    closes after the last decision, uncancelled, and the Resolution is
    complete: it has one entry for each conflict, the decision taken for
    it.  What the user does afterwards has no effect.  The files of the
    conflicts are distinct, as in every list the detector returns. *)
Theorem all_decided_individually (cs : list Conflict) (choices : list choice)
    (rest : list conflict_action) :
  NoDup (file <$> cs) ->
  cs <> [] ->
  length choices = length cs ->
  let d := ConflictDialog.run cs (((fun x => Decide x false) <$> choices) ++ rest) in
  ConflictDialog.destroyed d = true /\
  ConflictDialog.cancelled d = false /\
  size (ConflictDialog.results d) = length cs /\
  (forall i cf, cs !! i = Some cf ->
     ConflictDialog.results d !! file cf = choices !! i).
Proof.
  intros Hnd Hne Hlen d.
  assert (Hd : d = ConflictDialog.destroy
            (presenting cs (length cs) (record_each (zip cs choices) ∅))).
  { subst d. unfold ConflictDialog.run.
    rewrite ConflictDialogFacts.init_presenting by done.
    fold (one_by_one choices).
    rewrite MoreDialogFacts.wait_window_decide_all; [done| |done].
    destruct choices; [by destruct cs | done]. }
  rewrite Hd. cbn [ConflictDialog.destroy ConflictDialog.destroyed
    ConflictDialog.cancelled ConflictDialog.results presenting].
  split; [done|]. split; [done|].
  assert (Hz : (zip cs choices).*1 = cs).
  { rewrite zip_fst_take, Hlen. apply take_ge. lia. }
  split.
  - rewrite <- (size_dom (D := gset string)).
    rewrite ConflictDialogFacts.record_each_dom, dom_empty_L, Hz.
    rewrite (left_id_L ∅ (∪)).
    rewrite <- (length_fmap file cs). by apply size_list_to_set.
  - intros i cf Hcf.
    destruct (lookup_lt_is_Some_2 choices i) as [ci Hci].
    { rewrite Hlen. by eapply lookup_lt_Some. }
    rewrite Hci. apply (ConflictDialogFacts.record_each_lookup _ _ i).
    + by rewrite Hz.
    + by apply lookup_zip_Some.
Qed.

(** X10. Whatever the user does, the dialog ends closed, and it never
    records a decision for a file that is not one of the conflicts it
    was opened with; it ends cancelled only if "Cancel All" was among
    the user's actions. *)
Theorem dialog_results_within_conflicts (cs : list Conflict)
    (script : list conflict_action) :
  let d := ConflictDialog.run cs script in
  ConflictDialog.destroyed d = true /\
  ConflictDialog.conflicts d = cs /\
  (forall f, is_Some (ConflictDialog.results d !! f) -> f ∈ file <$> cs) /\
  (ConflictDialog.cancelled d = true -> CancelAll ∈ script).
Proof.
  intros d. subst d. unfold ConflictDialog.run.
  assert (Hinit : ConflictDialog.conflicts (ConflictDialog.init cs) = cs /\
                  ConflictDialog.results (ConflictDialog.init cs) = ∅ /\
                  ConflictDialog.cancelled (ConflictDialog.init cs) = false).
  { unfold ConflictDialog.init, ConflictDialog._show_conflict. cbn.
    by destruct (_ <=? _)%nat. }
  destruct Hinit as (Hc & Hr & Hcan).
  destruct (MoreDialogFacts.wait_window_keeps script (ConflictDialog.init cs))
    as (H1 & H2 & H3 & H4).
  { rewrite Hr, dom_empty_L. set_solver. }
  rewrite Hc in H2, H3. split; [done|]. split; [done|]. split.
  - intros f Hf. apply elem_of_dom in Hf. apply H3 in Hf.
    by apply elem_of_list_to_set in Hf.
  - intros H. destruct (H4 H) as [H'|H']; [congruence | done].
Qed.

(** ** The further properties on the sample installation *)

Lemma listing_passed_verbatim_witness :
  let W := Demo.world Demo.listings Demo.mtimes [] [] true in
  let ls_l := (_run_command W ls_files (Some (local_path Demo.project))
                 [EStatus "Syncing untracked files to remote..." "blue"]).1 in
  ls_l.1 = true /\ ls_l.2 <> EmptyString /\
  temp_files (push_files W Demo.project [] []).2 =
    [("/tmp/tmpq1w2e3.txt", Demo.lines ["build.log"; "notes.txt"; ".env"])].
Proof.
  intros W ls_l.
  assert (Hok : ls_l.1 = true) by reflexivity.
  assert (Hout : ls_l.2 <> EmptyString) by discriminate.
  split; [exact Hok|]. split; [exact Hout|].
  exact (proj1 (listing_passed_verbatim W Demo.project []) Hok Hout).
Defined.

Lemma transfer_result_surfaced_witness :
  let W := Demo.world
             ((rsync_to_remote Demo.project "/tmp/tmpq1w2e3.txt",
               Completed 23 "" "rsync error: some files could not be transferred")
              :: Demo.listings) Demo.mtimes [] [] true in
  keep_files
    (_get_gitignored_files W Demo.project true
       [EStatus "Syncing untracked files to remote..." "blue"]).1 ["notes.txt"] <> [] /\
  (push_files W Demo.project ["notes.txt"] []).1 = false /\
  errors_shown (push_files W Demo.project ["notes.txt"] []).2 =
    [EShowError "Error"
       ("Sync failed:" +:+ nl +:+ "rsync error: some files could not be transferred")].
Proof.
  intros W.
  assert (Hne : keep_files
    (_get_gitignored_files W Demo.project true
       [EStatus "Syncing untracked files to remote..." "blue"]).1 ["notes.txt"] <> [])
    by (vm_compute; discriminate).
  destruct (proj1 (transfer_result_surfaced W Demo.project ["notes.txt"] []) Hne)
    as (Hres & Herr & _).
  split; [exact Hne|]. split; [rewrite Hres; reflexivity|].
  rewrite Herr. reflexivity.
Defined.

Lemma git_pull_gate_witness :
  let W := Demo.world [(status_cmd, Completed 0 (" M a.py" +:+ nl) "")] []
             [] [] false in
  current_project Demo.app = Some Demo.project /\
  (_git_pull W Demo.app []).1 = false /\
  commands (_git_pull W Demo.app []).2 = [status_cmd].
Proof.
  intros W.
  destruct (git_pull_gate W Demo.app Demo.project [] eq_refl) as (Hno & _).
  destruct (Hno eq_refl eq_refl) as (Hr & _ & Hcmds & _).
  split; [reflexivity|]. split; [exact Hr | exact Hcmds].
Defined.

Lemma failed_status_is_clean_witness :
  let W := Demo.world
             [(status_cmd, Completed 128 "" "fatal: not a git repository")] []
             [] [CommitAndPush "wip"] true in
  current_project Demo.app = Some Demo.project /\
  (_run_command W status_cmd (Some (local_path Demo.project))
     [EStatus "Checking for uncommitted changes..." "blue"]).1.1 = false /\
  commands (_git_push W Demo.app []).2 = [push_cmd Demo.project; status_cmd] /\
  prompts (_git_push W Demo.app []).2 = [].
Proof.
  intros W.
  destruct (proj1 (failed_status_is_clean W Demo.app Demo.project [] eq_refl) eq_refl)
    as (_ & _ & Hcmds & Hprompts).
  split; [reflexivity|]. split; [reflexivity|]. split; [exact Hcmds | exact Hprompts].
Defined.

Lemma git_push_commands_witness :
  let W := Demo.world [(status_cmd, Completed 0 (" M a.py" +:+ nl) "")] []
             [] [CommitAndPush "  "; CommitAndPush " fix typo "] true in
  current_project Demo.app = Some Demo.project /\
  commands (_git_push W Demo.app []).2 =
    [push_cmd Demo.project; commit_cmd "fix typo"; status_cmd] /\
  exists cmds,
    commands (_git_push W Demo.app []).2 = cmds ++ [] /\
    (cmds = [status_cmd] \/
     cmds = [push_cmd Demo.project; status_cmd] \/
     exists msg,
       msg <> EmptyString /\ PyStr.strip msg = msg /\
       (cmds = [commit_cmd msg; status_cmd] \/
        cmds = [push_cmd Demo.project; commit_cmd msg; status_cmd])).
Proof.
  intros W. split; [reflexivity|]. split; [reflexivity|].
  exact (git_push_commands W Demo.app Demo.project [] eq_refl).
Defined.

Lemma all_decided_individually_witness :
  let cs := [ {| file := "a.bin"; local_time := "1"; remote_time := "2" |};
              {| file := "b.bin"; local_time := "3"; remote_time := "4" |} ] in
  let d := ConflictDialog.run cs [Decide Remote false; Decide Skip false; CancelAll] in
  NoDup (file <$> cs) /\ cs <> [] /\ length [Remote; Skip] = length cs /\
  ConflictDialog.cancelled d = false /\
  ConflictDialog.results d !! "a.bin" = Some Remote /\
  ConflictDialog.results d !! "b.bin" = Some Skip.
Proof.
  intros cs d.
  assert (Hnd : NoDup (file <$> cs)).
  { apply (bool_decide_unpack _). vm_compute. exact I. }
  assert (Hne : cs <> []) by discriminate.
  destruct (all_decided_individually cs [Remote; Skip] [CancelAll] Hnd Hne eq_refl)
    as (_ & Hcan & _ & Hall).
  split; [exact Hnd|]. split; [exact Hne|]. split; [reflexivity|].
  split; [exact Hcan|].
  split; [exact (Hall 0 _ eq_refl) | exact (Hall 1 _ eq_refl)].
Defined.


(** ** Formatted timestamps *)

Lemma mod_100 n : n mod 100 = 10 * ((n / 10) mod 10) + n mod 10.
Proof.
  pose proof (Nat.div_mod_eq n 10). pose proof (Nat.div_mod_eq (n / 10) 10).
  pose proof (Nat.mod_upper_bound n 10).
  pose proof (Nat.mod_upper_bound (n / 10) 10).
  symmetry. apply (Nat.mod_unique n 100 (n / 10 / 10)); lia.
Qed.

Lemma digit_inj n m : PyStr.digit n = PyStr.digit m -> n mod 10 = m mod 10.
Proof.
  unfold PyStr.digit. intros H. apply (f_equal nat_of_ascii) in H.
  pose proof (Nat.mod_upper_bound n 10). pose proof (Nat.mod_upper_bound m 10).
  rewrite !nat_ascii_embedding in H by lia. lia.
Qed.

Lemma String_inj a b s s' : String a s = String b s' -> a = b /\ s = s'.
Proof. intros H. split; congruence. Qed.

Lemma pad2_inj n m : PyStr.pad2 n = PyStr.pad2 m -> n mod 100 = m mod 100.
Proof.
  unfold PyStr.pad2. intros H.
  apply String_inj in H as [H1 H]. apply String_inj in H as [H2 _].
  apply digit_inj in H1, H2. rewrite !mod_100. lia.
Qed.

Lemma pad2_append_inj n m s s' :
  PyStr.pad2 n +:+ s = PyStr.pad2 m +:+ s' -> PyStr.pad2 n = PyStr.pad2 m /\ s = s'.
Proof.
  unfold PyStr.pad2. cbn [String.append]. intros H.
  apply String_inj in H as [H1 H]. apply String_inj in H as [H2 H].
  by rewrite H1, H2.
Qed.

Lemma sep_inj sep s s' :
  String sep EmptyString +:+ s = String sep EmptyString +:+ s' -> s = s'.
Proof. cbn [String.append]. intros H. by injection H. Qed.

Lemma pad2_inj_small n m :
  n < 100 -> m < 100 -> PyStr.pad2 n = PyStr.pad2 m -> n = m.
Proof.
  intros Hn Hm H. apply pad2_inj in H. by rewrite !Nat.mod_small in H.
Qed.

Lemma strftime_parts d :
  strftime d =
    PyStr.pad2 (year d / 100) +:+ PyStr.pad2 (year d) +:+ "-" +:+
    PyStr.pad2 (month d) +:+ "-" +:+ PyStr.pad2 (day d) +:+ " " +:+
    PyStr.pad2 (hour d) +:+ ":" +:+ PyStr.pad2 (minute d) +:+ ":" +:+
    PyStr.pad2 (second d).
Proof. reflexivity. Qed.

(** X11. A formatted timestamp has 19 characters, and two valid dates
    format to the same text only if they are the same date and time to
    the second: the detector's comparison of formatted times is the
    comparison of the two calendar seconds. *)
Theorem strftime_injective (d1 d2 : datetime) :
  valid_datetime d1 -> valid_datetime d2 ->
  String.length (strftime d1) = 19 /\
  (strftime d1 = strftime d2 <-> d1 = d2).
Proof.
  intros (Hy1 & Hm1 & Hd1 & Hh1 & Hi1 & Hs1) (Hy2 & Hm2 & Hd2 & Hh2 & Hi2 & Hs2).
  split; [reflexivity|]. split; [|by intros ->].
  rewrite !strftime_parts. intros H.
  apply pad2_append_inj in H as [Hhi H]. apply pad2_append_inj in H as [Hlo H].
  apply sep_inj in H. apply pad2_append_inj in H as [Hmonth H].
  apply sep_inj in H. apply pad2_append_inj in H as [Hday H].
  apply sep_inj in H. apply pad2_append_inj in H as [Hhour H].
  apply sep_inj in H. apply pad2_append_inj in H as [Hminute H].
  apply sep_inj in H.
  apply pad2_inj in Hhi, Hlo.
  apply pad2_inj_small in Hmonth, Hday, Hhour, Hminute, H; try done.
  assert (year d1 / 100 < 100) by (apply Nat.Div0.div_lt_upper_bound; lia).
  assert (year d2 / 100 < 100) by (apply Nat.Div0.div_lt_upper_bound; lia).
  rewrite !Nat.mod_small in Hhi by lia.
  pose proof (Nat.div_mod_eq (year d1) 100).
  pose proof (Nat.div_mod_eq (year d2) 100).
  assert (year d1 = year d2) by lia.
  destruct d1, d2. cbn in *. congruence.
Qed.

(** ** The project dialog *)

Lemma project_save_cases isdir typed :
  match ProjectDialog._save isdir typed with
  | inr p =>
      name p = PyStr.strip (ProjectDialog.name_var typed) /\
      local_path p = PyStr.strip (ProjectDialog.local_var typed) /\
      remote_host p = PyStr.strip (ProjectDialog.host_var typed) /\
      remote_path p = PyStr.strip (ProjectDialog.remote_var typed) /\
      git_branch p =
        (if PyStr.truthy (PyStr.strip (ProjectDialog.branch_var typed))
         then PyStr.strip (ProjectDialog.branch_var typed) else "main") /\
      name p <> "" /\ local_path p <> "" /\ remote_host p <> "" /\
      remote_path p <> "" /\ git_branch p <> "" /\
      isdir (local_path p) = true
  | inl _ =>
      PyStr.strip (ProjectDialog.name_var typed) = "" \/
      PyStr.strip (ProjectDialog.local_var typed) = "" \/
      PyStr.strip (ProjectDialog.host_var typed) = "" \/
      PyStr.strip (ProjectDialog.remote_var typed) = "" \/
      isdir (PyStr.strip (ProjectDialog.local_var typed)) = false
  end.
Proof.
  unfold ProjectDialog._save.
  destruct (PyStr.strip (ProjectDialog.name_var typed)) eqn:E1; cbn; [by left|].
  destruct (PyStr.strip (ProjectDialog.local_var typed)) eqn:E2; cbn; [by right; left|].
  destruct (PyStr.strip (ProjectDialog.host_var typed)) eqn:E3; cbn; [by right; right; left|].
  destruct (PyStr.strip (ProjectDialog.remote_var typed)) eqn:E4; cbn; [by right; right; right; left|].
  destruct (isdir _) eqn:E5; cbn; [|by right; right; right; right].
  repeat split; try done.
  by destruct (PyStr.strip (ProjectDialog.branch_var typed)).
Qed.

(** X12. The project dialog answers each rejected submission with one
    error dialog and stays open.  It returns a project only from the
    first accepted submission: the stripped entries, all four required
    ones non-empty, a non-empty branch, and a local path that was a
    directory when checked.  It returns nothing when the user cancels
    or closes it first.  It shows nothing but these error dialogs. *)
Theorem project_dialog_outcome isdir script t :
  let r := ProjectDialog.wait_window isdir script t in
  exists errs,
    r.2 = errs ++ t /\
    Forall (fun e => exists msg, e = EShowError "Error" msg) errs /\
    (forall i, i < length errs -> exists typed, script !! i = Some (ProjectDialog.Save typed)) /\
    match r.1 with
    | Some p =>
        exists typed,
          script !! length errs = Some (ProjectDialog.Save typed) /\
          ProjectDialog._save (isdir r.2) typed = inr p /\
          name p = PyStr.strip (ProjectDialog.name_var typed) /\
          local_path p = PyStr.strip (ProjectDialog.local_var typed) /\
          remote_host p = PyStr.strip (ProjectDialog.host_var typed) /\
          remote_path p = PyStr.strip (ProjectDialog.remote_var typed) /\
          name p <> "" /\ local_path p <> "" /\ remote_host p <> "" /\
          remote_path p <> "" /\ git_branch p <> "" /\
          isdir r.2 (local_path p) = true
    | None =>
        script !! length errs = None \/
        script !! length errs = Some ProjectDialog.Cancel
    end.
Proof.
  revert t. induction script as [|a script IH]; intros t; cbn zeta.
  - exists []. cbn. repeat split; [constructor|lia|by left].
  - destruct a as [typed|].
    + cbn [ProjectDialog.wait_window]. unfold bind, ask.
      pose proof (project_save_cases (isdir t) typed) as Hc.
      destruct (ProjectDialog._save (isdir t) typed) as [msg|p] eqn:E.
      * unfold showerror, emit.
        destruct (IH (EShowError "Error" msg :: t)) as (errs & Ht & Hf & Hs & Hr).
        exists (errs ++ [EShowError "Error" msg]).
        rewrite <- app_assoc. cbn [app]. split; [exact Ht|].
        split; [apply Forall_app; split; [done|repeat constructor; by eexists]|].
        rewrite length_app, Nat.add_comm. cbn [length Nat.add].
        split.
        { intros [|i] Hi; cbn; [by eexists|]. apply Hs. lia. }
        cbn [lookup list_lookup]. exact Hr.
      * exists []. cbn. split; [done|]. split; [constructor|]. split; [lia|].
        exists typed. split; [done|]. split; [done|]. tauto.
    + exists []. cbn. repeat split; [constructor|lia|by right].
Qed.

(** ** Project management *)

Module MoreGuiFacts.
Import Gui.

Lemma on_selected_spec a :
  let a' := _on_project_selected a in
  projects a' = projects a /\ store a' = store a /\
  project_var a' = project_var a /\ combo_values a' = combo_values a /\
  current_project a' = snd <$> first_named (project_var a) (projects a) /\
  buttons_enabled a' = bool_decide (is_Some (current_project a')).
Proof.
  unfold _on_project_selected.
  destruct (first_named (project_var a) (projects a)) as [[i q]|]; cbn; done.
Qed.

Lemma on_selected_consistent a :
  combo_values a = name <$> projects a -> consistent (_on_project_selected a).
Proof.
  intros H. destruct (on_selected_spec a) as (Hp & _ & Hv & Hc & Hcur & Hb).
  unfold consistent. rewrite Hp, Hv, Hc. done.
Qed.

Lemma first_named_head q ps : first_named (name q) (q :: ps) = Some (0, q).
Proof. unfold first_named. cbn. by rewrite decide_True. Qed.

Lemma update_list_spec a :
  let a' := _update_project_list a in
  projects a' = projects a /\ store a' = store a /\
  combo_values a' = name <$> projects a /\
  (PyStr.truthy (project_var a) = true -> 
     project_var a' = project_var a /\ current_project a' = current_project a /\
     buttons_enabled a' = buttons_enabled a) /\
  (project_var a = "" ->
     match projects a with
     | [] => project_var a' = "" /\ current_project a' = current_project a /\
             buttons_enabled a' = buttons_enabled a
     | q :: _ => project_var a' = name q /\ current_project a' = Some q /\
                 buttons_enabled a' = true
     end).
Proof.
  unfold _update_project_list, get_project_names.
  destruct (projects a) as [|q ps] eqn:E; cbn [fmap list_fmap].
  - cbn. rewrite E. done.
  - cbn [project_var set_values]. destruct (project_var a) eqn:Ev; cbn [PyStr.truthy negb].
    + unfold _on_project_selected. cbn [project_var set_var projects set_values].
      rewrite E, first_named_head. cbn. rewrite E. done.
    + cbn. rewrite E. done.
Qed.

Lemma update_list_values a :
  combo_values (_update_project_list a) = name <$> projects (_update_project_list a).
Proof. destruct (update_list_spec a) as (-> & _ & -> & _). done. Qed.

Lemma first_named_snoc n ps p :
  name p = n ->
  first_named n (ps ++ [p]) =
    match first_named n ps with
    | Some r => Some r
    | None => Some (length ps, p)
    end.
Proof.
  intros Hn. unfold first_named.
  destruct (list_find (fun q => name q = n) ps) as [[i q]|] eqn:E.
  - apply list_find_app_Some. by left.
  - apply list_find_app_Some. right.
    cbn. rewrite decide_True by done. cbn. by rewrite Nat.sub_diag.
Qed.

Lemma consistent_current a cur :
  consistent a -> current_project a = Some cur ->
  exists i, first_named (name cur) (projects a) = Some (i, cur) /\
            project_var a = name cur /\ projects a !! i = Some cur.
Proof.
  intros (_ & Hc & _) Hcur. rewrite Hcur in Hc.
  destruct (first_named (project_var a) (projects a)) as [[i q]|] eqn:E; [|done].
  cbn in Hc. injection Hc as <-. exists i.
  pose proof E as E'. apply list_find_Some in E' as (Hi & Hn & _).
  rewrite <- Hn in E. by rewrite Hn at 2.
Qed.

End MoreGuiFacts.

Section MoreManageFacts.
Import Gui MoreGuiFacts.
Variable w : World.
Variable desk : Desk.

Lemma add_project_run a t :
  _add_project desk a t =
    match show_project_dialog desk "Add Project" None t with
    | (None, t1) => (a, t1)
    | (Some p, t1) =>
        if store_writable desk t1
        then (_on_project_selected
                (set_var (name p)
                   (_update_project_list
                      (set_store (Config.Text (json_dump desk (document (projects a ++ [p]))))
                         (set_projects (projects a ++ [p]) a)))),
              EStatus "Project added" "green" :: t1)
        else (set_projects (projects a ++ [p]) a, t1)
    end.
Proof.
  unfold _add_project, bind.
  destruct (show_project_dialog desk "Add Project" None t) as [[p|] t1]; [|done].
  unfold add_project, save, bind, ask.
  destruct (store_writable desk t1); done.
Qed.

Lemma edit_project_run a t cur i q :
  current_project a = Some cur ->
  first_named (name cur) (projects a) = Some (i, q) ->
  _edit_project desk a t =
    match show_project_dialog desk "Edit Project" (Some cur) t with
    | (None, t1) => (a, t1)
    | (Some p, t1) =>
        if store_writable desk t1
        then (_on_project_selected
                (set_var (name p)
                   (_update_project_list
                      (set_store (Config.Text (json_dump desk (document (<[i := p]> (projects a)))))
                         (set_projects (<[i := p]> (projects a)) a)))),
              EStatus "Project updated" "green" :: t1)
        else (set_projects (<[i := p]> (projects a)) a, t1)
    end.
Proof.
  intros Hc Hf. unfold _edit_project. rewrite Hc, Hf. unfold bind.
  destruct (show_project_dialog desk "Edit Project" (Some cur) t) as [[p|] t1]; [|done].
  unfold update_project.
  apply list_find_Some in Hf as (Hi & _). apply lookup_lt_Some in Hi.
  rewrite decide_True by done.
  unfold save, bind, ask.
  destruct (store_writable desk t1); done.
Qed.


Lemma remove_project_run a t cur i q :
  current_project a = Some cur ->
  first_named (name cur) (projects a) = Some (i, q) ->
  _remove_project w desk a t =
    let t1 := EAskYesNo "Confirm" (Gui.remove_question cur) :: t in
    if negb (askyesno w t "Confirm" (Gui.remove_question cur)) then (a, t1)
    else if store_writable desk t1
    then (_on_project_selected
            (_update_project_list
               (set_current None
                  (set_var ""
                     (set_store (Config.Text (json_dump desk (document (delete i (projects a)))))
                        (set_projects (delete i (projects a)) a))))),
          EStatus "Project removed" "green" :: t1)
    else (set_projects (delete i (projects a)) a, t1).
Proof.
  intros Hc Hf. unfold _remove_project. rewrite Hc, Hf.
  unfold bind, ask_yes_no, bind, ask, emit, ret, Gui.remove_question. cbn zeta.
  destruct (askyesno w t _ _); cbn [negb]; [|done].
  unfold remove_project.
  apply list_find_Some in Hf as (Hi & _). apply lookup_lt_Some in Hi.
  rewrite decide_True by done.
  unfold save, bind, ask.
  destruct (store_writable desk _); done.
Qed.

End MoreManageFacts.

Section GuiTheorems.
Import Gui MoreGuiFacts.

(** X13. While the store can be written, the main window stays
    consistent: after start-up, and after picking a name, adding,
    editing or removing a project, the combo box lists exactly the
    project names, the selected project is the first of the list with
    the name shown in the combo box (none if there is none), and the
    operation buttons are enabled exactly when a project is selected. *)
Theorem management_keeps_consistent (w : World) (desk : Desk) :
  (forall t, store_writable desk t = true) ->
  (forall ps f, consistent (init ps f)) /\
  (forall a t, consistent a ->
     (forall n, consistent (select n a)) /\
     consistent (_add_project desk a t).1 /\
     consistent (_edit_project desk a t).1 /\
     consistent (_remove_project w desk a t).1).
Proof.
  intros Hw. split.
  - intros ps f. unfold init.
    match goal with |- consistent (_update_project_list ?a0) =>
      pose proof (update_list_spec a0) as (Hp & _ & Hv & _ & He) end.
    cbn [project_var projects] in *. specialize (He eq_refl).
    unfold consistent. rewrite Hv, Hp. cbn [projects]. split; [done|].
    destruct ps as [|q ps]; destruct He as (-> & -> & ->); cbn [current_project]; [done|].
    rewrite first_named_head. done.
  - intros a t Ha. split; [|split; [|split]].
    + intros n. apply on_selected_consistent. apply Ha.
    + rewrite add_project_run.
      destruct (show_project_dialog desk "Add Project" None t) as [[p|] t1]; [|done].
      rewrite Hw. apply on_selected_consistent, update_list_values.
    + destruct (current_project a) as [cur|] eqn:Hc;
        [|unfold _edit_project; by rewrite Hc].
      destruct (first_named (name cur) (projects a)) as [[i q]|] eqn:Hf;
        [|unfold _edit_project; by rewrite Hc, Hf].
      rewrite (edit_project_run desk a t cur i q Hc Hf).
      destruct (show_project_dialog desk "Edit Project" (Some cur) t) as [[p|] t1]; [|done].
      rewrite Hw. apply on_selected_consistent, update_list_values.
    + destruct (current_project a) as [cur|] eqn:Hc;
        [|unfold _remove_project; by rewrite Hc].
      destruct (first_named (name cur) (projects a)) as [[i q]|] eqn:Hf.
      * rewrite (remove_project_run w desk a t cur i q Hc Hf). cbn zeta.
        destruct (askyesno w t _ _); cbn [negb]; [|done].
        rewrite Hw. apply on_selected_consistent, update_list_values.
      * unfold _remove_project. rewrite Hc, Hf.
        unfold bind, ask_yes_no, bind, ask, emit, ret.
        destruct (askyesno w t _ _); cbn [negb]; [|done].
        apply on_selected_consistent, update_list_values.
Qed.

(** X14. An accepted "Add Project" appends the project at the end of
    the list, writes the whole list to the store, shows its name in the
    combo box and enables the buttons.  The selection goes to the first
    project with that name: the new one if the name is new, otherwise
    the older project of the same name. *)
Theorem add_project_effect (desk : Desk) (a : t) (t0 t1 : trace) (p : Project) :
  show_project_dialog desk "Add Project" None t0 = (Some p, t1) ->
  store_writable desk t1 = true ->
  let r := _add_project desk a t0 in
  projects r.1 = projects a ++ [p] /\
  saved desk r.1 /\
  combo_values r.1 = (name <$> projects a) ++ [name p] /\
  project_var r.1 = name p /\
  current_project r.1 =
    Some (default p (snd <$> first_named (name p) (projects a))) /\
  (name p ∉ name <$> projects a -> current_project r.1 = Some p) /\
  buttons_enabled r.1 = true /\
  r.2 = EStatus "Project added" "green" :: t1.
Proof.
  intros Hd Hw. cbn zeta. rewrite add_project_run, Hd, Hw. cbn [fst snd].
  match goal with |- context [_on_project_selected ?a0] =>
    pose proof (on_selected_spec a0) as (Hp & Hs & Hv & Hc & Hcur & Hb) end.
  cbn [projects store project_var combo_values set_var] in *.
  match type of Hp with context [_update_project_list ?a0] =>
    pose proof (update_list_spec a0) as (Hp' & Hs' & Hv' & _) end.
  cbn [projects store set_store set_projects] in *.
  rewrite Hp' in *. rewrite Hs' in Hs. rewrite Hv' in Hc.
  rewrite first_named_snoc in Hcur by done.
  assert (Hcur' : current_project
      (_on_project_selected
         (set_var (name p)
            (_update_project_list
               (set_store (Config.Text (json_dump desk (document (projects a ++ [p]))))
                  (set_projects (projects a ++ [p]) a))))) =
      Some (default p (snd <$> first_named (name p) (projects a)))).
  { rewrite Hcur. by destruct (first_named (name p) (projects a)) as [[]|]. }
  split; [done|]. split; [unfold saved; by rewrite Hs, Hp|].
  split; [by rewrite Hc, fmap_app|]. split; [done|]. split; [done|].
  split.
  - intros Hn. rewrite Hcur'. 
    destruct (first_named (name p) (projects a)) as [[i q]|] eqn:E; [|done].
    apply list_find_Some in E as (Hi & Hq & _). exfalso. apply Hn.
    apply list_elem_of_fmap. exists q. split; [done|]. by eapply list_elem_of_lookup_2.
  - split; [|done]. rewrite Hb, Hcur'. done.
Qed.

Lemma first_named_is_Some n ps q :
  q ∈ ps -> name q = n ->
  exists i q', first_named n ps = Some (i, q') /\ name q' = n /\ ps !! i = Some q'.
Proof.
  intros Hin Hn. unfold first_named.
  destruct (list_find_elem_of (fun q => name q = n) ps q Hin Hn) as [[i q'] E].
  exists i, q'. split; [done|]. apply list_find_Some in E as (? & ? & _). done.
Qed.

(** X15. In a consistent window an accepted "Edit Project" replaces the
    selected project in place (same position, every other entry and the
    length unchanged), writes the list to the store and shows the new
    name.  The selection goes to the first project with the new name:
    the edited one unless an earlier project already has that name. *)
Theorem edit_project_effect (desk : Desk) (a : t) (t0 t1 : trace) (cur p : Project) :
  consistent a ->
  current_project a = Some cur ->
  show_project_dialog desk "Edit Project" (Some cur) t0 = (Some p, t1) ->
  store_writable desk t1 = true ->
  let r := _edit_project desk a t0 in
  exists i,
    projects a !! i = Some cur /\
    (forall j q, j < i -> projects a !! j = Some q -> name q <> name cur) /\
    projects r.1 = <[i := p]> (projects a) /\
    saved desk r.1 /\
    combo_values r.1 = name <$> <[i := p]> (projects a) /\
    project_var r.1 = name p /\
    (exists j q, j <= i /\ projects r.1 !! j = Some q /\ name q = name p /\
                 current_project r.1 = Some q) /\
    ((forall j q, j < i -> projects a !! j = Some q -> name q <> name p) ->
     current_project r.1 = Some p) /\
    buttons_enabled r.1 = true /\
    r.2 = EStatus "Project updated" "green" :: t1.
Proof.
  intros Ha Hc Hd Hw. cbn zeta.
  destruct (consistent_current a cur Ha Hc) as (i & Hf & Hvar & Hi).
  rewrite (edit_project_run desk a t0 cur i cur Hc Hf), Hd, Hw. cbn [fst snd].
  match goal with |- context [_on_project_selected ?a0] =>
    pose proof (on_selected_spec a0) as (Hp & Hs & Hv & Hcv & Hcur & Hb) end.
  cbn [projects store project_var combo_values set_var] in *.
  match type of Hp with context [_update_project_list ?a0] =>
    pose proof (update_list_spec a0) as (Hp' & Hs' & Hv' & _) end.
  cbn [projects store set_store set_projects] in *.
  rewrite Hp' in *. rewrite Hs' in Hs. rewrite Hv' in Hcv.
  pose proof (lookup_lt_Some _ _ _ Hi) as Hlt.
  assert (Hip : <[i := p]> (projects a) !! i = Some p)
    by (by apply list_lookup_insert_eq).
  exists i. split; [done|]. split.
  { intros j q Hj Hq. apply list_find_Some in Hf as (_ & _ & Hfirst). by eapply Hfirst. }
  split; [done|]. split; [unfold saved; by rewrite Hs, Hp|].
  split; [done|]. split; [done|].
  destruct (first_named_is_Some (name p) (<[i := p]> (projects a)) p)
    as (j & q & Hfj & Hqn & Hqj); [by eapply list_elem_of_lookup_2|done|].
  rewrite Hfj in Hcur. cbn in Hcur.
  assert (Hji : j <= i).
  { apply list_find_Some in Hfj as (_ & _ & Hfirst).
    destruct (decide (j <= i)) as [|Hn]; [done|].
    exfalso. apply (Hfirst i p Hip); [lia|done]. }
  split; [exists j, q; by rewrite Hp|].
  split.
  - intros Hno. rewrite Hcur. f_equal.
    destruct (decide (j = i)) as [->|Hne]; [congruence|].
    rewrite list_lookup_insert_ne in Hqj by done.
    exfalso. apply (Hno j q); [lia|done|done].
  - split; [|done]. by rewrite Hb, Hcur.
Qed.

(** X16. In a consistent window a confirmed "Remove" deletes the
    selected project (one entry, at its position), writes the list to
    the store and selects the first remaining project; when none
    remains, nothing is selected, the combo box is empty and the
    buttons are disabled. *)
Theorem remove_project_effect (w : World) (desk : Desk) (a : t) (t0 : trace)
    (cur : Project) :
  consistent a ->
  current_project a = Some cur ->
  askyesno w t0 "Confirm" (Gui.remove_question cur) = true ->
  store_writable desk (EAskYesNo "Confirm" (Gui.remove_question cur) :: t0) = true ->
  let r := _remove_project w desk a t0 in
  exists i,
    projects a !! i = Some cur /\
    (forall j q, j < i -> projects a !! j = Some q -> name q <> name cur) /\
    projects r.1 = delete i (projects a) /\
    saved desk r.1 /\
    combo_values r.1 = name <$> delete i (projects a) /\
    current_project r.1 = head (delete i (projects a)) /\
    project_var r.1 = default "" (name <$> head (delete i (projects a))) /\
    buttons_enabled r.1 = bool_decide (delete i (projects a) <> []) /\
    r.2 = EStatus "Project removed" "green" ::
          EAskYesNo "Confirm" (Gui.remove_question cur) :: t0.
Proof.
  intros Ha Hc Hyes Hw. cbn zeta.
  destruct (consistent_current a cur Ha Hc) as (i & Hf & Hvar & Hi).
  rewrite (remove_project_run w desk a t0 cur i cur Hc Hf). cbn zeta.
  rewrite Hyes, Hw. cbn [negb fst snd].
  match goal with |- context [_on_project_selected ?a0] =>
    pose proof (on_selected_spec a0) as (Hp & Hs & Hv & Hcv & Hcur & Hb) end.
  match type of Hp with context [_update_project_list ?a0] =>
    pose proof (update_list_spec a0) as (Hp' & Hs' & Hv' & _ & He) end.
  cbn [projects store project_var set_store set_projects set_var set_current] in *.
  specialize (He eq_refl).
  rewrite Hp' in *. rewrite Hs' in Hs. rewrite Hv' in Hcv.
  set (Y := _update_project_list _) in *. set (X := _on_project_selected Y) in *.
  clearbody X Y.
  exists i. split; [done|]. split.
  { intros j q Hj Hq. apply list_find_Some in Hf as (_ & _ & Hfirst). by eapply Hfirst. }
  split; [done|]. split; [unfold saved; by rewrite Hs, Hp|].
  split; [done|].
  destruct (delete i (projects a)) as [|q rest] eqn:E.
  - destruct He as (Hv0 & _ & _). rewrite Hv0 in Hv. cbn in Hcur.
    rewrite Hb, Hcur, Hv. cbn. done.
  - destruct He as (Hv0 & _ & _). rewrite Hv0 in Hv, Hcur.
    rewrite first_named_head in Hcur. cbn in Hcur.
    rewrite Hb, Hcur, Hv. cbn. done.
Qed.



(** X18. When the store cannot be opened for writing, an accepted
    "Add Project" leaves the new project in the list in memory, but the
    store, the combo box and the selection stay as they were and no
    status is set: the window no longer shows the list it holds. *)
Theorem failed_store_write (desk : Desk) (a : t) (t0 t1 : trace) (p : Project) :
  consistent a ->
  show_project_dialog desk "Add Project" None t0 = (Some p, t1) ->
  store_writable desk t1 = false ->
  let r := _add_project desk a t0 in
  projects r.1 = projects a ++ [p] /\
  store r.1 = store a /\
  combo_values r.1 = combo_values a /\
  project_var r.1 = project_var a /\
  current_project r.1 = current_project a /\
  buttons_enabled r.1 = buttons_enabled a /\
  r.2 = t1 /\
  ~ consistent r.1.
Proof.
  intros Ha Hd Hw. cbn zeta. rewrite add_project_run, Hd, Hw. cbn.
  repeat split; try done.
  intros (Hv & _). cbn in Hv. destruct Ha as (Hv0 & _). rewrite Hv0 in Hv.
  apply (f_equal length) in Hv. rewrite !length_fmap, length_app in Hv. cbn in Hv. lia.
Qed.

End GuiTheorems.

(** ** The connection test *)

Lemma prefix_spec n s : String.prefix n s = true <-> exists post, s = n +:+ post.
Proof.
  revert s. induction n as [|c n IH]; intros s.
  - destruct s; cbn; (split; [by eexists|done]).
  - destruct s as [|d s]; cbn; [split; [done|by intros [? ?]]|].
    destruct (ascii_dec c d) as [->|Hne].
    + rewrite IH. split; intros [post H]; exists post.
      * by rewrite H.
      * by injection H.
    + split; [done|]. intros [post H]. by injection H.
Qed.

Lemma str_contains_spec n s :
  str_contains n s = true <-> exists pre post, s = pre +:+ n +:+ post.
Proof.
  induction s as [|c s IH]; cbn [str_contains].
  - rewrite orb_false_r, prefix_spec. split.
    + intros [post H]. by exists "", post.
    + intros (pre & post & H). destruct pre; [by exists post|done].
  - rewrite orb_true_iff, prefix_spec, IH. split.
    + intros [[post H]|(pre & post & H)].
      * by exists "", post.
      * exists (String c pre), post. cbn. by rewrite H.
    + intros (pre & post & H). destruct pre as [|d pre].
      * left. by exists post.
      * right. exists pre, post. by injection H.
Qed.

(** X19. The connection test without a selected project shows one
    error and runs nothing.  Otherwise it runs exactly one command, the
    ssh probe of the project's host, and reports success exactly when
    the command succeeded and its output contains the word
    [connected]; in every other case it shows one error dialog that
    carries the output. *)
Theorem test_connection_outcome (w : World) (self : SyncApp) (t : trace) :
  let r := (_test_connection w self t).2 in
  match current_project self with
  | None => r = EShowError "Error" "No project selected" :: t
  | Some p =>
      let t1 := EStatus "Testing SSH connection..." "blue" :: t in
      let out := (_run_command w (test_cmd p) None t1).1 in
      let t2 := ERun (test_cmd p) None :: t1 in
      commands r = test_cmd p :: commands t /\
      (out.1 = true /\ (exists pre post, out.2 = pre +:+ "connected" +:+ post) /\
       r = EShowInfo "Success" ("Successfully connected to " +:+ remote_host p) ::
           EStatus "Connection successful!" "green" :: t2
       \/
       (out.1 = false \/ ~ exists pre post, out.2 = pre +:+ "connected" +:+ post) /\
       r = EShowError "Connection Failed"
             (connection_failed_msg (remote_host p) out.2) ::
           EStatus "Connection failed" "red" :: t2)
  end.
Proof.
  cbn zeta. unfold _test_connection.
  destruct (current_project self) as [p|]; [|done].
  unfold bind, _set_status, emit.
  set (t1 := EStatus "Testing SSH connection..." "blue" :: t).
  assert (Ht : (_run_command w (test_cmd p) None t1).2 = ERun (test_cmd p) None :: t1).
  { unfold _run_command, bind, ask, emit, ret.
    by destruct (subprocess_run w t1 (test_cmd p) None). }
  destruct (_run_command w (test_cmd p) None t1) as [[success output] t2] eqn:E.
  cbn [fst snd] in *. subst t2.
  destruct (success && str_contains "connected" output) eqn:Eb.
  - apply andb_true_iff in Eb as [-> Hc]. apply str_contains_spec in Hc.
    unfold showinfo, emit. cbn [snd]. split; [done|]. by left.
  - unfold showerror, emit. cbn [snd]. split; [done|]. right. split; [|done].
    destruct success; [right|by left]. intros Hc.
    apply str_contains_spec in Hc. by rewrite Hc in Eb.
Qed.


(** ** Without a selected project *)

(** X21. With no project selected, both syncs, push and pull return
    non-success and the full sync returns, all silently: no command, no
    status, no dialog.  The connection test, "Edit Project" and
    "Remove" each show the one error [No project selected] and change
    nothing. *)
Theorem no_project_guards (w : World) (desk : Desk) (a : Gui.t) (t : trace) :
  Gui.current_project a = None ->
  (forall b, _sync_to_remote w (Gui.sync_app a) b t = (false, t)) /\
  (forall b, _sync_from_remote w (Gui.sync_app a) b t = (false, t)) /\
  _git_push w (Gui.sync_app a) t = (false, t) /\
  _git_pull w (Gui.sync_app a) t = (false, t) /\
  _full_sync w (Gui.sync_app a) t = (tt, t) /\
  _test_connection w (Gui.sync_app a) t =
    (tt, EShowError "Error" "No project selected" :: t) /\
  Gui._edit_project desk a t = (a, EShowError "Error" "No project selected" :: t) /\
  Gui._remove_project w desk a t =
    (a, EShowError "Error" "No project selected" :: t).
Proof.
  intros H.
  unfold _sync_to_remote, _sync_from_remote, _git_push, _git_pull, _full_sync,
    _test_connection, Gui._edit_project, Gui._remove_project, Gui.sync_app.
  cbn [current_project]. rewrite H. done.
Qed.

(** ** Questions asked by a sync *)

Lemma prompts_runs runs t :
  Forall (fun e => exists cmd cwd, e = ERun cmd cwd) runs ->
  prompts (runs ++ t) = prompts t.
Proof. induction 1 as [|e runs (cmd & cwd & ->) _ IH]; [done | by cbn]. Qed.

Lemma detect_conflicts_no_prompt w p t :
  prompts (_detect_conflicts w p t).2 = prompts t.
Proof.
  destruct (detect_conflicts_trace w p t) as (runs & -> & Hruns).
  by apply prompts_runs.
Qed.

Lemma push_files_no_prompt w p exclude t :
  prompts (push_files w p exclude t).2 = prompts t.
Proof.
  rewrite push_files_eq. cbv zeta.
  destruct (keep_files _ exclude) as [|f0 fs]; [done|].
  match goal with |- context [if ?b then _ else _] => destruct b end; reflexivity.
Qed.

Lemma pull_files_no_prompt w p exclude t :
  prompts (pull_files w p exclude t).2 = prompts t.
Proof.
  rewrite pull_files_eq. cbv zeta.
  destruct (keep_files _ exclude) as [|f0 fs]; [done|].
  match goal with |- context [if ?b then _ else _] => destruct b end; reflexivity.
Qed.

(** X22. A sync asks the user something only when detection found a
    conflict: then it opens exactly one conflict dialog, listing exactly
    the detected conflicts; with no conflict, or when called without
    conflict resolution, it opens no dialog and asks no question. *)
Theorem conflict_dialog_iff_conflicts (w : World) (self : SyncApp) (p : Project)
    (t : trace) :
  current_project self = Some p ->
  let t0 := EStatus "Checking for conflicts..." "blue" :: t in
  let cs := (_detect_conflicts w p t0).1 in
  let shown := match cs with [] => [] | _ :: _ => [EConflictDialog cs] end in
  prompts (_sync_to_remote w self true t).2 = shown ++ prompts t /\
  prompts (_sync_from_remote w self true t).2 = shown ++ prompts t /\
  prompts (_sync_to_remote w self false t).2 = prompts t /\
  prompts (_sync_from_remote w self false t).2 = prompts t.
Proof.
  intros Hsel. cbv zeta.
  set (t0 := EStatus "Checking for conflicts..." "blue" :: t).
  rewrite !(sync_to_remote_eq w self p Hsel), !(sync_from_remote_eq w self p Hsel).
  cbv zeta. fold t0.
  pose proof (detect_conflicts_no_prompt w p t0) as Hd.
  change (prompts t0) with (prompts t) in Hd.
  rewrite (push_files_no_prompt w p [] t0), (pull_files_no_prompt w p [] t0).
  destruct (_detect_conflicts w p t0) as [cs t1]. cbn [fst snd] in *.
  assert (Hshown : forall cs0 : list Conflict,
            prompts (EConflictDialog cs0 :: t1) = [EConflictDialog cs0] ++ prompts t).
  { intros cs0. cbn. by rewrite <- Hd. }
  destruct cs as [|c0 cs'].
  - rewrite push_files_no_prompt, pull_files_no_prompt, Hd. done.
  - destruct (ConflictDialog.cancelled _);
      rewrite ?push_files_no_prompt, ?pull_files_no_prompt, <- Hshown; done.
Qed.


(** ** Loading a well-formed store *)

Lemma default_last_cons {A} (d x : A) (l : list A) :
  default d (last (x :: l)) = default x (last l).
Proof.
  revert d x. induction l as [|y l IH]; intros d x; [done|].
  rewrite last_cons_cons, (IH d y), (IH x y). done.
Qed.

Lemma dict_get_last members key d :
  Config.dict_get members key d =
    default d (last ((filter (fun kv => kv.1 = key) members).*2)).
Proof.
  revert d. induction members as [|[k v] members IH]; intros d; [done|].
  cbn [Config.dict_get]. rewrite filter_cons. cbn [fst].
  destruct (decide (k = key)) as [->|Hne]; rewrite IH; [|done].
  rewrite fmap_cons. cbn [snd]. by rewrite default_last_cons.
Qed.

(** X23. A store that holds valid JSON is loaded without any check of
    its shape: an object gives the value of its [projects] member (of
    the last one, if the text repeats the key) and the empty list when
    it has none; any other document (an array, a string, a number,
    [null]) makes [load] raise [AttributeError], which it does not
    catch. *)
Theorem load_valid_document (json_load : string -> option Config.json)
    (content : string) (j : Config.json) :
  json_load content = Some j ->
  match j with
  | Config.JObject members =>
      Config.load json_load (Config.Text content) =
        Config.Loaded
          (default (Config.JArray [])
             (last ((filter (fun kv => kv.1 = "projects") members).*2)))
  | _ => Config.load json_load (Config.Text content) = Config.Raised "AttributeError"
  end.
Proof.
  intros H. unfold Config.load. rewrite H.
  destruct j; try done. by rewrite dict_get_last.
Qed.

(** ** The SSH set-up dialog *)

Module MoreSSHFacts.
Import SSHSetup.

Lemma rstrip_append_nl s : PyStr.rstrip (s +:+ nl) = PyStr.rstrip s.
Proof.
  induction s as [|a s IH]; [done|].
  change (String a s +:+ nl) with (String a (s +:+ nl)).
  by rewrite !rstrip_cons, IH.
Qed.

Lemma lstrip_append_nl s :
  PyStr.lstrip (s +:+ nl) = PyStr.lstrip s +:+ nl \/
  (PyStr.lstrip (s +:+ nl) = EmptyString /\ PyStr.lstrip s = EmptyString).
Proof.
  induction s as [|a s IH]; [by right|].
  change (String a s +:+ nl) with (String a (s +:+ nl)). cbn [PyStr.lstrip].
  destruct (PyStr.isspace a); [exact IH | by left].
Qed.

Lemma strip_append_nl s : PyStr.strip (s +:+ nl) = PyStr.strip s.
Proof.
  unfold PyStr.strip.
  destruct (lstrip_append_nl s) as [-> | [-> ->]]; [apply rstrip_append_nl | done].
Qed.

Lemma shown_key_stripped d : shown_key d = PyStr.strip (key_text d).
Proof. apply strip_append_nl. Qed.

Lemma find_key_spec read names n key :
  find_key read names = Some (n, key) ->
  exists i content,
    names !! i = Some n /\ read n = Readable content /\ key = PyStr.strip content /\
    forall j m, j < i -> names !! j = Some m -> forall c, read m <> Readable c.
Proof.
  induction names as [|m names IH]; [done|]. cbn [find_key].
  destruct (read m) as [| |content] eqn:E.
  - intros H. destruct (IH H) as (i & c & Hi & Hr & Hk & Hbefore).
    exists (S i), c. repeat split; try done.
    intros [|j] m' Hj Hm' c'; cbn in Hm'; [congruence|]. apply (Hbefore j); [lia|done].
  - intros H. destruct (IH H) as (i & c & Hi & Hr & Hk & Hbefore).
    exists (S i), c. repeat split; try done.
    intros [|j] m' Hj Hm' c'; cbn in Hm'; [congruence|]. apply (Hbefore j); [lia|done].
  - intros [= -> <-]. exists 0, content. repeat split; try done. lia.
Qed.

Lemma find_key_None read names :
  find_key read names = None ->
  forall m, m ∈ names -> forall c, read m <> Readable c.
Proof.
  induction names as [|n names IH]; [by intros _ m Hm; apply elem_of_nil in Hm|].
  cbn [find_key]. destruct (read n) eqn:E; [| |done].
  - intros H m Hm c. apply elem_of_cons in Hm as [->|Hm]; [congruence|by apply IH].
  - intros H m Hm c. apply elem_of_cons in Hm as [->|Hm]; [congruence|by apply IH].
Qed.

End MoreSSHFacts.

Section SSHTheorems.
Import SSHSetup MoreSSHFacts.

(** X24. Loading the SSH key shows no dialog and touches neither the
    host entry nor the clipboard.  It shows the stripped text of the
    first key file, [id_ed25519.pub] before [id_rsa.pub], that exists
    and can be read, with the status [Found: <name>], provided that
    text is not blank.  Otherwise it shows the placeholder and the
    [No SSH key found] status: when no key file can be read, and also
    when the first readable one is blank, whatever a later file holds.
    The key box is never left empty. *)
Theorem load_ssh_info_outcome (k : Keyring) (d : t) (t0 : trace) :
  let r := _load_ssh_info k d t0 in
  r.2 = t0 /\
  remote_host_var r.1 = remote_host_var d /\
  clipboard r.1 = clipboard d /\
  launched r.1 = launched d /\
  key_text r.1 <> EmptyString /\
  ((exists i n content,
      key_names !! i = Some n /\
      public_key k t0 n = Readable content /\
      (forall j m, j < i -> key_names !! j = Some m ->
                   forall c, public_key k t0 m <> Readable c) /\
      PyStr.strip content <> EmptyString /\
      key_text r.1 = PyStr.strip content /\
      key_status r.1 = ("Found: " +:+ n, "green"))
   \/
   (key_text r.1 = placeholder /\ key_status r.1 = no_key_status /\
    ((forall m, m ∈ key_names -> forall c, public_key k t0 m <> Readable c) \/
     exists i n content,
       key_names !! i = Some n /\
       public_key k t0 n = Readable content /\
       (forall j m, j < i -> key_names !! j = Some m ->
                    forall c, public_key k t0 m <> Readable c) /\
       PyStr.strip content = EmptyString))).
Proof.
  cbn zeta. unfold _load_ssh_info, bind, ask.
  destruct (find_key (public_key k t0) key_names) as [[n key]|] eqn:E.
  - destruct (find_key_spec _ _ _ _ E) as (i & content & Hi & Hr & -> & Hbefore).
    destruct (PyStr.strip content) as [|a s] eqn:Es; cbn [PyStr.truthy].
    + cbn. repeat split; try done. right. repeat split; try done.
      right. exists i, n, content. done.
    + cbn. repeat split; try done. left. exists i, n, content. by rewrite Es.
  - cbn. repeat split; try done. right. repeat split; try done. left.
    by apply find_key_None.
Qed.

(** X25. Copying the key puts the stripped text of the key box on the
    clipboard, with one confirmation, exactly when that text is neither
    blank nor the placeholder; otherwise it shows one error and leaves
    the clipboard and the dialog as they were.  It starts no
    process. *)
Theorem copy_key_outcome (d : t) (t0 : trace) :
  let r := _copy_key d t0 in
  let key := PyStr.strip (key_text d) in
  key_text r.1 = key_text d /\ launched r.1 = launched d /\
  ((key <> EmptyString /\ key <> placeholder /\
    clipboard r.1 = Some key /\
    r.2 = EShowInfo "Copied" "Public key copied to clipboard!" :: t0)
   \/
   ((key = EmptyString \/ key = placeholder) /\
    r.1 = d /\
    r.2 = EShowError "Error" "No key to copy. Generate one first." :: t0)).
Proof.
  cbn zeta. unfold _copy_key. rewrite shown_key_stripped.
  destruct (PyStr.strip (key_text d)) as [|a s] eqn:E; cbn [PyStr.truthy andb].
  - cbn. repeat split; try done. right. split; [by left|done].
  - destruct (decide (String a s = placeholder)) as [Hp|Hp].
    + rewrite bool_decide_false by (intros H; by apply H).
      cbn. repeat split; try done. right. split; [by right|done].
    + rewrite bool_decide_true by done.
      cbn. repeat split; try done. left. done.
Qed.

(** X26. Generating a key never touches the clipboard and starts
    [ssh-keygen] at most once, only after the user confirmed and the
    private key file did not exist when checked.  A declined question
    changes nothing; an existing key is reported and reloaded; a
    successful run is reported and the key reloaded; a run that exits
    non-zero or cannot be started shows one error and reloads
    nothing. *)
Theorem generate_key_outcome (w : World) (k : Keyring) (d : t) (t0 : trace) :
  let r := _generate_key w k d t0 in
  let t1 := EAskYesNo "Generate Key" generate_question :: t0 in
  let yes := askyesno w t0 "Generate Key" generate_question in
  clipboard r.1 = clipboard d /\
  ((yes = false /\ r = (d, t1))
   \/
   (yes = true /\ private_key_exists k t1 = true /\
    launched r.1 = launched d /\
    r = _load_ssh_info k d
          (EShowInfo "Key Exists"
             ("SSH key already exists at " +:+ private_key_path k +:+ nl +:+ nl +:+
              "Reload to view it.") :: t1))
   \/
   (yes = true /\ private_key_exists k t1 = false /\
    launched r.1 = keygen_argv k :: launched d /\
    match spawn k t1 (keygen_argv k) with
    | Exited 0 _ =>
        r = _load_ssh_info k (launch (keygen_argv k) d)
              (EShowInfo "Success" "SSH key generated successfully!" :: t1)
    | Exited _ stderr =>
        r = (launch (keygen_argv k) d,
             EShowError "Error" ("Failed to generate key:" +:+ nl +:+ stderr) :: t1)
    | SpawnFailed msg =>
        r = (launch (keygen_argv k) d,
             EShowError "Error" ("Failed to generate key:" +:+ nl +:+ msg) :: t1)
    end)).
Proof.
  cbn zeta. unfold _generate_key, bind, ask_yes_no, bind, ask, emit, ret.
  set (t1 := EAskYesNo "Generate Key" generate_question :: t0).
  destruct (askyesno w t0 "Generate Key" generate_question); cbn [negb].
  2:{ split; [done|]. by left. }
  destruct (private_key_exists k t1).
  - unfold showinfo, emit.
    match goal with |- context [_load_ssh_info k d ?t'] =>
      destruct (load_ssh_info_outcome k d t') as (_ & _ & Hc & Hl & _) end.
    cbn zeta in *. split; [done|]. right; left. done.
  - destruct (spawn k t1 (keygen_argv k)) as [rc stderr|msg].
    + destruct (rc =? 0)%Z eqn:Erc.
      * apply Z.eqb_eq in Erc as ->. unfold showinfo, emit.
        match goal with |- context [_load_ssh_info k ?d' ?t'] =>
          destruct (load_ssh_info_outcome k d' t') as (_ & _ & Hc & Hl & _) end.
        cbn zeta in *. split; [done|]. right; right. done.
      * unfold showerror, emit. cbn [fst snd launch clipboard launched].
        split; [done|]. right; right. repeat split; try done.
        destruct rc; done.
    + unfold showerror, emit. cbn. split; [done|]. right; right. done.
Qed.

(** X27. Sending the key starts one [osascript] process, whose script
    names the stripped host, exactly when the host entry is not blank
    and the key box holds a key (not blank, not the placeholder);
    otherwise it shows one error and starts nothing.  Once the process
    was started the dialog reports [Terminal Opened] whatever its exit
    code; only a failure to start it is reported as an error. *)
Theorem auto_copy_key_outcome (k : Keyring) (d : t) (t0 : trace) :
  let r := _auto_copy_key k d t0 in
  let remote := PyStr.strip (remote_host_var d) in
  let key := PyStr.strip (key_text d) in
  let argv := ["osascript"; "-e"; applescript remote] in
  key_text r.1 = key_text d /\ clipboard r.1 = clipboard d /\
  ((remote = EmptyString /\ r.1 = d /\
    r.2 = EShowError "Error"
            "Please enter the remote host (e.g., user@192.168.1.100)" :: t0)
   \/
   (remote <> EmptyString /\ (key = EmptyString \/ key = placeholder) /\ r.1 = d /\
    r.2 = EShowError "Error" "No SSH key found. Generate one first." :: t0)
   \/
   (remote <> EmptyString /\ key <> EmptyString /\ key <> placeholder /\
    launched r.1 = argv :: launched d /\
    match spawn k t0 argv with
    | Exited _ _ => exists msg, r.2 = EShowInfo "Terminal Opened" msg :: t0
    | SpawnFailed msg =>
        r.2 = EShowError "Error" ("Failed to open Terminal:" +:+ nl +:+ msg) :: t0
    end)).
Proof.
  cbn zeta. unfold _auto_copy_key. rewrite shown_key_stripped.
  destruct (PyStr.strip (remote_host_var d)) as [|a s] eqn:Er; cbn [PyStr.truthy negb].
  { cbn. repeat split; try done. by left. }
  destruct (PyStr.strip (key_text d)) as [|b s'] eqn:Ek; cbn [PyStr.truthy negb orb].
  { cbn. repeat split; try done. right; left. repeat split; try done. by left. }
  destruct (decide (String b s' = placeholder)) as [Hp|Hp].
  { rewrite bool_decide_true by done. cbn.
    repeat split; try done. right; left. repeat split; try done. by right. }
  rewrite bool_decide_false by done. unfold bind, ask.
  destruct (spawn k t0 _) as [rc stderr|msg] eqn:Es; cbn.
  - repeat split; try done. right; right. repeat split; try done. by eexists.
  - repeat split; try done. right; right. repeat split; try done.
Qed.

End SSHTheorems.

(** ** The properties of project management on the sample desk *)

Lemma strftime_injective_witness :
  let d1 := {| year := 2023; month := 11; day := 14;
               hour := 22; minute := 13; second := 20 |} in
  let d2 := {| year := 2023; month := 11; day := 14;
               hour := 22; minute := 13; second := 25 |} in
  valid_datetime d1 /\ valid_datetime d2 /\
  String.length (strftime d1) = 19 /\ strftime d1 <> strftime d2.
Proof.
  intros d1 d2.
  assert (H1 : valid_datetime d1) by (unfold valid_datetime; cbn; lia).
  assert (H2 : valid_datetime d2) by (unfold valid_datetime; cbn; lia).
  destruct (strftime_injective d1 d2 H1 H2) as (Hlen & Hiff).
  split; [exact H1|]. split; [exact H2|]. split; [exact Hlen|].
  intros He. apply Hiff in He. discriminate He.
Defined.

Lemma management_keeps_consistent_witness :
  let W := Demo.world [] [] [] [] true in
  let D := Office.desk ["/home/ann/blog"]
             [ProjectDialog.Save
                (Office.typed " blog " "/home/ann/blog" "mini" "/Users/ann/blog" "")]
             true in
  (forall t, store_writable D t = true) /\
  Gui.consistent (Gui.init [Demo.project] Config.Missing) /\
  Gui.consistent
    (Gui._add_project D (Gui.init [Demo.project] Config.Missing) []).1.
Proof.
  intros W D.
  assert (Hw : forall t, store_writable D t = true) by reflexivity.
  destruct (management_keeps_consistent W D Hw) as (Hinit & Hstep).
  split; [exact Hw|]. split; [apply Hinit|].
  apply (Hstep _ [] (Hinit [Demo.project] Config.Missing)).
Defined.

Lemma add_project_effect_witness :
  let D := Office.desk ["/home/ann/blog"]
             [ProjectDialog.Save
                (Office.typed " blog " "/home/ann/blog" "mini" "/Users/ann/blog" "")]
             true in
  let a := Gui.init [Demo.project] Config.Missing in
  Gui.show_project_dialog D "Add Project" None [] = (Some Office.blog, []) /\
  store_writable D [] = true /\
  Gui.projects (Gui._add_project D a []).1 = [Demo.project; Office.blog] /\
  Gui.current_project (Gui._add_project D a []).1 = Some Office.blog.
Proof.
  intros D a.
  assert (Hd : Gui.show_project_dialog D "Add Project" None [] = (Some Office.blog, []))
    by reflexivity.
  destruct (add_project_effect D a [] [] Office.blog Hd eq_refl)
    as (Hp & _ & _ & _ & Hcur & _).
  split; [exact Hd|]. split; [reflexivity|]. split; [exact Hp | exact Hcur].
Defined.

Lemma edit_project_effect_witness :
  let D := Office.desk ["/home/ann/blog"]
             [ProjectDialog.Save
                (Office.typed "blog" "/home/ann/blog" "mini" "/Users/ann/blog" "main")]
             true in
  let a := Gui.init [Demo.project] Config.Missing in
  Gui.consistent a /\
  Gui.current_project a = Some Demo.project /\
  Gui.show_project_dialog D "Edit Project" (Some Demo.project) [] =
    (Some Office.blog, []) /\
  store_writable D [] = true /\
  Gui.project_var (Gui._edit_project D a []).1 = "blog".
Proof.
  intros D a.
  assert (Ha : Gui.consistent a) by (repeat split).
  assert (Hd : Gui.show_project_dialog D "Edit Project" (Some Demo.project) [] =
               (Some Office.blog, [])) by reflexivity.
  destruct (edit_project_effect D a [] [] Demo.project Office.blog Ha eq_refl Hd eq_refl)
    as (i & _ & _ & _ & _ & _ & Hv & _).
  split; [exact Ha|]. split; [reflexivity|]. split; [exact Hd|].
  split; [reflexivity | exact Hv].
Defined.

Lemma remove_project_effect_witness :
  let W := Demo.world [] [] [] [] true in
  let D := Office.desk [] [] true in
  let a := Gui.init [Demo.project; Office.blog] Config.Missing in
  Gui.consistent a /\
  Gui.current_project a = Some Demo.project /\
  askyesno W [] "Confirm" (Gui.remove_question Demo.project) = true /\
  store_writable D [EAskYesNo "Confirm" (Gui.remove_question Demo.project)] = true /\
  Gui.saved D (Gui._remove_project W D a []).1.
Proof.
  intros W D a.
  assert (Ha : Gui.consistent a) by (repeat split).
  destruct (remove_project_effect W D a [] Demo.project Ha eq_refl eq_refl eq_refl)
    as (i & _ & _ & _ & Hs & _).
  split; [exact Ha|]. split; [reflexivity|]. split; [reflexivity|].
  split; [reflexivity | exact Hs].
Defined.


Lemma failed_store_write_witness :
  let D := Office.desk ["/home/ann/blog"]
             [ProjectDialog.Save
                (Office.typed "blog" "/home/ann/blog" "mini" "/Users/ann/blog" "main")]
             false in
  let a := Gui.init [Demo.project] Config.Missing in
  Gui.consistent a /\
  Gui.show_project_dialog D "Add Project" None [] = (Some Office.blog, []) /\
  store_writable D [] = false /\
  Gui.projects (Gui._add_project D a []).1 = [Demo.project; Office.blog] /\
  Gui.store (Gui._add_project D a []).1 = Config.Missing.
Proof.
  intros D a.
  assert (Ha : Gui.consistent a) by (repeat split).
  assert (Hd : Gui.show_project_dialog D "Add Project" None [] = (Some Office.blog, []))
    by reflexivity.
  destruct (failed_store_write D a [] [] Office.blog Ha Hd eq_refl)
    as (Hp & Hs & _).
  split; [exact Ha|]. split; [exact Hd|]. split; [reflexivity|].
  split; [exact Hp | exact Hs].
Defined.

Lemma no_project_guards_witness :
  let W := Demo.world [] [] [] [] true in
  let D := Office.desk [] [] true in
  let a := Gui.init [] Config.Missing in
  Gui.current_project a = None /\
  _full_sync W (Gui.sync_app a) [] = (tt, []) /\
  Gui._edit_project D a [] = (a, [EShowError "Error" "No project selected"]).
Proof.
  intros W D a.
  destruct (no_project_guards W D a [] eq_refl) as (_ & _ & _ & _ & Hf & _ & He & _).
  split; [reflexivity|]. split; [exact Hf | exact He].
Defined.

Lemma conflict_dialog_iff_conflicts_witness :
  let W := Demo.world Demo.listings Demo.mtimes [Decide Local false] [] true in
  current_project Demo.app = Some Demo.project /\
  prompts (_sync_to_remote W Demo.app true []).2 =
    [EConflictDialog (_detect_conflicts W Demo.project
                        [EStatus "Checking for conflicts..." "blue"]).1] /\
  prompts (_sync_to_remote W Demo.app false []).2 = [].
Proof.
  intros W.
  destruct (conflict_dialog_iff_conflicts W Demo.app Demo.project [] eq_refl)
    as (H1 & _ & H3 & _).
  split; [reflexivity|]. split; [exact H1 | exact H3].
Defined.

Lemma load_valid_document_witness :
  let json_load := Office.reader [Config.JArray []] in
  json_load "[]" = Some (Config.JArray []) /\
  Config.load json_load (Config.Text "[]") = Config.Raised "AttributeError".
Proof.
  intros json_load.
  assert (H : json_load "[]" = Some (Config.JArray [])) by reflexivity.
  split; [exact H|].
  apply (load_valid_document json_load "[]" (Config.JArray []) H).
Defined.

Lemma soft_failure_when_detection_returns_witness :
  let W := Demo.world Demo.listings Demo.mtimes [] [] true in
  let l := _get_gitignored_files W Demo.project true [] in
  let r := _get_gitignored_files W Demo.project false l.2 in
  let t_f := ERun (stat_cmd Demo.project "notes.txt") None :: r.2 in
  let cs := [ {| file := "notes.txt"; local_time := "2023-11-14 22:13:25";
                 remote_time := "2023-11-14 22:13:20" |} ] in
  examined Demo.project
    (elements ((list_to_set l.1 : gset string) ∩ list_to_set r.1)) r.2 ".env" t_f /\
  (_run_command W (stat_cmd Demo.project ".env") None t_f).1.1 = false /\
  (Raising._detect_conflicts W Demo.out_of_range Demo.project []).1 = inr cs /\
  forall c, c ∈ cs -> file c <> ".env".
Proof.
  intros W l r t_f cs.
  assert (Hex : examined Demo.project
    (elements ((list_to_set l.1 : gset string) ∩ list_to_set r.1)) r.2 ".env" t_f).
  { vm_compute. apply examined_later, examined_here. }
  assert (Hfail : (_run_command W (stat_cmd Demo.project ".env") None t_f).1.1 = false)
    by reflexivity.
  assert (Hret : (Raising._detect_conflicts W Demo.out_of_range Demo.project []).1 = inr cs)
    by (vm_compute; reflexivity).
  split; [exact Hex|]. split; [exact Hfail|]. split; [exact Hret|].
  exact (proj1 (soft_failure_when_detection_returns W Demo.out_of_range Demo.project
                  [] ".env" t_f cs Hex (or_intror (or_introl Hfail)) Hret)).
Defined.
